(** * Brightstair booking backend: a shallow embedding of [server.js]

    The development follows the layout of the server:
    - [JsString]     the JavaScript string primitives the handlers call;
    - [Normalizer]   the city table and [getIATACode];
    - [Exn]          exceptions, as an error monad;
    - [JsDate]       time values and [Date.prototype.toISOString];
    - [FlightModel], [UserModel], [BookingModel]  the Mongoose schemas;
    - [Provider]     the shape of the flight-offer provider's request and answer;
    - [Translator]   the offer translation done inside the search route;
    - [Store]        a collection of the document store;
    - [FlightSearch] the [/api/flights/search] route with its database fallback;
    - [Auth]         the [/api/auth/login] route;
    - [Bookings]     [authenticateToken] and the [/api/bookings] route;
    - [Spec] and [Fixtures]  the vocabulary of the statements and sample data;
    - [Order], [Catalog], [CarsRoute], [ToursRoute], [TransportationRoute],
      [FlightsRoute]  the listing routes and the sorting of their results;
    - [Registration], [MyBookings]  the [/api/auth/register] and
      [/api/bookings/my-bookings] routes;
    - [AirportSearch], [PriceAnalysis], [Cities]  the two provider proxies and
      the [/api/cities] route;
    - [Vocabulary] and [Samples]  more vocabulary and sample data.
    The properties follow, one module of facts per component.

    Text is modelled as 7-bit ASCII [string]s: characters above 127 are left
    alone by the case maps and are not white space.  Numbers that the server
    only compares or formats (timestamps in milliseconds, prices, seat counts)
    are integers in [Z].  Library functions whose result the server only passes
    on (locale time formatting, number parsing, the regular-expression engine,
    date parsing, password hashing, token signing) and the external services
    are fields of an environment record of the route that uses them. *)

From Stdlib Require Import String Ascii List ZArith NArith Lia Bool.
From Stdlib Require Import Sorted Permutation DecimalString.
From Stdlib Require QArith_base.
Import ListNotations.

Local Open Scope list_scope.
Local Open Scope string_scope.

(* ================================================================== *)
(** ** JavaScript string primitives *)
(* ================================================================== *)

Module JsString.

Definition code (c : ascii) : N := N_of_ascii c.

Definition is_upper (c : ascii) : bool := ((65 <=? code c) && (code c <=? 90))%N.
Definition is_lower (c : ascii) : bool := ((97 <=? code c) && (code c <=? 122))%N.
Definition is_digit (c : ascii) : bool := ((48 <=? code c) && (code c <=? 57))%N.

(** White space stripped by [String.prototype.trim]: TAB, LF, VT, FF, CR, SP. *)
Definition is_space (c : ascii) : bool :=
  (((9 <=? code c) && (code c <=? 13)) || (code c =? 32))%N.

Definition lower_char (c : ascii) : ascii :=
  if is_upper c then ascii_of_N (code c + 32) else c.

Definition upper_char (c : ascii) : ascii :=
  if is_lower c then ascii_of_N (code c - 32) else c.

Fixpoint map_string (f : ascii -> ascii) (s : string) : string :=
  match s with
  | EmptyString => EmptyString
  | String c r => String (f c) (map_string f r)
  end.

Fixpoint forall_string (p : ascii -> bool) (s : string) : bool :=
  match s with
  | EmptyString => true
  | String c r => p c && forall_string p r
  end.

Definition toLowerCase : string -> string := map_string lower_char.
Definition toUpperCase : string -> string := map_string upper_char.

Definition is_empty (s : string) : bool :=
  match s with EmptyString => true | _ => false end.

Fixpoint trimStart (s : string) : string :=
  match s with
  | EmptyString => EmptyString
  | String c r => if is_space c then trimStart r else s
  end.

Fixpoint trimEnd (s : string) : string :=
  match s with
  | EmptyString => EmptyString
  | String c r =>
      let r' := trimEnd r in
      if is_space c && is_empty r' then EmptyString else String c r'
  end.

Definition trim (s : string) : string := trimEnd (trimStart s).

(** [s.startsWith(p)] *)
Fixpoint startsWith (p s : string) : bool :=
  match p, s with
  | EmptyString, _ => true
  | String _ _, EmptyString => false
  | String a p', String b s' => Ascii.eqb a b && startsWith p' s'
  end.

Fixpoint drop (n : nat) (s : string) : string :=
  match n, s with
  | O, _ => s
  | S _, EmptyString => EmptyString
  | S n', String _ r => drop n' r
  end.

(** [s.includes(p)]: [p] occurs in [s] as a contiguous run. *)
Fixpoint includes (p s : string) : bool :=
  startsWith p s ||
  match s with
  | EmptyString => false
  | String _ r => includes p r
  end.

(** Substring containment up to ASCII letter case. *)
Definition includes_ci (p s : string) : bool :=
  includes (toLowerCase p) (toLowerCase s).

(** [s.replace(pat, rep)] with a string pattern: only the first occurrence is
    replaced, and [rep] holds no [$] pattern in this program. *)
Fixpoint replace (pat rep s : string) : string :=
  if startsWith pat s then rep ++ drop (String.length pat) s
  else match s with
       | EmptyString => EmptyString
       | String c r => String c (replace pat rep r)
       end.

(** [s.charAt(0)] and [s.slice(1)] *)
Definition charAt0 (s : string) : string :=
  match s with EmptyString => EmptyString | String c _ => String c EmptyString end.
Definition slice1 (s : string) : string := drop 1 s.

(** [s.split(sep)[0]] for a one-character separator. *)
Fixpoint before (sep : ascii) (s : string) : string :=
  match s with
  | EmptyString => EmptyString
  | String c r => if Ascii.eqb c sep then EmptyString else String c (before sep r)
  end.

(** [s.split(' ')[1]]: the text between the first and the second blank, when
    there is a first blank. *)
Fixpoint split_second (sep : ascii) (s : string) : option string :=
  match s with
  | EmptyString => None
  | String c r => if Ascii.eqb c sep then Some (before sep r) else split_second sep r
  end.

(** Decimal rendering of a number inside a template literal. *)
Definition of_nat (n : nat) : string := NilZero.string_of_uint (Nat.to_uint n).
Definition of_Z (z : Z) : string := NilZero.string_of_int (Z.to_int z).

(** How a template literal prints a possibly missing text property. *)
Definition show (o : option string) : string :=
  match o with Some s => s | None => "undefined" end.

End JsString.

(* ================================================================== *)
(** ** City / code normalizer *)
(* ================================================================== *)

Module Normalizer.
Import JsString.

(** The [cityToIATA] object literal, in source order (the order is what
    [Object.keys] reports). *)
Definition cityToIATA : list (string * string) :=
  [ ("lahore", "LHE"); ("karachi", "KHI"); ("islamabad", "ISB");
    ("peshawar", "PEW"); ("quetta", "UET"); ("multan", "MUX");
    ("faisalabad", "LYP"); ("sialkot", "SKT"); ("gwadar", "GWD");
    ("rawalpindi", "ISB");
    ("dubai", "DXB"); ("london", "LHR"); ("new york", "JFK");
    ("toronto", "YYZ"); ("jeddah", "JED"); ("riyadh", "RUH");
    ("doha", "DOH"); ("abu dhabi", "AUH"); ("istanbul", "IST");
    ("bangkok", "BKK"); ("kuala lumpur", "KUL"); ("singapore", "SIN");
    ("manchester", "MAN"); ("birmingham", "BHX"); ("paris", "CDG");
    ("tokyo", "NRT"); ("beijing", "PEK"); ("sydney", "SYD");
    ("melbourne", "MEL"); ("cairo", "CAI"); ("muscat", "MCT");
    ("kuwait", "KWI"); ("bahrain", "BAH"); ("sharjah", "SHJ");
    ("medina", "MED"); ("makkah", "JED"); ("delhi", "DEL");
    ("mumbai", "BOM"); ("dhaka", "DAC") ].

(** Own-property lookup in an object literal. *)
Fixpoint own (obj : list (string * string)) (key : string) : option string :=
  match obj with
  | [] => None
  | (k, v) :: rest => if String.eqb k key then Some v else own rest key
  end.

Definition keys (obj : list (string * string)) : list string := map fst obj.

(** An object literal inherits from [Object.prototype], and [obj[key]] walks
    the prototype chain.  These are the property names found there; each of
    them holds a function, except [__proto__], which yields the prototype
    object itself. *)
Definition Object_prototype : list string :=
  [ "constructor"; "__defineGetter__"; "__defineSetter__"; "hasOwnProperty";
    "__lookupGetter__"; "__lookupSetter__"; "isPrototypeOf";
    "propertyIsEnumerable"; "toString"; "valueOf"; "__proto__";
    "toLocaleString" ].

Definition inherited (key : string) : bool :=
  existsb (String.eqb key) Object_prototype.

(** What a read [obj[key]] of a text-valued object literal can produce (other
    than [undefined]): a text of the literal, or a member of
    [Object.prototype] named [key]. *)
Inductive JsValue : Type :=
| JsText (s : string)
| JsInherited (name : string).

Definition get (obj : list (string * string)) (key : string) : option JsValue :=
  match own obj key with
  | Some v => Some (JsText v)
  | None => if inherited key then Some (JsInherited key) else None
  end.

Definition truthy (v : JsValue) : bool :=
  match v with
  | JsText s => negb (is_empty s)
  | JsInherited _ => true
  end.

(** [x || dflt] where [x] may be [undefined]. *)
Definition or_else (x dflt : option JsValue) : option JsValue :=
  match x with
  | Some v => if truthy v then Some v else dflt
  | None => dflt
  end.

(** [/^[a-z]+$/.test(s)] *)
Definition test_a_z (s : string) : bool :=
  negb (is_empty s) && forall_string is_lower s.

(** [getIATACode(city)]; [None] is the route's missing query parameter on the
    input side and [null] on the output side. *)
Definition getIATACode (city : option string) : option JsValue :=
  match city with
  | None => None
  | Some city =>
      if is_empty city then None
      else
        let cityLower := trim (toLowerCase city) in
        if (String.length cityLower =? 3)%nat && test_a_z cityLower
        then Some (JsText (toUpperCase cityLower))
        else or_else (get cityToIATA cityLower) None
  end.

End Normalizer.

(* ================================================================== *)
(** ** Exceptions *)
(* ================================================================== *)

Module Exn.

(** A computation that returns a value or throws an [Error] with a message. *)
Inductive result (A : Type) : Type :=
| Ok (a : A)
| Throw (message : string).
Arguments Ok {A} a.
Arguments Throw {A} message.

Definition bind {A B : Type} (m : result A) (k : A -> result B) : result B :=
  match m with
  | Ok a => k a
  | Throw e => Throw e
  end.

(** [x.prop] throws a [TypeError] when [x] is [undefined]. *)
Definition reading {A : Type} (prop : string) (x : option A) : result A :=
  match x with
  | Some a => Ok a
  | None => Throw ("Cannot read properties of undefined (reading '" ++ prop ++ "')")
  end.

(** [xs.map(f)] where [f] may throw: the first exception leaves the loop. *)
Fixpoint mapM {A B : Type} (f : A -> result B) (xs : list A) : result (list B) :=
  match xs with
  | [] => Ok []
  | x :: rest =>
      bind (f x) (fun y => bind (mapM f rest) (fun ys => Ok (y :: ys)))
  end.

Definition is_ok {A : Type} (m : result A) : bool :=
  match m with Ok _ => true | Throw _ => false end.

End Exn.

Declare Scope exn_scope.
Delimit Scope exn_scope with exn.
Notation "x <- m ;; k" := (Exn.bind m (fun x => k))
  (at level 61, m at next level, right associativity) : exn_scope.

(* ================================================================== *)
(** ** Dates *)
(* ================================================================== *)

Module JsDate.
Import JsString Exn.

Definition DAY_MS : Z := 24 * 60 * 60 * 1000.

(** A [Date] object holds a time value in milliseconds since the epoch, or is
    an Invalid Date ([None]). *)
Definition Date : Type := option Z.

(** [new Date(t)] for a number [t]: time values beyond 8.64e15 ms give an
    Invalid Date. *)
Definition of_time (t : Z) : Date :=
  if (Z.abs t <=? 8640000000000000)%Z then Some t else None.

(** [new Date(d.getTime() + ms)] *)
Definition plus (d : Date) (ms : Z) : Date :=
  match d with
  | Some t => of_time (t + ms)
  | None => None
  end.

(** The UTC day number of a time value. *)
Definition utc_day (t : Z) : Z := (t / DAY_MS)%Z.

(** Year, month and day of a UTC day number (proleptic Gregorian calendar). *)
Definition civil (day : Z) : Z * Z * Z :=
  let z := (day + 719468)%Z in
  let era := (z / 146097)%Z in
  let doe := (z - era * 146097)%Z in
  let yoe := ((doe - doe / 1460 + doe / 36524 - doe / 146096) / 365)%Z in
  let doy := (doe - (365 * yoe + yoe / 4 - yoe / 100))%Z in
  let mp := ((5 * doy + 2) / 153)%Z in
  let d := (doy - (153 * mp + 2) / 5 + 1)%Z in
  let m := if (mp <? 10)%Z then (mp + 3)%Z else (mp - 9)%Z in
  let y := (yoe + era * 400 + (if (m <=? 2)%Z then 1 else 0))%Z in
  (y, m, d).

(** Decimal digits of [z >= 0], left-padded with zeros to [width]. *)
Fixpoint zeros (n : nat) : string :=
  match n with O => EmptyString | S k => String "0" (zeros k) end.

Definition pad (width : nat) (z : Z) : string :=
  let s := of_Z z in
  zeros (width - String.length s) ++ s.

Definition year_text (y : Z) : string :=
  if ((0 <=? y) && (y <=? 9999))%Z then pad 4 y
  else if (y <? 0)%Z then "-" ++ pad 6 (- y)
  else "+" ++ pad 6 y.

(** [d.toISOString()]: [YYYY-MM-DDTHH:mm:ss.sssZ] in UTC; a [RangeError] on an
    Invalid Date. *)
Definition toISOString (d : Date) : result string :=
  match d with
  | None => Throw "Invalid time value"
  | Some t =>
      let '(y, m, dd) := civil (utc_day t) in
      let r := (t mod DAY_MS)%Z in
      Ok (year_text y ++ "-" ++ pad 2 m ++ "-" ++ pad 2 dd ++ "T"
          ++ pad 2 (r / 3600000) ++ ":" ++ pad 2 (r / 60000 mod 60) ++ ":"
          ++ pad 2 (r / 1000 mod 60) ++ "." ++ pad 3 (r mod 1000) ++ "Z")
  end.

End JsDate.

(* ================================================================== *)
(** ** Database models *)
(* ================================================================== *)

(** [flightSchema].  Dates are time values in milliseconds. *)
Module FlightModel.

Record Flight : Type := {
  flightNumber : string;
  airline : string;
  from : string;
  to : string;
  departureTime : option string;
  arrivalTime : option string;
  departureDate : option Z;
  duration : option string;
  price : option Z;
  stops : string;
  totalSeats : option Z;
  availableSeats : option Z;
  class : string;
  status : string
}.

End FlightModel.

(** [userSchema] *)
Module UserModel.

Record User : Type := {
  _id : string;
  firstName : string;
  lastName : string;
  email : string;
  password : string;
  phone : option string;
  address : option string;
  city : option string;
  country : option string;
  createdAt : Z
}.

End UserModel.

(** [bookingSchema] *)
Module BookingModel.

Record CustomerInfo : Type := {
  firstName : option string;
  lastName : option string;
  email : option string;
  phone : option string
}.

Record Booking : Type := {
  bookingReference : string;
  userId : string;
  bookingType : option string;
  serviceId : option string;
  customerInfo : option CustomerInfo;
  bookingDetails : option string;
  totalAmount : option Z;
  paymentStatus : string;
  bookingStatus : string;
  createdAt : Z
}.

End BookingModel.

(* ================================================================== *)
(** ** Provider data and the offer translator *)
(* ================================================================== *)

Module Provider.

(** The parts of a flight-offer response that the search route reads.  A
    property that may be missing from the JSON is an [option]. *)
Record Endpoint : Type := {
  iataCode : option string;
  at_ : option string
}.

Record Aircraft : Type := { code : option string }.

Record Segment : Type := {
  departure : option Endpoint;
  arrival : option Endpoint;
  carrierCode : option string;
  number : option string;
  aircraft : option Aircraft
}.

Record Itinerary : Type := {
  duration : option string;
  segments : option (list Segment)
}.

Record Price : Type := {
  total : option string;
  currency : option string
}.

Record FareDetails : Type := {
  cabin : option string;
  class : option string
}.

Record TravelerPricing : Type := {
  fareDetailsBySegment : option (list FareDetails)
}.

Record Offer : Type := {
  id : option string;
  itineraries : option (list Itinerary);
  price : option Price;
  numberOfBookableSeats : option Z;
  travelerPricings : option (list TravelerPricing)
}.

Record Dictionaries : Type := {
  carriers : option (list (string * string))
}.

Record ResultBody : Type := {
  dictionaries : option Dictionaries
}.

Record Response : Type := {
  data : option (list Offer);
  result : option ResultBody
}.

(** The argument of [amadeus.shopping.flightOffersSearch.get]. *)
Record Request : Type := {
  originLocationCode : Normalizer.JsValue;
  destinationLocationCode : Normalizer.JsValue;
  departureDate : string;
  adults : option Z;
  travelClass : string;
  currencyCode : string;
  max : Z
}.

End Provider.

Module Translator.
Import JsString Exn Normalizer.
Local Open Scope exn_scope.

(** Library functions of the host that the translator calls on provider text. *)
Record Host : Type := {
  (** [new Date(at).toLocaleTimeString('en-US',
        { hour: '2-digit', minute: '2-digit', hour12: true })] *)
  toLocaleTimeString : option string -> string;
  (** [Math.round(parseFloat(total))]; [None] is [NaN]. *)
  round_parseFloat : option string -> option Z
}.

Record SegmentView : Type := {
  sv_departure : option Provider.Endpoint;
  sv_arrival : option Provider.Endpoint;
  sv_carrierCode : option string;
  sv_flightNumber : option string;
  sv_aircraft : option string
}.

(** The object built for each offer. *)
Record FlightRecord : Type := {
  _id : string;
  flightNumber : string;
  airline : option JsValue;
  from : string;
  to : string;
  fromCode : JsValue;
  toCode : JsValue;
  departureTime : string;
  arrivalTime : string;
  departureDate : option string;
  duration : string;
  price : option Z;
  currency : option string;
  stops : string;
  availableSeats : Z;
  class : option string;
  source : string;
  bookingClass : option string;
  segments : list SegmentView
}.

(** [d.replace('PT', '').replace('H', 'h ').replace('M', 'm')] *)
Definition render_duration (d : string) : string :=
  replace "M" "m" (replace "H" "h " (replace "PT" EmptyString d)).

(** [totalSegments === 1 ? 'Non-stop'
       : `${totalSegments - 1} Stop${totalSegments > 2 ? 's' : ''}`] *)
Definition stops_label (totalSegments : nat) : string :=
  if (totalSegments =? 1)%nat then "Non-stop"
  else of_Z (Z.of_nat totalSegments - 1) ++ " Stop"
       ++ (if (2 <? totalSegments)%nat then "s" else EmptyString).

(** [offer.numberOfBookableSeats || 9] *)
Definition available_seats (numberOfBookableSeats : option Z) : Z :=
  match numberOfBookableSeats with
  | Some n => if (n =? 0)%Z then 9%Z else n
  | None => 9%Z
  end.

(** [text.charAt(0).toUpperCase() + text.slice(1).toLowerCase()] *)
Definition capitalize (text : string) : string :=
  toUpperCase (charAt0 text) ++ toLowerCase (slice1 text).

(** [response.result.dictionaries?.carriers?.[airlineCode] || airlineCode] *)
Definition airline_name (res : option Provider.ResultBody)
    (airlineCode : option string) : result (option JsValue) :=
  r <- reading "dictionaries" res ;;
  let found :=
    match Provider.dictionaries r with
    | None => None
    | Some d =>
        match Provider.carriers d with
        | None => None
        | Some table => get table (show airlineCode)
        end
    end in
  Ok (or_else found (option_map JsText airlineCode)).

Definition segment_view (seg : Provider.Segment) : SegmentView :=
  {| sv_departure := Provider.departure seg;
     sv_arrival := Provider.arrival seg;
     sv_carrierCode := Provider.carrierCode seg;
     sv_flightNumber := Provider.number seg;
     sv_aircraft :=
       match Provider.aircraft seg with
       | Some a => Provider.code a
       | None => None
       end |}.

(** [xs[xs.length - 1]] *)
Definition last_item {A : Type} (xs : list A) : option A :=
  match xs with
  | [] => None
  | _ => nth_error xs (List.length xs - 1)
  end.

(** The first traveler's first fare-segment detail,
    [offer.travelerPricings[0].fareDetailsBySegment[0]], about to be read at
    property [prop]. *)
Definition first_fare_detail (prop : string) (offer : Provider.Offer)
  : result Provider.FareDetails :=
  tps <- reading "0" (Provider.travelerPricings offer) ;;
  tp <- reading "fareDetailsBySegment" (nth_error tps 0) ;;
  fds <- reading "0" (Provider.fareDetailsBySegment tp) ;;
  reading prop (nth_error fds 0).

(** The callback of [response.data.map] in the search route.  The steps follow
    the order in which the source reads the offer. *)
Definition translate (host : Host) (res : option Provider.ResultBody)
    (from to : string) (originCode destCode : JsValue)
    (offer : Provider.Offer) : result FlightRecord :=
  its <- reading "0" (Provider.itineraries offer) ;;
  it0 <- reading "segments" (nth_error its 0) ;;
  segs <- reading "0" (Provider.segments it0) ;;
  let segment := nth_error segs 0 in
  let lastSegment := last_item segs in
  let totalSegments := List.length segs in
  d <- reading "replace" (Provider.duration it0) ;;
  let duration := render_duration d in
  seg <- reading "carrierCode" segment ;;
  let airlineCode := Provider.carrierCode seg in
  airlineName <- airline_name res airlineCode ;;
  dep <- reading "at" (Provider.departure seg) ;;
  lseg <- reading "arrival" lastSegment ;;
  arr <- reading "at" (Provider.arrival lseg) ;;
  pr <- reading "total" (Provider.price offer) ;;
  fd <- first_fare_detail "cabin" offer ;;
  fd' <- first_fare_detail "class" offer ;;
  Ok {| _id := "amadeus_" ++ show (Provider.id offer);
        flightNumber := show (Provider.carrierCode seg) ++ show (Provider.number seg);
        airline := airlineName;
        from := capitalize from;
        to := capitalize to;
        fromCode := originCode;
        toCode := destCode;
        departureTime := toLocaleTimeString host (Provider.at_ dep);
        arrivalTime := toLocaleTimeString host (Provider.at_ arr);
        departureDate := Provider.at_ dep;
        duration := duration;
        price := round_parseFloat host (Provider.total pr);
        currency := Provider.currency pr;
        stops := stops_label totalSegments;
        availableSeats := available_seats (Provider.numberOfBookableSeats offer);
        class := Provider.cabin fd;
        source := "amadeus";
        bookingClass := Provider.class fd';
        segments := map segment_view segs |}.

End Translator.

(* ================================================================== *)
(** ** Persistence *)
(* ================================================================== *)

Module Store.

(** A collection of the document store: its documents, or a service that
    rejects every operation with an error message. *)
Inductive Collection (A : Type) : Type :=
| Online (docs : list A)
| Offline (message : string).
Arguments Online {A} docs.
Arguments Offline {A} message.

End Store.

(* ================================================================== *)
(** ** The flight-search route *)
(* ================================================================== *)

Module FlightSearch.
Import JsString Exn Normalizer JsDate Store.
Local Open Scope exn_scope.

(** [req.query] *)
Record Query : Type := {
  from : option string;
  to : option string;
  date : option string;
  returnDate : option string;
  adults : option string;
  travelClass : option string
}.

(** A compiled [new RegExp(source, 'i')]. *)
Record Regex : Type := {
  source : string;
  test : string -> bool
}.

(** [{ $gte: ..., $lt: ... }] *)
Record DateRange : Type := {
  gte : JsDate.Date;
  lt : JsDate.Date
}.

(** The filter handed to [Flight.find]. *)
Record FlightQuery : Type := {
  q_from : option Regex;
  q_to : option Regex;
  q_departureDate : option DateRange
}.

(** The services and library functions the route depends on. *)
Record Env : Type := {
  host : Translator.Host;
  (** [parseInt(text)]; [None] is [NaN]. *)
  parseInt : string -> option Z;
  (** [new RegExp(source, 'i')], which throws a [SyntaxError] on a malformed
      pattern, and the compiled expression's match test. *)
  RegExp_i : string -> result (string -> bool);
  (** [new Date(text)] *)
  Date_parse : string -> JsDate.Date;
  (** The provider call; [Throw] is a rejected promise. *)
  flightOffersSearch : Provider.Request -> result Provider.Response
}.

Inductive Effect : Type :=
| CallProvider (request : Provider.Request)
| FindFlights (query : FlightQuery).

Record SearchParams : Type := {
  sp_from : JsValue;
  sp_to : JsValue;
  sp_date : string
}.

Inductive SearchBody : Type :=
| ErrorBody (error : string) (supportedCities : option (list string))
| ProviderBody (flights : list Translator.FlightRecord) (count : nat)
    (source : string) (searchParams : SearchParams)
| DatabaseBody (flights : list FlightModel.Flight) (count : nat)
    (source message : string)
| FailureBody (error details : string).

Record SearchResponse : Type := {
  status : Z;
  body : SearchBody
}.

(** JavaScript truthiness of a query parameter. *)
Definition truthy_text (o : option string) : bool :=
  match o with
  | Some s => negb (is_empty s)
  | None => false
  end.

Definition text (o : option string) : string :=
  match o with Some s => s | None => EmptyString end.

(** *** The stored-flight query *)

Definition field_matches (r : option Regex) (field : string) : bool :=
  match r with
  | None => true
  | Some re => test re field
  end.

Definition in_range (r : option DateRange) (d : option Z) : bool :=
  match r with
  | None => true
  | Some rg =>
      match gte rg, lt rg, d with
      | Some a, Some b, Some t => ((a <=? t) && (t <? b))%Z
      | _, _, _ => false
      end
  end.

Definition matches (q : FlightQuery) (f : FlightModel.Flight) : bool :=
  field_matches (q_from q) (FlightModel.from f)
  && field_matches (q_to q) (FlightModel.to f)
  && in_range (q_departureDate q) (FlightModel.departureDate f).

(** Ascending order of the sort key: a missing price sorts first. *)
Definition price_le (a b : option Z) : bool :=
  match a, b with
  | None, _ => true
  | Some _, None => false
  | Some x, Some y => (x <=? y)%Z
  end.

Fixpoint insert_by_price (f : FlightModel.Flight) (l : list FlightModel.Flight) : list FlightModel.Flight :=
  match l with
  | [] => [f]
  | g :: rest =>
      if price_le (FlightModel.price f) (FlightModel.price g) then f :: l
      else g :: insert_by_price f rest
  end.

(** [.sort({ price: 1 })] *)
Definition sort_by_price (l : list FlightModel.Flight) : list FlightModel.Flight :=
  fold_right insert_by_price [] l.

(** The filter's dates must be valid for the query to be cast. *)
Definition castable (q : FlightQuery) : bool :=
  match q_departureDate q with
  | None => true
  | Some rg =>
      match gte rg, lt rg with
      | Some _, Some _ => true
      | _, _ => false
      end
  end.

(** [await Flight.find(query).sort({ price: 1 })] *)
Definition Flight_find_sort (store : Collection FlightModel.Flight) (q : FlightQuery)
  : result (list FlightModel.Flight) :=
  match store with
  | Offline message => Throw message
  | Online docs =>
      if castable q then Ok (sort_by_price (filter (matches q) docs))
      else Throw "Cast to date failed"
  end.

(** *** The fallback: the [catch] block of the route *)

Definition regex_for (env : Env) (param : option string) : result (option Regex) :=
  if truthy_text param then
    t <- RegExp_i env (text param) ;;
    Ok (Some {| source := text param; test := t |})
  else Ok None.

Definition range_for (env : Env) (param : option string) : option DateRange :=
  if truthy_text param then
    let searchDate := Date_parse env (text param) in
    Some {| gte := searchDate; lt := plus searchDate (24 * 60 * 60 * 1000) |}
  else None.

Definition build_query (env : Env) (q : Query) : result FlightQuery :=
  qf <- regex_for env (from q) ;;
  qt <- regex_for env (to q) ;;
  Ok {| q_from := qf; q_to := qt; q_departureDate := range_for env (date q) |}.

Definition database_response (flights : list FlightModel.Flight) : SearchResponse :=
  {| status := 200;
     body := DatabaseBody flights (List.length flights) "database"
               "Amadeus API unavailable, showing cached results" |}.

Definition failure_response (message : string) : SearchResponse :=
  {| status := 500; body := FailureBody "Failed to fetch flights" message |}.

(** [message] is the message of the error caught by the outer [catch]. *)
Definition fallback (env : Env) (message : string)
    (store : Collection FlightModel.Flight) (q : Query) : SearchResponse * list Effect :=
  match build_query env q with
  | Throw _ => (failure_response message, [])
  | Ok query =>
      match Flight_find_sort store query with
      | Ok flights => (database_response flights, [FindFlights query])
      | Throw _ => (failure_response message, [FindFlights query])
      end
  end.

(** *** The provider path: the [try] block of the route *)

Definition bad_request (error : string) (cities : option (list string)) : SearchResponse :=
  {| status := 400; body := ErrorBody error cities |}.

Definition unknown_city (name : string) : SearchResponse :=
  bad_request ("Unknown city: " ++ name ++ ". Please use city name or IATA code.")
    (Some (keys cityToIATA)).

(** [date || new Date(Date.now() + 24 * 60 * 60 * 1000).toISOString().split('T')[0]] *)
Definition departure_date (now : Z) (q : Query) : result string :=
  if truthy_text (date q) then Ok (text (date q))
  else
    iso <- toISOString (of_time (now + 24 * 60 * 60 * 1000)) ;;
    Ok (before "T" iso).

Definition request_for (env : Env) (q : Query) (originCode destCode : JsValue)
    (departureDate : string) : Provider.Request :=
  {| Provider.originLocationCode := originCode;
     Provider.destinationLocationCode := destCode;
     Provider.departureDate := departureDate;
     Provider.adults := match adults q with
                        | None => Some 1%Z
                        | Some a => parseInt env a
                        end;
     Provider.travelClass := toUpperCase (match travelClass q with
                                          | None => "ECONOMY"
                                          | Some c => c
                                          end);
     Provider.currencyCode := "PKR";
     Provider.max := 50 |}.

(** [response.data.map(...)] *)
Definition translate_all (env : Env) (response : Provider.Response)
    (from to : string) (originCode destCode : JsValue)
  : result (list Translator.FlightRecord) :=
  offers <- reading "map" (Provider.data response) ;;
  mapM (Translator.translate (host env) (Provider.result response)
          from to originCode destCode) offers.

Definition provider_response (flights : list Translator.FlightRecord)
    (originCode destCode : JsValue) (departureDate : string) : SearchResponse :=
  {| status := 200;
     body := ProviderBody flights (List.length flights) "Amadeus API"
               {| sp_from := originCode; sp_to := destCode; sp_date := departureDate |} |}.

Definition after (e : Effect) (r : SearchResponse * list Effect)
  : SearchResponse * list Effect :=
  (fst r, e :: snd r).

(** The handler of [GET /api/flights/search].  [now] is the reading of
    [Date.now()]; the result is the response sent and the external calls made,
    in order. *)
Definition search (env : Env) (now : Z) (store : Collection FlightModel.Flight)
    (q : Query) : SearchResponse * list Effect :=
  if negb (truthy_text (from q)) || negb (truthy_text (to q))
  then (bad_request "From and To cities are required" None, [])
  else
    match getIATACode (from q) with
    | None => (unknown_city (text (from q)), [])
    | Some originCode =>
        match getIATACode (to q) with
        | None => (unknown_city (text (to q)), [])
        | Some destCode =>
            match departure_date now q with
            | Throw e => fallback env e store q
            | Ok departureDate =>
                let request := request_for env q originCode destCode departureDate in
                match (response <- flightOffersSearch env request ;;
                       translate_all env response (text (from q)) (text (to q))
                         originCode destCode) with
                | Ok flights =>
                    (provider_response flights originCode destCode departureDate,
                     [CallProvider request])
                | Throw e => after (CallProvider request) (fallback env e store q)
                end
            end
        end
    end.

End FlightSearch.

(* ================================================================== *)
(** ** The login route *)
(* ================================================================== *)

Module Auth.
Import JsString Exn Store.
Local Open Scope exn_scope.

Record Env : Type := {
  (** [bcrypt.compare(password, hash)] *)
  bcrypt_compare : string -> string -> result bool;
  (** [jwt.sign({ id, email }, secret, { expiresIn: '7d' })] *)
  jwt_sign : string -> string -> string
}.

(** A property of [req.body] that is meant to be a text: the text sent, or
    the [typeof] of whatever else the request carries there (["undefined"]
    when the property is absent). *)
Inductive BodyValue : Type :=
| Text (s : string)
| NotText (typeof : string).

(** [req.body].  The email is a text: what [findOne] matches for an absent
    email depends on the database driver and is not modelled. *)
Record Credentials : Type := {
  email : string;
  password : BodyValue
}.

Inductive LoginBody : Type :=
| Welcome (message token : string) (id firstName lastName email : string)
| ErrorBody (error : string).

Record LoginResponse : Type := {
  status : Z;
  body : LoginBody
}.

(** [await User.findOne({ email })] *)
Definition User_findOne (users : Collection UserModel.User) (email : string)
  : result (option UserModel.User) :=
  match users with
  | Offline message => Throw message
  | Online docs => Ok (find (fun u => String.eqb (UserModel.email u) email) docs)
  end.

Definition invalid_credentials : LoginResponse :=
  {| status := 401; body := ErrorBody "Invalid credentials" |}.

(** [await bcrypt.compare(password, hash)]: bcryptjs rejects with an [Error]
    when an argument is not a text, and compares otherwise. *)
Definition compare (env : Env) (password : BodyValue) (hash : string) : result bool :=
  match password with
  | Text p => bcrypt_compare env p hash
  | NotText typeof => Throw ("Illegal arguments: " ++ typeof ++ ", string")
  end.

(** The handler of [POST /api/auth/login]. *)
Definition login (env : Env) (users : Collection UserModel.User) (c : Credentials)
  : LoginResponse :=
  match
    (user <- User_findOne users (email c) ;;
     match user with
     | None => Ok invalid_credentials
     | Some u =>
         isValid <- compare env (password c) (UserModel.password u) ;;
         if negb isValid then Ok invalid_credentials
         else
           let token := jwt_sign env (UserModel._id u) (UserModel.email u) in
           Ok {| status := 200;
                 body := Welcome "Login successful" token
                           (UserModel._id u) (UserModel.firstName u)
                           (UserModel.lastName u) (UserModel.email u) |}
     end)
  with
  | Ok response => response
  | Throw message => {| status := 500; body := ErrorBody message |}
  end.

End Auth.

(* ================================================================== *)
(** ** The booking route *)
(* ================================================================== *)

Module Bookings.
Import JsString Exn Store.
Local Open Scope exn_scope.

(** The digits of [Number.prototype.toString(36)]. *)
Definition digit36 (d : N) : ascii :=
  ascii_of_N (if (d <? 10)%N then 48 + d else 87 + d).

Fixpoint digits36 (fuel : nat) (n : N) (acc : string) : string :=
  match fuel with
  | O => acc
  | S f =>
      let acc' := String (digit36 (n mod 36)) acc in
      if (n <? 36)%N then acc' else digits36 f (n / 36) acc'
  end.

(** [z.toString(36)] for an integer [z]. *)
Definition toString36 (z : Z) : string :=
  let n := Z.abs_N z in
  let digits := digits36 (S (N.to_nat (N.log2 n))) n EmptyString in
  if (z <? 0)%Z then String "-" digits else digits.

(** The decoded token, [{ id, email }]. *)
Record TokenPayload : Type := {
  tp_id : string;
  tp_email : string
}.

Record Env : Type := {
  (** [jwt.verify(token, secret)]; [None] when the callback gets an error. *)
  jwt_verify : string -> option TokenPayload;
  (** Whether a text casts to an [ObjectId]. *)
  is_ObjectId : string -> bool
}.

(** [req.body]; the route never reads the last two properties. *)
Record BookingBody : Type := {
  bookingType : option string;
  serviceId : option string;
  customerInfo : option BookingModel.CustomerInfo;
  bookingDetails : option string;
  totalAmount : option Z;
  paymentStatus : option string;
  bookingStatus : option string
}.

Definition bookingType_enum : list string := ["flight"; "car"; "tour"; "transportation"].
Definition paymentStatus_enum : list string := ["pending"; "completed"; "failed"].
Definition bookingStatus_enum : list string := ["confirmed"; "cancelled"; "completed"].

Definition member (x : string) (l : list string) : bool := existsb (String.eqb x) l.

Definition required_in (o : option string) (p : string -> bool) : bool :=
  match o with
  | Some v => p v
  | None => false
  end.

(** Schema validation run by [save]: required paths, enumerations, ids. *)
Definition valid (env : Env) (b : BookingModel.Booking) : bool :=
  negb (is_empty (BookingModel.bookingReference b))
  && is_ObjectId env (BookingModel.userId b)
  && required_in (BookingModel.bookingType b) (fun t => member t bookingType_enum)
  && required_in (BookingModel.serviceId b) (is_ObjectId env)
  && member (BookingModel.paymentStatus b) paymentStatus_enum
  && member (BookingModel.bookingStatus b) bookingStatus_enum.

(** [await booking.save()]: validation, the unique index on the reference,
    then the insertion. *)
Definition save (env : Env) (store : Collection BookingModel.Booking) (b : BookingModel.Booking)
  : result (Collection BookingModel.Booking) :=
  if negb (valid env b) then Throw "Booking validation failed"
  else
    match store with
    | Offline message => Throw message
    | Online docs =>
        if existsb (fun d => String.eqb (BookingModel.bookingReference d) (BookingModel.bookingReference b)) docs
        then Throw "E11000 duplicate key error"
        else Ok (Online (docs ++ [b])%list)
    end.

Inductive BookingResponseBody : Type :=
| Created (message : string) (booking : BookingModel.Booking)
| ErrorBody (error : string).

Record BookingResponse : Type := {
  status : Z;
  body : BookingResponseBody
}.

(** [authenticateToken]: the decoded user, or the response that ends the
    request. *)
Definition authenticateToken (env : Env) (authorization : option string)
  : TokenPayload + BookingResponse :=
  let token :=
    match authorization with
    | None => None
    | Some authHeader =>
        if is_empty authHeader then None else split_second " " authHeader
    end in
  match token with
  | None => inr {| status := 401; body := ErrorBody "Access token required" |}
  | Some t =>
      if is_empty t
      then inr {| status := 401; body := ErrorBody "Access token required" |}
      else match jwt_verify env t with
           | None => inr {| status := 403; body := ErrorBody "Invalid token" |}
           | Some user => inl user
           end
  end.

(** ['BK' + Date.now().toString(36).toUpperCase()] *)
Definition booking_reference (now : Z) : string :=
  "BK" ++ toUpperCase (toString36 now).

(** The handler of [POST /api/bookings] behind [authenticateToken].  [now] is
    the reading of [Date.now()] in the handler and [created] the one taken by
    the schema default of [createdAt]. *)
Definition create_booking (env : Env) (now created : Z)
    (store : Collection BookingModel.Booking) (authorization : option string)
    (b : BookingBody) : BookingResponse * Collection BookingModel.Booking :=
  match authenticateToken env authorization with
  | inr rejected => (rejected, store)
  | inl user =>
      let booking :=
        {| BookingModel.bookingReference := booking_reference now;
           BookingModel.userId := tp_id user;
           BookingModel.bookingType := bookingType b;
           BookingModel.serviceId := serviceId b;
           BookingModel.customerInfo := customerInfo b;
           BookingModel.bookingDetails := bookingDetails b;
           BookingModel.totalAmount := totalAmount b;
           BookingModel.paymentStatus := "completed";
           BookingModel.bookingStatus := "confirmed";
           BookingModel.createdAt := created |} in
      match save env store booking with
      | Ok store' =>
          ({| status := 201; body := Created "Booking created successfully" booking |},
           store')
      | Throw message => ({| status := 500; body := ErrorBody message |}, store)
      end
  end.

(** The documents of a collection. *)
Definition documents {A : Type} (c : Collection A) : list A :=
  match c with
  | Online docs => docs
  | Offline _ => []
  end.

End Bookings.

(* ================================================================== *)
(** ** Specification vocabulary and sample data *)
(* ================================================================== *)

Module Spec.
Import JsString Exn Normalizer JsDate Store FlightSearch.

(** Characters that stand for themselves in a regular expression: letters,
    white space and the underscore. *)
Definition literal_char (c : ascii) : bool :=
  is_upper c || is_lower c || is_space c || Ascii.eqb c "_".

(** What is assumed of the regular-expression engine: a pattern made of
    literal characters compiles, and with the [i] flag it matches exactly the
    texts that contain it up to letter case. *)
Definition literal_regex (env : Env) : Prop :=
  forall p, forall_string literal_char p = true ->
    exists t, RegExp_i env p = Ok t /\ forall s, t s = includes_ci p s.

(** The stored flights the fallback is meant to select: origin and destination
    contain the query texts up to case and, when a date was given, the
    departure lies in the 24 hours that start at the instant the date text
    denotes. *)
Definition wanted (env : Env) (q : Query) (f : FlightModel.Flight) : bool :=
  includes_ci (text (from q)) (FlightModel.from f)
  && includes_ci (text (to q)) (FlightModel.to f)
  && (if truthy_text (date q) then
        match Date_parse env (text (date q)), FlightModel.departureDate f with
        | Some t, Some d => ((t <=? d) && (d <? t + DAY_MS))%Z
        | _, _ => false
        end
      else true).

(** The date filter can be evaluated: no date, or a date text that denotes an
    instant whose next day is still a valid [Date]. *)
Definition date_usable (env : Env) (q : Query) : bool :=
  if truthy_text (date q) then
    match Date_parse env (text (date q)) with
    | Some t => (Z.abs (t + DAY_MS) <=? 8640000000000000)%Z
    | None => false
    end
  else true.

Definition by_price (a b : FlightModel.Flight) : Prop :=
  price_le (FlightModel.price a) (FlightModel.price b) = true.


(** The two query texts the route insists on. *)
Inductive Field : Type := FromField | ToField.

Definition only_missing (q : Query) (f : Field) : Prop :=
  match f with
  | FromField => truthy_text (from q) = false /\ truthy_text (to q) = true
  | ToField => truthy_text (from q) = true /\ truthy_text (to q) = false
  end.

(** The reading of the validation step under which the response tells which
    of the two texts is missing. *)
Definition identifies_missing_field : Prop :=
  exists which : SearchResponse -> Field,
    forall env now store q f,
      only_missing q f -> which (fst (search env now store q)) = f.


(** The value of a base-36 numeral, most significant digit first. *)
Definition digit_value (c : ascii) : N :=
  if is_digit c then code c - 48 else code c - 87.

Fixpoint value36 (acc : N) (s : string) : N :=
  match s with
  | EmptyString => acc
  | String c r => value36 (36 * acc + digit_value c) r
  end.

Definition is_digit36 (c : ascii) : bool := is_digit c || is_lower c.

(** Reading a base-36 numeral written with the digits 0-9 and the upper-case
    letters A-Z (A is ten, Z is thirty-five), most significant digit first;
    [None] when some character is neither. *)
Fixpoint upper_numeral36 (acc : N) (s : string) : option N :=
  match s with
  | EmptyString => Some acc
  | String c r =>
      if is_digit c then upper_numeral36 (36 * acc + (code c - 48)) r
      else if is_upper c then upper_numeral36 (36 * acc + (code c - 55)) r
      else None
  end.

End Spec.

Module Fixtures.
Import JsString Exn Normalizer JsDate Store.

Definition sample_host : Translator.Host :=
  {| Translator.toLocaleTimeString := fun at_ => "10:00 AM";
     Translator.round_parseFloat := fun total => Some 45000%Z |}.

Definition segment (carrier number : string) : Provider.Segment :=
  {| Provider.departure := Some {| Provider.iataCode := Some "LHE";
                                   Provider.at_ := Some "2024-01-15T10:00:00" |};
     Provider.arrival := Some {| Provider.iataCode := Some "DXB";
                                 Provider.at_ := Some "2024-01-15T12:30:00" |};
     Provider.carrierCode := Some carrier;
     Provider.number := Some number;
     Provider.aircraft := Some {| Provider.code := Some "77W" |} |}.

Definition offer_with (segs : list Provider.Segment) (dur : string)
    (seats : option Z) (pricings : list Provider.TravelerPricing) : Provider.Offer :=
  {| Provider.id := Some "1";
     Provider.itineraries := Some [ {| Provider.duration := Some dur;
                                       Provider.segments := Some segs |} ];
     Provider.price := Some {| Provider.total := Some "45000.00";
                               Provider.currency := Some "PKR" |};
     Provider.numberOfBookableSeats := seats;
     Provider.travelerPricings := Some pricings |}.

Definition economy : Provider.TravelerPricing :=
  {| Provider.fareDetailsBySegment :=
       Some [ {| Provider.cabin := Some "ECONOMY"; Provider.class := Some "Y" |} ] |}.

(** A traveler pricing whose list of fare details is empty. *)
Definition no_fare_details : Provider.TravelerPricing :=
  {| Provider.fareDetailsBySegment := Some [] |}.

Definition direct_offer : Provider.Offer :=
  offer_with [segment "PK" "203"] "PT2H30M" (Some 4%Z) [economy].

Definition two_stop_offer : Provider.Offer :=
  offer_with [segment "EK" "623"; segment "EK" "11"; segment "EK" "12"]
    "PT9H5M" None [economy].

Definition hours_only_offer : Provider.Offer :=
  offer_with [segment "PK" "203"] "PT2H" (Some 4%Z) [economy].

Definition broken_offer : Provider.Offer :=
  offer_with [segment "PK" "203"] "PT2H30M" (Some 4%Z) [no_fare_details].

Definition sample_result : Provider.ResultBody :=
  {| Provider.dictionaries :=
       Some {| Provider.carriers := Some [("PK", "PAKISTAN INTERNATIONAL AIRLINES");
                                          ("EK", "EMIRATES")] |} |}.

Definition sample_parse (s : string) : JsDate.Date :=
  if String.eqb s "2024-01-15" then Some 1705276800000%Z
  else if String.eqb s "2024-01-15T12:00:00Z" then Some 1705320000000%Z
  else None.

Definition env_with (provider : Provider.Request -> result Provider.Response)
  : FlightSearch.Env :=
  {| FlightSearch.host := sample_host;
     FlightSearch.parseInt := fun _ => Some 1%Z;
     FlightSearch.RegExp_i := fun p => Ok (includes_ci p);
     FlightSearch.Date_parse := sample_parse;
     FlightSearch.flightOffersSearch := provider |}.

(** The provider is unreachable. *)
Definition env_down : FlightSearch.Env :=
  env_with (fun _ => Throw "connect ETIMEDOUT").

(** The provider answers with one well-formed and one malformed offer. *)
Definition env_broken : FlightSearch.Env :=
  env_with (fun _ => Ok {| Provider.data := Some [direct_offer; broken_offer];
                           Provider.result := Some sample_result |}).

Definition stored (number : string) (departs : Z) (price : Z) : FlightModel.Flight :=
  {| FlightModel.flightNumber := number;
     FlightModel.airline := "PIA";
     FlightModel.from := "Lahore";
     FlightModel.to := "Dubai";
     FlightModel.departureTime := Some "10:00 AM";
     FlightModel.arrivalTime := Some "12:30 PM";
     FlightModel.departureDate := Some departs;
     FlightModel.duration := Some "2h 30m";
     FlightModel.price := Some price;
     FlightModel.stops := "Non-stop";
     FlightModel.totalSeats := Some 180%Z;
     FlightModel.availableSeats := Some 20%Z;
     FlightModel.class := "Economy";
     FlightModel.status := "scheduled" |}.

(** Departures on 15 January 2024 at 06:00 and 18:00 UTC and on 16 January at
    06:00 UTC. *)
Definition morning : FlightModel.Flight := stored "PK201" 1705298400000 52000.
Definition evening : FlightModel.Flight := stored "PK203" 1705341600000 45000.
Definition next_morning : FlightModel.Flight := stored "PK205" 1705384800000 48000.

Definition sample_flights : list FlightModel.Flight :=
  [morning; evening; next_morning].

Definition query (from to : option string) (date : option string) : FlightSearch.Query :=
  {| FlightSearch.from := from;
     FlightSearch.to := to;
     FlightSearch.date := date;
     FlightSearch.returnDate := None;
     FlightSearch.adults := None;
     FlightSearch.travelClass := None |}.

Definition alice : UserModel.User :=
  {| UserModel._id := "65a4f0c2b7e1a2d3c4b5a697";
     UserModel.firstName := "Alice";
     UserModel.lastName := "Khan";
     UserModel.email := "alice@example.com";
     UserModel.password := "$2a$10$hash-of-correct-horse";
     UserModel.phone := None;
     UserModel.address := None;
     UserModel.city := Some "Lahore";
     UserModel.country := Some "Pakistan";
     UserModel.createdAt := 1699000000000 |}.

Definition auth_env : Auth.Env :=
  {| Auth.bcrypt_compare := fun password hash =>
       Ok (String.eqb hash ("$2a$10$hash-of-" ++ password));
     Auth.jwt_sign := fun id email => "token:" ++ id |}.

Definition booking_env : Bookings.Env :=
  {| Bookings.jwt_verify := fun token =>
       if String.eqb token "good-token"
       then Some {| Bookings.tp_id := "65a4f0c2b7e1a2d3c4b5a697";
                    Bookings.tp_email := "alice@example.com" |}
       else None;
     Bookings.is_ObjectId := fun s => (String.length s =? 24)%nat |}.

Definition flight_booking : Bookings.BookingBody :=
  {| Bookings.bookingType := Some "flight";
     Bookings.serviceId := Some "65a4f0c2b7e1a2d3c4b5a698";
     Bookings.customerInfo := None;
     Bookings.bookingDetails := None;
     Bookings.totalAmount := Some 45000%Z;
     Bookings.paymentStatus := Some "pending";
     Bookings.bookingStatus := Some "cancelled" |}.

End Fixtures.

(* ================================================================== *)
(** ** Sorting a query result *)
(* ================================================================== *)

Module Order.

Section Insertion.
Context {A : Type} (le : A -> A -> bool).

Fixpoint insert (x : A) (l : list A) : list A :=
  match l with
  | [] => [x]
  | y :: rest => if le x y then x :: l else y :: insert x rest
  end.

Definition sort (l : list A) : list A := fold_right insert [] l.

End Insertion.

(** [.sort({ key: 1 })]: ascending, documents without the key first. *)
Definition ascending {A : Type} (key : A -> option Z) (x y : A) : bool :=
  FlightSearch.price_le (key x) (key y).

(** [.sort({ key: -1 })] on a key every document has. *)
Definition descending {A : Type} (key : A -> Z) (x y : A) : bool :=
  (key y <=? key x)%Z.

End Order.

(* ================================================================== *)
(** ** The listing routes *)
(* ================================================================== *)

(** [carSchema] *)
Module CarModel.

Record Car : Type := {
  _id : string;
  carName : string;
  brand : string;
  model : option string;
  year : option Z;
  type : string;
  seats : option Z;
  transmission : string;
  fuelType : string;
  pricePerDay : option Z;
  location : option string;
  available : bool;
  features : list string;
  image : option string
}.

End CarModel.

(** [tourSchema]; the rating, whose default is 4.5, is a rational. *)
Module TourModel.

Record Tour : Type := {
  _id : string;
  title : string;
  destination : option string;
  duration : option string;
  description : option string;
  price : option Z;
  includes : list string;
  excludes : list string;
  itinerary : list string;
  maxPeople : option Z;
  availableSlots : option Z;
  startDate : option Z;
  endDate : option Z;
  image : option string;
  rating : QArith_base.Q
}.

End TourModel.

(** [transportationSchema] *)
Module TransportationModel.


End TransportationModel.

Module Catalog.
Import JsString Exn Store.
Local Open Scope exn_scope.

Record Env : Type := {
  (** [new RegExp(source, 'i')] and the compiled expression's match test. *)
  RegExp_i : string -> result (string -> bool);
  (** [new Date(text)] *)
  Date_parse : string -> JsDate.Date;
  (** [Number(text)]; [None] is [NaN]. *)
  Number : string -> option Z;
  (** Whether a text casts to an [ObjectId]. *)
  is_ObjectId : string -> bool
}.

Inductive Body (A : Type) : Type :=
| Listed (items : list A) (count : nat)
| Found (item : A)
| ErrorBody (error : string).
Arguments Listed {A} items count.
Arguments Found {A} item.
Arguments ErrorBody {A} error.

Record Response (A : Type) : Type := {
  status : Z;
  body : Body A
}.
Arguments status {A} r.
Arguments body {A} r.

Definition listed {A : Type} (items : list A) : Response A :=
  {| status := 200; body := Listed items (List.length items) |}.

(** [catch (error) { res.status(500).json({ error: error.message }) }] *)
Definition respond {A : Type} (r : result (Response A)) : Response A :=
  match r with
  | Ok response => response
  | Throw message => {| status := 500; body := ErrorBody message |}
  end.

(** [if (param) query.field = new RegExp(param, 'i')] *)
Definition regex_for (env : Env) (param : option string)
  : result (option (string -> bool)) :=
  if FlightSearch.truthy_text param then
    t <- RegExp_i env (FlightSearch.text param) ;;
    Ok (Some t)
  else Ok None.

(** A text field of a document against an optional regular expression: a
    document without the field does not match. *)
Definition field_matches (r : option (string -> bool)) (field : option string) : bool :=
  match r with
  | None => true
  | Some t => match field with
              | Some s => t s
              | None => false
              end
  end.

(** [if (param) query.field = param] *)
Definition equals (param : option string) (field : string) : bool :=
  if FlightSearch.truthy_text param
  then String.eqb field (FlightSearch.text param)
  else true.

(** [await Model.find(query)] on a collection. *)
Definition find {A : Type} (store : Collection A) (p : A -> bool) : result (list A) :=
  match store with
  | Offline message => Throw message
  | Online docs => Ok (filter p docs)
  end.

(** [await Model.findById(id)] *)
Definition findById {A : Type} (env : Env) (id_of : A -> string)
    (store : Collection A) (id : string) : result (option A) :=
  if negb (is_ObjectId env id) then Throw "Cast to ObjectId failed"
  else
    match store with
    | Offline message => Throw message
    | Online docs => Ok (List.find (fun d => String.eqb (id_of d) id) docs)
    end.

Definition by_id {A : Type} (env : Env) (id_of : A -> string) (missing : string)
    (store : Collection A) (id : string) : Response A :=
  respond
    (doc <- findById env id_of store id ;;
     match doc with
     | None => Ok {| status := 404; body := ErrorBody missing |}
     | Some d => Ok {| status := 200; body := Found d |}
     end).

End Catalog.

(** [GET /api/cars] and [GET /api/cars/:id] *)
Module CarsRoute.
Import JsString Exn Store Catalog.
Local Open Scope exn_scope.

Record Query : Type := {
  type : option string;
  location : option string
}.

Definition car_matches (q : Query) (loc : option (string -> bool))
    (c : CarModel.Car) : bool :=
  CarModel.available c
  && equals (type q) (CarModel.type c)
  && field_matches loc (CarModel.location c).

Definition cars (env : Env) (store : Collection CarModel.Car) (q : Query)
  : Response CarModel.Car :=
  respond
    (loc <- regex_for env (location q) ;;
     found <- find store (car_matches q loc) ;;
     Ok (listed (Order.sort (Order.ascending CarModel.pricePerDay) found))).

Definition car (env : Env) (store : Collection CarModel.Car) (id : string)
  : Response CarModel.Car :=
  by_id env CarModel._id "Car not found" store id.

End CarsRoute.

(** [GET /api/tours] and [GET /api/tours/:id] *)
Module ToursRoute.
Import JsString Exn Store Catalog.
Local Open Scope exn_scope.

Record Query : Type := {
  destination : option string;
  minPrice : option string;
  maxPrice : option string
}.

(** One bound of [query.price]: not set, or the number the text converts to,
    which must not be [NaN] for the filter to be cast. *)
Definition bound_for (env : Env) (param : option string) : result (option Z) :=
  if FlightSearch.truthy_text param then
    match Number env (FlightSearch.text param) with
    | Some n => Ok (Some n)
    | None => Throw "Cast to Number failed"
    end
  else Ok None.

(** [{ $gte: lo, $lte: hi }] with either bound optional; once the filter on
    the price is there, a document without a price does not match. *)
Definition price_in (set : bool) (lo hi : option Z) (p : option Z) : bool :=
  if set then
    match p with
    | None => false
    | Some v =>
        (match lo with Some l => (l <=? v)%Z | None => true end)
        && (match hi with Some h => (v <=? h)%Z | None => true end)
    end
  else true.

Definition tour_matches (q : Query) (dest : option (string -> bool))
    (lo hi : option Z) (t : TourModel.Tour) : bool :=
  field_matches dest (TourModel.destination t)
  && price_in (FlightSearch.truthy_text (minPrice q)
               || FlightSearch.truthy_text (maxPrice q))
       lo hi (TourModel.price t).

Definition tours (env : Env) (store : Collection TourModel.Tour) (q : Query)
  : Response TourModel.Tour :=
  respond
    (dest <- regex_for env (destination q) ;;
     lo <- bound_for env (minPrice q) ;;
     hi <- bound_for env (maxPrice q) ;;
     found <- find store (tour_matches q dest lo hi) ;;
     Ok (listed (Order.sort (Order.ascending TourModel.price) found))).

Definition tour (env : Env) (store : Collection TourModel.Tour) (id : string)
  : Response TourModel.Tour :=
  by_id env TourModel._id "Tour not found" store id.

End ToursRoute.

(** [GET /api/transportation] *)
Module TransportationRoute.
Import JsString Exn Store Catalog.
Local Open Scope exn_scope.

Record Query : Type := {
  type : option string;
  from : option string;
  to : option string;
  date : option string
}.





End TransportationRoute.

(** [GET /api/flights] *)
Module FlightsRoute.
Import Store.

Inductive FlightsBody : Type :=
| Flights (flights : list FlightModel.Flight) (source : string)
| FlightsError (error : string).

(** [await Flight.find().limit(50)] *)
Definition flights (store : Collection FlightModel.Flight) : Z * FlightsBody :=
  match store with
  | Online docs => (200%Z, Flights (firstn 50 docs) "database")
  | Offline message => (500%Z, FlightsError message)
  end.

End FlightsRoute.

(* ================================================================== *)
(** ** The registration route *)
(* ================================================================== *)

Module Registration.
Import JsString Exn Store.
Local Open Scope exn_scope.

Record Env : Type := {
  auth : Auth.Env;
  (** [bcrypt.hash(password, 10)] *)
  bcrypt_hash : string -> result string
}.

(** [req.body] *)
Record Body : Type := {
  firstName : option string;
  lastName : option string;
  email : string;
  password : string;
  phone : option string
}.

Inductive RegisterBody : Type :=
| Registered (message token id : string) (firstName lastName : option string)
    (email : string)
| ErrorBody (error : string).

Record Response : Type := {
  status : Z;
  body : RegisterBody
}.

(** A [required] text path of the schema: present and not empty. *)
Definition required (o : option string) : result string :=
  match o with
  | Some s => if is_empty s then Throw "User validation failed" else Ok s
  | None => Throw "User validation failed"
  end.

(** [new User({ firstName, lastName, email, password: hashedPassword, phone })]
    followed by [await user.save()]: validation of the required paths, the
    unique index on the email, then the insertion.  [id] is the identifier
    the new document gets and [now] the reading of [Date.now] taken by the
    default of [createdAt]. *)
Definition User_save (id : string) (now : Z) (users : Collection UserModel.User)
    (b : Body) (hashedPassword : string)
  : result (UserModel.User * Collection UserModel.User) :=
  fn <- required (firstName b) ;;
  ln <- required (lastName b) ;;
  em <- required (Some (email b)) ;;
  pw <- required (Some hashedPassword) ;;
  match users with
  | Offline message => Throw message
  | Online docs =>
      if existsb (fun d => String.eqb (UserModel.email d) em) docs
      then Throw "E11000 duplicate key error"
      else
        let user :=
          {| UserModel._id := id;
             UserModel.firstName := fn;
             UserModel.lastName := ln;
             UserModel.email := em;
             UserModel.password := pw;
             UserModel.phone := phone b;
             UserModel.address := None;
             UserModel.city := None;
             UserModel.country := None;
             UserModel.createdAt := now |} in
        Ok (user, Online (docs ++ [user])%list)
  end.

(** The handler of [POST /api/auth/register]: the response and the users
    collection afterwards. *)
Definition register (env : Env) (id : string) (now : Z)
    (users : Collection UserModel.User) (b : Body)
  : Response * Collection UserModel.User :=
  match
    (existingUser <- Auth.User_findOne users (email b) ;;
     match existingUser with
     | Some _ =>
         Ok ({| status := 400; body := ErrorBody "Email already registered" |}, users)
     | None =>
         hashedPassword <- bcrypt_hash env (password b) ;;
         saved <- User_save id now users b hashedPassword ;;
         let token := Auth.jwt_sign (auth env) (UserModel._id (fst saved))
                        (UserModel.email (fst saved)) in
         Ok ({| status := 201;
                body := Registered "User registered successfully" token
                          (UserModel._id (fst saved)) (firstName b) (lastName b)
                          (email b) |},
             snd saved)
     end)
  with
  | Ok r => r
  | Throw message => ({| status := 500; body := ErrorBody message |}, users)
  end.

End Registration.

(* ================================================================== *)
(** ** The caller's bookings *)
(* ================================================================== *)

Module MyBookings.
Import JsString Exn Store.
Local Open Scope exn_scope.

Inductive Body : Type :=
| Mine (bookings : list BookingModel.Booking) (count : nat)
| ErrorBody (error : string).

Record Response : Type := {
  status : Z;
  body : Body
}.

(** The response written by [authenticateToken] when it ends the request. *)
Definition rejection (r : Bookings.BookingResponse) : Response :=
  {| status := Bookings.status r;
     body := ErrorBody (match Bookings.body r with
                        | Bookings.ErrorBody e => e
                        | Bookings.Created m _ => m
                        end) |}.

(** [await Booking.find({ userId }).sort({ createdAt: -1 })] *)
Definition Booking_find_sort (env : Bookings.Env)
    (store : Collection BookingModel.Booking) (userId : string)
  : result (list BookingModel.Booking) :=
  if negb (Bookings.is_ObjectId env userId) then Throw "Cast to ObjectId failed"
  else
    match store with
    | Offline message => Throw message
    | Online docs =>
        Ok (Order.sort (Order.descending BookingModel.createdAt)
              (filter (fun b => String.eqb (BookingModel.userId b) userId) docs))
    end.

(** The handler of [GET /api/bookings/my-bookings] behind
    [authenticateToken]. *)
Definition my_bookings (env : Bookings.Env)
    (store : Collection BookingModel.Booking) (authorization : option string)
  : Response :=
  match Bookings.authenticateToken env authorization with
  | inr rejected => rejection rejected
  | inl user =>
      match Booking_find_sort env store (Bookings.tp_id user) with
      | Ok bookings => {| status := 200; body := Mine bookings (List.length bookings) |}
      | Throw message => {| status := 500; body := ErrorBody message |}
      end
  end.

End MyBookings.

(* ================================================================== *)
(** ** The provider proxies *)
(* ================================================================== *)

(** The parts of a location answer that the airport route reads. *)
Module ProviderLocations.

Record Address : Type := {
  cityName : option string;
  countryName : option string
}.

Record Location : Type := {
  name : option string;
  iataCode : option string;
  address : option Address;
  subType : option string
}.

Record Response : Type := {
  data : option (list Location)
}.

End ProviderLocations.

Module AirportSearch.
Import JsString Exn.
Local Open Scope exn_scope.

Record Env : Type := {
  (** [amadeus.referenceData.locations.get({ keyword, subType })] *)
  locations_get : string -> string -> result ProviderLocations.Response
}.

Record LocationView : Type := {
  name : option string;
  iataCode : option string;
  cityName : option string;
  countryName : option string;
  type : option string
}.

Inductive Body : Type :=
| Locations (locations : list LocationView) (count : nat)
| ErrorBody (error : string).

Record Response : Type := {
  status : Z;
  body : Body
}.

(** A call of the provider: keyword and sub-types. *)
Definition Call : Type := (string * string)%type.

Definition view (loc : ProviderLocations.Location) : LocationView :=
  {| name := ProviderLocations.name loc;
     iataCode := ProviderLocations.iataCode loc;
     cityName := match ProviderLocations.address loc with
                 | Some a => ProviderLocations.cityName a
                 | None => None
                 end;
     countryName := match ProviderLocations.address loc with
                    | Some a => ProviderLocations.countryName a
                    | None => None
                    end;
     type := ProviderLocations.subType loc |}.

(** The handler of [GET /api/airports/search]. *)
Definition airports (env : Env) (keyword : option string) : Response * list Call :=
  if negb (FlightSearch.truthy_text keyword)
     || (String.length (FlightSearch.text keyword) <? 2)%nat
  then ({| status := 400; body := ErrorBody "Keyword must be at least 2 characters" |},
        [])
  else
    let kw := FlightSearch.text keyword in
    match (response <- locations_get env kw "AIRPORT,CITY" ;;
           locs <- reading "map" (ProviderLocations.data response) ;;
           Ok (map view locs)) with
    | Ok locations =>
        ({| status := 200; body := Locations locations (List.length locations) |},
         [(kw, "AIRPORT,CITY")])
    | Throw message =>
        ({| status := 500; body := ErrorBody message |}, [(kw, "AIRPORT,CITY")])
    end.

End AirportSearch.

Module PriceAnalysis.
Import JsString Exn Normalizer JsDate.
Local Open Scope exn_scope.

(** A call of [amadeus.analytics.itineraryPriceMetrics.get]. *)
Record Request : Type := {
  originIataCode : JsValue;
  destinationIataCode : JsValue;
  departureDate : string
}.

Record Env : Type := {
  (** The provider call; the answer's [data] is passed on as it is, here as
      its JSON text ([None] when the answer has none). *)
  itineraryPriceMetrics : Request -> result (option string)
}.

Inductive Body : Type :=
| Metrics (priceMetrics : option string)
| ErrorBody (error : string).

Record Response : Type := {
  status : Z;
  body : Body
}.

(** The handler of [GET /api/flights/price-analysis]; [now] is the reading of
    [Date.now()]. *)
Definition price_analysis (env : Env) (now : Z) (from to : option string)
  : Response * list Request :=
  match getIATACode from, getIATACode to with
  | Some originCode, Some destCode =>
      match toISOString (of_time (now + 7 * 24 * 60 * 60 * 1000)) with
      | Throw message => ({| status := 500; body := ErrorBody message |}, [])
      | Ok iso =>
          let request :=
            {| originIataCode := originCode;
               destinationIataCode := destCode;
               departureDate := before "T" iso |} in
          match itineraryPriceMetrics env request with
          | Ok data => ({| status := 200; body := Metrics data |}, [request])
          | Throw message =>
              ({| status := 500; body := ErrorBody message |}, [request])
          end
      end
  | _, _ => ({| status := 400; body := ErrorBody "Invalid city names" |}, [])
  end.

End PriceAnalysis.

(* ================================================================== *)
(** ** The supported cities *)
(* ================================================================== *)

Module Cities.
Import JsString Normalizer.

Record City : Type := {
  name : string;
  code : string
}.

(** [Object.entries(cityToIATA).map(([city, code]) => ({ name: ..., code }))] *)
Definition entries : list City :=
  map (fun entry =>
         {| name := toUpperCase (charAt0 (fst entry)) ++ slice1 (fst entry);
            code := snd entry |})
      cityToIATA.

(** The handler of [GET /api/cities]: [{ cities, count }]. *)
Definition cities : list City * nat := (entries, List.length entries).

End Cities.

(* ================================================================== *)
(** ** Vocabulary of the further properties, and more sample data *)
(* ================================================================== *)

Module Vocabulary.
Import JsString Exn Normalizer JsDate Store.

Definition is_letter (c : ascii) : bool := is_upper c || is_lower c.

Definition is_some {A : Type} (o : option A) : bool :=
  match o with Some _ => true | None => false end.

(** The part of [getIATACode] that follows the trimming. *)
Definition resolve_key (key : string) : option JsValue :=
  if (String.length key =? 3)%nat && test_a_z key
  then Some (JsText (toUpperCase key))
  else or_else (get cityToIATA key) None.

(** A character other than the [T] that separates date and time. *)
Definition plain (c : ascii) : bool := negb (Ascii.eqb c "T").

(** [YYYY-MM-DD] *)
Definition date_text (ymd : Z * Z * Z) : string :=
  let '(y, m, d) := ymd in
  year_text y ++ "-" ++ pad 2 m ++ "-" ++ pad 2 d.

(** The first traveler has a first fare-segment detail. *)
Definition has_fare_detail (offer : Provider.Offer) : bool :=
  match Provider.travelerPricings offer with
  | Some (tp :: _) =>
      match Provider.fareDetailsBySegment tp with
      | Some (_ :: _) => true
      | _ => false
      end
  | _ => false
  end.

(** The parts of a provider answer without which an offer is not translated:
    a first itinerary with a duration and at least one segment, a departure on
    the first segment and an arrival on the last, a price, a first fare
    detail, and the [result] of the answer. *)
Definition translatable (res : option Provider.ResultBody)
    (offer : Provider.Offer) : bool :=
  match Provider.itineraries offer with
  | Some (it0 :: _) =>
      match Provider.segments it0 with
      | Some (seg :: rest) =>
          is_some (Provider.duration it0)
          && is_some res
          && is_some (Provider.departure seg)
          && match Translator.last_item (seg :: rest) with
             | Some l => is_some (Provider.arrival l)
             | None => false
             end
          && is_some (Provider.price offer)
          && has_fare_detail offer
      | _ => false
      end
  | _ => false
  end.

(** Reading a booking reference back: the timestamp behind ["BK"]. *)
Definition decode_reference (reference : string) : option Z :=
  if startsWith "BK" reference
  then Some (Z.of_N (Spec.value36 0 (toLowerCase (drop 2 reference))))
  else None.



(** The reading of the date default under which the value sent to the
    provider denotes the instant that lies exactly 24 hours after the
    request: some decoding of the text sent gives back that instant. *)
Definition date_sent_denotes_the_instant : Prop :=
  exists instant_of : string -> Z,
    forall env now store q oc dc request rest,
      FlightSearch.truthy_text (FlightSearch.from q) = true ->
      FlightSearch.truthy_text (FlightSearch.to q) = true ->
      getIATACode (FlightSearch.from q) = Some oc ->
      getIATACode (FlightSearch.to q) = Some dc ->
      FlightSearch.truthy_text (FlightSearch.date q) = false ->
      (Z.abs (now + DAY_MS) <= 8640000000000000)%Z ->
      snd (FlightSearch.search env now store q)
      = (FlightSearch.CallProvider request :: rest)%list ->
      instant_of (Provider.departureDate request) = (now + DAY_MS)%Z.

Definition emails (users : Collection UserModel.User) : list string :=
  map UserModel.email (Bookings.documents users).

Definition references (store : Collection BookingModel.Booking) : list string :=
  map BookingModel.bookingReference (Bookings.documents store).

End Vocabulary.

(** The Gregorian calendar as the text books give it, and the reading of a
    date text; the counterpart of what [Date] computes. *)
Module Calendar.
Import JsString.

Definition leap_year (y : Z) : bool :=
  (((y mod 4 =? 0) && negb (y mod 100 =? 0)) || (y mod 400 =? 0))%Z.

Definition days_in_month (y m : Z) : Z :=
  if (m =? 2)%Z then (if leap_year y then 29 else 28)%Z
  else if ((m =? 4) || (m =? 6) || (m =? 9) || (m =? 11))%Z then 30%Z
  else 31%Z.

(** Days of the months 1..[n] of year [y]. *)
Fixpoint days_of_months (y : Z) (n : nat) : Z :=
  match n with
  | O => 0%Z
  | S k => (days_of_months y k + days_in_month y (Z.of_nat n))%Z
  end.

(** Leap years among the years 1..[y]. *)
Definition leap_years_through (y : Z) : Z := (y / 4 - y / 100 + y / 400)%Z.

(** Days from 1 January 1970 to day [d] of month [m] of year [y]. *)
Definition day_number (y m d : Z) : Z :=
  (365 * (y - 1970) + (leap_years_through (y - 1) - leap_years_through 1969)
   + days_of_months y (Z.to_nat (m - 1)) + (d - 1))%Z.

(** [ymd] is the date of the day numbered [day]. *)
Definition calendar_date (day : Z) (ymd : Z * Z * Z) : bool :=
  let '(y, m, d) := ymd in
  ((day_number y m d =? day) && (1 <=? m) && (m <=? 12) && (1 <=? d)
   && (d <=? days_in_month y m))%Z.

(** [f] holds on the [p] integers from [base] on. *)
Fixpoint all_from (p : positive) (f : Z -> bool) (base : Z) : bool :=
  match p with
  | xH => f base
  | xO q => all_from q f base && all_from q f (base + Zpos q)%Z
  | xI q => all_from q f base && all_from q f (base + Zpos q)%Z
            && f (base + Zpos (xO q))%Z
  end.

(** Reading a decimal numeral. *)
Fixpoint decimal (acc : Z) (s : string) : option Z :=
  match s with
  | EmptyString => Some acc
  | String c r =>
      if is_digit c then decimal (10 * acc + (Z.of_N (code c) - 48))%Z r else None
  end.

(** Reading a text of the form YYYY-MM-DD. *)
Definition read_date (s : string) : option (Z * Z * Z) :=
  if (String.length s =? 10)%nat
     && String.eqb (substring 4 1 s) "-" && String.eqb (substring 7 1 s) "-"
  then match decimal 0 (substring 0 4 s), decimal 0 (substring 5 2 s),
             decimal 0 (substring 8 2 s) with
       | Some y, Some m, Some d => Some (y, m, d)
       | _, _, _ => None
       end
  else None.

(** [width] digits that read back as [z]. *)
Definition reads_back (width : nat) (z : Z) : bool :=
  (String.length (JsDate.pad width z) =? width)%nat
  && match decimal 0 (JsDate.pad width z) with
     | Some v => (v =? z)%Z
     | None => false
     end.

End Calendar.

Module Samples.
Import JsString Exn Store.

Definition catalog_env : Catalog.Env :=
  {| Catalog.RegExp_i := fun p =>
       if forall_string Spec.literal_char p then Ok (includes_ci p)
       else Throw "Invalid regular expression";
     Catalog.Date_parse := Fixtures.sample_parse;
     Catalog.Number := fun s =>
       if String.eqb s "100" then Some 100%Z
       else if String.eqb s "500" then Some 500%Z
       else None;
     Catalog.is_ObjectId := fun s => (String.length s =? 24)%nat |}.

Definition car (id name type location : string) (price : Z) (available : bool)
  : CarModel.Car :=
  {| CarModel._id := id;
     CarModel.carName := name;
     CarModel.brand := "Toyota";
     CarModel.model := None;
     CarModel.year := Some 2022%Z;
     CarModel.type := type;
     CarModel.seats := Some 5%Z;
     CarModel.transmission := "Automatic";
     CarModel.fuelType := "Petrol";
     CarModel.pricePerDay := Some price;
     CarModel.location := Some location;
     CarModel.available := available;
     CarModel.features := [];
     CarModel.image := None |}.

Definition corolla : CarModel.Car :=
  car "65a4f0c2b7e1a2d3c4b5a601" "Corolla" "Sedan" "Lahore Airport" 9000 true.
Definition fortuner : CarModel.Car :=
  car "65a4f0c2b7e1a2d3c4b5a602" "Fortuner" "SUV" "Lahore" 20000 true.
Definition yaris : CarModel.Car :=
  car "65a4f0c2b7e1a2d3c4b5a603" "Yaris" "Sedan" "Lahore" 7000 true.
Definition rented : CarModel.Car :=
  car "65a4f0c2b7e1a2d3c4b5a604" "City" "Sedan" "Lahore" 6000 false.

Definition sample_cars : list CarModel.Car := [corolla; fortuner; yaris; rented].

Definition tour (id title destination : string) (price : option Z) : TourModel.Tour :=
  {| TourModel._id := id;
     TourModel.title := title;
     TourModel.destination := Some destination;
     TourModel.duration := Some "5 days";
     TourModel.description := None;
     TourModel.price := price;
     TourModel.includes := [];
     TourModel.excludes := [];
     TourModel.itinerary := [];
     TourModel.maxPeople := Some 20%Z;
     TourModel.availableSlots := Some 10%Z;
     TourModel.startDate := None;
     TourModel.endDate := None;
     TourModel.image := None;
     TourModel.rating := QArith_base.Qmake 9 2 |}.

Definition hunza : TourModel.Tour := tour "65a4f0c2b7e1a2d3c4b5a611" "Hunza" "Hunza Valley" (Some 450%Z).
Definition skardu : TourModel.Tour := tour "65a4f0c2b7e1a2d3c4b5a612" "Skardu" "Skardu" (Some 800%Z).
Definition murree : TourModel.Tour := tour "65a4f0c2b7e1a2d3c4b5a613" "Murree" "Murree" (Some 120%Z).
Definition unpriced : TourModel.Tour := tour "65a4f0c2b7e1a2d3c4b5a614" "Swat" "Swat" None.

Definition sample_tours : list TourModel.Tour := [hunza; skardu; murree; unpriced].



Definition register_env : Registration.Env :=
  {| Registration.auth := Fixtures.auth_env;
     Registration.bcrypt_hash := fun password => Ok ("$2a$10$hash-of-" ++ password) |}.

Definition bob : Registration.Body :=
  {| Registration.firstName := Some "Bob";
     Registration.lastName := Some "Malik";
     Registration.email := "bob@example.com";
     Registration.password := "tr0ub4dor";
     Registration.phone := None |}.

Definition booking_of (reference user : string) (created : Z) : BookingModel.Booking :=
  {| BookingModel.bookingReference := reference;
     BookingModel.userId := user;
     BookingModel.bookingType := Some "car";
     BookingModel.serviceId := Some "65a4f0c2b7e1a2d3c4b5a601";
     BookingModel.customerInfo := None;
     BookingModel.bookingDetails := None;
     BookingModel.totalAmount := Some 9000%Z;
     BookingModel.paymentStatus := "completed";
     BookingModel.bookingStatus := "confirmed";
     BookingModel.createdAt := created |}.

Definition sample_bookings : list BookingModel.Booking :=
  [ booking_of "BKAAA" "65a4f0c2b7e1a2d3c4b5a697" 1699000000000;
    booking_of "BKBBB" "75a4f0c2b7e1a2d3c4b5a600" 1699000001000;
    booking_of "BKCCC" "65a4f0c2b7e1a2d3c4b5a697" 1699000002000 ].

Definition airports_env : AirportSearch.Env :=
  {| AirportSearch.locations_get := fun keyword subType =>
       Ok {| ProviderLocations.data :=
               Some [ {| ProviderLocations.name := Some "ALLAMA IQBAL INTL";
                         ProviderLocations.iataCode := Some "LHE";
                         ProviderLocations.address :=
                           Some {| ProviderLocations.cityName := Some "LAHORE";
                                   ProviderLocations.countryName := Some "PAKISTAN" |};
                         ProviderLocations.subType := Some "AIRPORT" |} ] |} |}.

Definition metrics_env : PriceAnalysis.Env :=
  {| PriceAnalysis.itineraryPriceMetrics := fun request =>
       Throw "Request failed with status code 429" |}.

End Samples.

(* ================================================================== *)
(** * Properties *)
(* ================================================================== *)

(** ** Strings *)

Module JsStringFacts.
Import JsString Spec.

Lemma forall_string_impl (p q : ascii -> bool) (s : string) :
  (forall c, p c = true -> q c = true) ->
  forall_string p s = true -> forall_string q s = true.
Proof.
  intros Hpq; induction s as [|c r IH]; simpl; [reflexivity|].
  rewrite !andb_true_iff; intros [Hc Hr]; split; auto.
Qed.

Lemma forall_string_map (f : ascii -> ascii) (p : ascii -> bool) (s : string) :
  forall_string p (map_string f s) = forall_string (fun c => p (f c)) s.
Proof.
  induction s as [|c r IH]; simpl; [reflexivity|]. now rewrite IH.
Qed.

Lemma forall_string_app (p : ascii -> bool) (s t : string) :
  forall_string p (s ++ t) = forall_string p s && forall_string p t.
Proof.
  induction s as [|c r IH]; simpl; [reflexivity|].
  now rewrite IH, andb_assoc.
Qed.

Lemma is_empty_true (s : string) : is_empty s = true -> s = EmptyString.
Proof. destruct s; [reflexivity|discriminate]. Qed.

(** What [trimEnd] keeps decides for the whole text, white space aside. *)
Lemma trimEnd_forall (p : ascii -> bool) (s : string) :
  forall_string p (trimEnd s) = true ->
  forall_string (fun c => p c || is_space c) s = true.
Proof.
  induction s as [|c r IH]; simpl; [reflexivity|].
  destruct (is_space c) eqn:Hsp; simpl.
  - destruct (is_empty (trimEnd r)) eqn:He; simpl.
    + intros _. rewrite orb_true_r. apply IH.
      now rewrite (is_empty_true _ He).
    + rewrite andb_true_iff; intros [_ Hr].
      rewrite orb_true_r; simpl; auto.
  - rewrite andb_true_iff; intros [Hc Hr].
    rewrite Hc; simpl; auto.
Qed.

Lemma trimStart_forall (p : ascii -> bool) (s : string) :
  (forall c, is_space c = true -> p c = true) ->
  forall_string p (trimStart s) = true -> forall_string p s = true.
Proof.
  intros Hsp; induction s as [|c r IH]; simpl; [reflexivity|].
  destruct (is_space c) eqn:Hc; [|exact (fun H => H)].
  intros H. rewrite (Hsp _ Hc); simpl; auto.
Qed.

Lemma trim_forall (p : ascii -> bool) (s : string) :
  forall_string p (trim s) = true ->
  forall_string (fun c => p c || is_space c) s = true.
Proof.
  intros H. apply trimStart_forall.
  - intros c Hc. now rewrite Hc, orb_true_r.
  - now apply trimEnd_forall.
Qed.

Lemma lower_char_literal (c : ascii) :
  literal_char (lower_char c) = true -> literal_char c = true.
Proof.
  destruct c as [[] [] [] [] [] [] [] []]; vm_compute; intros H; exact H || reflexivity.
Qed.

Lemma literal_char_space (c : ascii) :
  literal_char c || is_space c = true -> literal_char c = true.
Proof.
  unfold literal_char. destruct (is_space c); simpl.
  - intros _. now rewrite orb_true_r.
  - now rewrite orb_false_r.
Qed.

(** A text whose trimmed lower-case form is literal is literal itself. *)
Lemma literal_of_key (s : string) :
  forall_string literal_char (trim (toLowerCase s)) = true ->
  forall_string literal_char s = true.
Proof.
  intros H. apply trim_forall in H.
  unfold toLowerCase in H. rewrite forall_string_map in H.
  revert H. apply forall_string_impl.
  intros c Hc. apply lower_char_literal. now apply literal_char_space.
Qed.

Lemma startsWith_app (p s : string) : startsWith p (p ++ s) = true.
Proof.
  induction p as [|c r IH]; simpl; [reflexivity|].
  now rewrite Ascii.eqb_refl.
Qed.

Lemma drop_app (p s : string) : drop (String.length p) (p ++ s) = s.
Proof. induction p as [|c r IH]; simpl; auto. Qed.

(** [replace] leaves alone a prefix that holds no occurrence of a
    one-character pattern. *)
Lemma replace_after (a : ascii) (rep pre rest : string) :
  forall_string (fun c => negb (Ascii.eqb a c)) pre = true ->
  replace (String a EmptyString) rep (pre ++ String a rest) = pre ++ rep ++ rest.
Proof.
  induction pre as [|c r IH]; simpl.
  - intros _. now rewrite Ascii.eqb_refl.
  - rewrite andb_true_iff; intros [Hc Hr].
    apply negb_true_iff in Hc. rewrite Hc; simpl. now rewrite IH.
Qed.

(** ... and a text that holds none at all. *)
Lemma replace_absent (a : ascii) (rep s : string) :
  forall_string (fun c => negb (Ascii.eqb a c)) s = true ->
  replace (String a EmptyString) rep s = s.
Proof.
  induction s as [|c r IH]; simpl; [reflexivity|].
  rewrite andb_true_iff; intros [Hc Hr].
  apply negb_true_iff in Hc. rewrite Hc; simpl. now rewrite IH.
Qed.

Lemma String_app_assoc (a b c : string) : (a ++ b) ++ c = a ++ b ++ c.
Proof. induction a as [|x r IH]; simpl; [reflexivity|]. now rewrite IH. Qed.

End JsStringFacts.

(** ** The normalizer *)

Module NormalizerFacts.
Import JsString Normalizer Spec JsStringFacts.

Example getIATACode_lahore : getIATACode (Some "  LaHoRe ") = Some (JsText "LHE").
Proof. reflexivity. Qed.

Example getIATACode_passthrough : getIATACode (Some "zzz") = Some (JsText "ZZZ").
Proof. reflexivity. Qed.

Example getIATACode_unknown : getIATACode (Some "nowhere") = None.
Proof. reflexivity. Qed.

Lemma cityToIATA_keys_NoDup : NoDup (keys cityToIATA).
Proof.
  unfold keys, cityToIATA; simpl.
  repeat (constructor; [ simpl; intuition discriminate | ]).
  constructor.
Qed.

Lemma own_In (obj : list (string * string)) (key v : string) :
  own obj key = Some v -> In key (keys obj).
Proof.
  induction obj as [|[k w] rest IH]; simpl; [discriminate|].
  destruct (String.eqb k key) eqn:E.
  - apply String.eqb_eq in E. now left.
  - intros H. right. now apply IH.
Qed.

Lemma inherited_In (key : string) :
  inherited key = true -> In key Object_prototype.
Proof.
  unfold inherited. rewrite existsb_exists.
  intros [x [Hin Heq]]. apply String.eqb_eq in Heq. now subst.
Qed.

Lemma cityToIATA_keys_literal :
  Forall (fun k => forall_string literal_char k = true) (keys cityToIATA).
Proof. repeat constructor. Qed.

Lemma Object_prototype_literal :
  Forall (fun k => forall_string literal_char k = true) Object_prototype.
Proof. repeat constructor. Qed.

Lemma get_cityToIATA_literal (key : string) (v : JsValue) :
  get cityToIATA key = Some v -> forall_string literal_char key = true.
Proof.
  unfold get. destruct (own cityToIATA key) eqn:Hown.
  - intros _. apply own_In in Hown.
    exact (proj1 (Forall_forall _ _) cityToIATA_keys_literal _ Hown).
  - destruct (inherited key) eqn:Hinh; [|discriminate].
    intros _. apply inherited_In in Hinh.
    exact (proj1 (Forall_forall _ _) Object_prototype_literal _ Hinh).
Qed.

Lemma cityToIATA_codes_nonempty (key v : string) :
  own cityToIATA key = Some v -> is_empty v = false.
Proof.
  assert (Hall : Forall (fun kv => is_empty (snd kv) = false) cityToIATA)
    by (repeat constructor).
  induction Hall as [|[k w] rest Hw Hrest IH]; simpl; [discriminate|].
  destruct (String.eqb k key); [|exact IH].
  now intros [= <-].
Qed.

(** Every text that [getIATACode] resolves is made of letters, white space
    and underscores only. *)
Lemma resolved_literal (s : string) (v : JsValue) :
  getIATACode (Some s) = Some v -> forall_string literal_char s = true.
Proof.
  unfold getIATACode. destruct (is_empty s); [discriminate|].
  set (key := trim (toLowerCase s)).
  destruct ((String.length key =? 3)%nat && test_a_z key) eqn:Hcode.
  - intros _. apply literal_of_key. fold key.
    apply andb_true_iff in Hcode as [_ Haz].
    unfold test_a_z in Haz. apply andb_true_iff in Haz as [_ Haz].
    revert Haz. apply forall_string_impl.
    intros c Hc. unfold literal_char. now rewrite Hc, orb_true_r.
  - unfold or_else. destruct (get cityToIATA key) eqn:Hget; [|discriminate].
    intros _. apply literal_of_key. fold key.
    now apply get_cityToIATA_literal with (v := j).
Qed.

(** The behaviour of [getIATACode] on every text whose trimmed lower-case form
    is not the name of a member of [Object.prototype]. *)
Lemma getIATACode_own_table (s : string) :
  let key := trim (toLowerCase s) in
  inherited key = false ->
  getIATACode (Some s) =
    if is_empty s then None
    else if (String.length key =? 3)%nat && forall_string is_lower key
         then Some (JsText (toUpperCase key))
         else option_map JsText (own cityToIATA key).
Proof.
  intros key Hinh. unfold getIATACode. fold key.
  destruct (is_empty s); [reflexivity|].
  assert (Hre : (String.length key =? 3)%nat && test_a_z key
                = (String.length key =? 3)%nat && forall_string is_lower key).
  { unfold test_a_z. destruct key; [reflexivity|]. reflexivity. }
  rewrite Hre.
  destruct ((String.length key =? 3)%nat && forall_string is_lower key); [reflexivity|].
  unfold get. rewrite Hinh.
  destruct (own cityToIATA key) eqn:Hown; [|reflexivity].
  simpl. now rewrite (cityToIATA_codes_nonempty _ _ Hown).
Qed.

(** C2.  [getIATACode] does not yield none on every text that is absent from
    the city table: the text "constructor" is not a key of the table and is not
    a three-letter code, yet the lookup walks the prototype chain of the table
    object and returns the member of [Object.prototype] of that name, which is
    truthy and therefore survives [|| null]. *)
Theorem getIATACode_inherited_member :
  own cityToIATA "constructor" = None
  /\ String.length (trim (toLowerCase "constructor")) <> 3%nat
  /\ getIATACode (Some "constructor") = Some (JsInherited "constructor")
  /\ getIATACode (Some "constructor") <> None.
Proof.
  repeat split; try reflexivity; vm_compute; discriminate.
Qed.

(** Only two such names are spelt in lower case, so only they can be reached
    after [toLowerCase]. *)
Lemma inherited_lower_case (key : string) :
  inherited (toLowerCase key) = true ->
  toLowerCase key = "constructor" \/ toLowerCase key = "__proto__".
Proof.
  intros H. apply inherited_In in H.
  assert (Hfix : toLowerCase (toLowerCase key) = toLowerCase key).
  { clear H. unfold toLowerCase.
    induction key as [|c r IH]; simpl; [reflexivity|].
    rewrite IH. f_equal.
    destruct c as [[] [] [] [] [] [] [] []]; reflexivity. }
  simpl in H.
  repeat match goal with
         | H : _ \/ _ |- _ => destruct H as [H|H]
         end;
    try contradiction; try (now left); try (now right);
    rewrite <- H in Hfix; vm_compute in Hfix; discriminate.
Qed.

End NormalizerFacts.

(** ** The offer translator *)

Module TranslatorFacts.
Import JsString Exn Normalizer Translator Spec JsStringFacts.

Ltac bind_ok H :=
  repeat match type of H with
         | bind (reading _ ?x) _ = Ok _ =>
             let E := fresh "E" in
             destruct x eqn:E; simpl in H; [|discriminate H]
         | bind ?m _ = Ok _ =>
             let E := fresh "E" in
             destruct m eqn:E; simpl in H; [|discriminate H]
         end.

(** What a successful translation read from the offer, and what it wrote. *)
Lemma translate_ok (host : Host) (res : option Provider.ResultBody)
    (from to : string) (oc dc : JsValue) (offer : Provider.Offer)
    (r : FlightRecord) :
  translate host res from to oc dc offer = Ok r ->
  exists it0 its segs d,
    Provider.itineraries offer = Some (it0 :: its)
    /\ Provider.segments it0 = Some segs
    /\ Provider.duration it0 = Some d
    /\ segs <> []
    /\ duration r = render_duration d
    /\ stops r = stops_label (List.length segs)
    /\ availableSeats r = available_seats (Provider.numberOfBookableSeats offer)
    /\ source r = "amadeus".
Proof.
  unfold translate. intros H. bind_ok H.
  destruct l as [|it0' its]; simpl in E0; [discriminate|].
  injection E0 as ->.
  injection H as <-. simpl.
  exists i, its, l0, s. repeat split; auto.
  intros ->. discriminate.
Qed.

(** A well-formed duration with hours and minutes is rendered as the comment
    in the source announces. *)
Lemma render_duration_hours_minutes (h m : string) :
  forall_string is_digit h = true -> forall_string is_digit m = true ->
  render_duration ("PT" ++ h ++ "H" ++ m ++ "M") = h ++ "h " ++ m ++ "m".
Proof.
  intros Hh Hm. unfold render_duration.
  assert (Hd : forall a, is_digit a = false -> forall x, is_digit x = true ->
                         negb (Ascii.eqb a x) = true).
  { intros a Ha x Hx. apply negb_true_iff. apply Ascii.eqb_neq. congruence. }
  replace (replace "PT" EmptyString ("PT" ++ h ++ "H" ++ m ++ "M")) with (h ++ "H" ++ m ++ "M")
    by (destruct h; reflexivity).
  change (h ++ "H" ++ m ++ "M") with (h ++ String "H" (m ++ "M")).
  rewrite replace_after
    by (revert Hh; apply forall_string_impl; apply Hd; reflexivity).
  change (h ++ "h " ++ m ++ "M") with (h ++ "h " ++ m ++ String "M" EmptyString).
  rewrite <- (String_app_assoc h "h " _), <- (String_app_assoc (h ++ "h ") m _).
  rewrite replace_after.
  - simpl. now rewrite !String_app_assoc.
  - rewrite !forall_string_app. rewrite !andb_true_iff. split; [split|].
    + revert Hh; apply forall_string_impl; apply Hd; reflexivity.
    + reflexivity.
    + revert Hm; apply forall_string_impl; apply Hd; reflexivity.
Qed.

Example render_duration_2h30m : render_duration "PT2H30M" = "2h 30m".
Proof. reflexivity. Qed.

(** With hours only, the blank that follows [h] is left at the end. *)
Lemma render_duration_hours (h : string) :
  forall_string is_digit h = true ->
  render_duration ("PT" ++ h ++ "H") = h ++ "h ".
Proof.
  intros Hh. unfold render_duration.
  assert (Hd : forall a, is_digit a = false -> forall x, is_digit x = true ->
                         negb (Ascii.eqb a x) = true).
  { intros a Ha x Hx. apply negb_true_iff. apply Ascii.eqb_neq. congruence. }
  replace (replace "PT" EmptyString ("PT" ++ h ++ "H")) with (h ++ "H")
    by (destruct h; reflexivity).
  change (h ++ "H") with (h ++ String "H" EmptyString).
  rewrite replace_after
    by (revert Hh; apply forall_string_impl; apply Hd; reflexivity).
  apply replace_absent.
  rewrite forall_string_app, andb_true_iff. split; [|reflexivity].
  revert Hh; apply forall_string_impl; apply Hd; reflexivity.
Qed.

(** C4.  An offer whose itinerary lasts exactly two hours, "PT2H", is
    translated, and its duration is rendered as "2h " with a blank left at the
    end: the minutes component is not dropped cleanly and the text differs from
    "2h". *)
Theorem duration_hours_only_trailing_blank :
  exists r,
    translate Fixtures.sample_host (Some Fixtures.sample_result) "lahore" "dubai"
      (JsText "LHE") (JsText "DXB") Fixtures.hours_only_offer = Ok r
    /\ duration r = "2h "
    /\ duration r <> "2h".
Proof.
  eexists. split; [reflexivity|]. split; [reflexivity|]. discriminate.
Qed.



Example stops_label_values :
  map stops_label [1; 2; 3; 4; 11]%nat
  = ["Non-stop"; "1 Stop"; "2 Stops"; "3 Stops"; "10 Stops"].
Proof. reflexivity. Qed.

(** C10.  For every translated offer, [availableSeats] is 9 when the
    provider's bookable-seat count is absent or zero, and is the provider's
    count otherwise. *)
Theorem available_seats_default (host : Host)
    (res : option Provider.ResultBody) (from to : string) (oc dc : JsValue)
    (offer : Provider.Offer) (r : FlightRecord) :
  translate host res from to oc dc offer = Ok r ->
  (Provider.numberOfBookableSeats offer = None -> availableSeats r = 9%Z)
  /\ (Provider.numberOfBookableSeats offer = Some 0%Z -> availableSeats r = 9%Z)
  /\ (forall n, Provider.numberOfBookableSeats offer = Some n -> n <> 0%Z ->
                availableSeats r = n).
Proof.
  intros H. apply translate_ok in H.
  destruct H as (it0 & its & segs & d & _ & _ & _ & _ & _ & _ & Hseats & _).
  rewrite Hseats. unfold available_seats.
  repeat split.
  - intros ->. reflexivity.
  - intros ->. reflexivity.
  - intros n -> Hn. destruct (Z.eqb_spec n 0); [contradiction|reflexivity].
Qed.

Lemma available_seats_default_witness :
  exists r,
    translate Fixtures.sample_host (Some Fixtures.sample_result) "lahore" "dubai"
      (JsText "LHE") (JsText "DXB") Fixtures.two_stop_offer = Ok r
    /\ (Provider.numberOfBookableSeats Fixtures.two_stop_offer = None ->
        availableSeats r = 9%Z)
    /\ (Provider.numberOfBookableSeats Fixtures.two_stop_offer = Some 0%Z ->
        availableSeats r = 9%Z)
    /\ (forall n, Provider.numberOfBookableSeats Fixtures.two_stop_offer = Some n ->
                  n <> 0%Z -> availableSeats r = n).
Proof.
  eexists. split; [reflexivity|].
  apply (available_seats_default Fixtures.sample_host
           (Some Fixtures.sample_result) "lahore" "dubai"
           (JsText "LHE") (JsText "DXB") Fixtures.two_stop_offer).
  reflexivity.
Defined.

(** An offer without a first fare-segment detail for its first traveler is not
    translated. *)
Lemma translate_needs_fare_detail (host : Host)
    (res : option Provider.ResultBody) (from to : string) (oc dc : JsValue)
    (offer : Provider.Offer) :
  is_ok (first_fare_detail "cabin" offer) = false ->
  is_ok (translate host res from to oc dc offer) = false.
Proof.
  intros Hfd. destruct (translate host res from to oc dc offer) eqn:H; [|reflexivity].
  exfalso. unfold translate in H. bind_ok H.
  simpl in Hfd. discriminate.
Qed.

End TranslatorFacts.

(** ** The flight-search route *)

Module FlightSearchFacts.
Import JsString Exn Normalizer JsDate Store FlightSearch Spec.
Import JsStringFacts NormalizerFacts TranslatorFacts.

(** *** Sorting by price *)

Lemma price_le_total (a b : option Z) : price_le a b = false -> price_le b a = true.
Proof.
  destruct a as [x|], b as [y|]; simpl; try reflexivity; try discriminate.
  intros H. apply Z.leb_gt in H. apply Z.leb_le. lia.
Qed.

Lemma insert_by_price_perm (f : FlightModel.Flight) (l : list FlightModel.Flight) :
  Permutation (f :: l) (insert_by_price f l).
Proof.
  induction l as [|g rest IH]; simpl; [apply Permutation_refl|].
  destruct (price_le (FlightModel.price f) (FlightModel.price g)); [apply Permutation_refl|].
  eapply perm_trans; [apply perm_swap|]. now apply perm_skip.
Qed.

Lemma sort_by_price_perm (l : list FlightModel.Flight) : Permutation (sort_by_price l) l.
Proof.
  induction l as [|f rest IH]; simpl; [constructor|].
  eapply perm_trans; [apply Permutation_sym, insert_by_price_perm|].
  now apply perm_skip.
Qed.

Lemma insert_by_price_hd (f g : FlightModel.Flight) (l : list FlightModel.Flight) :
  by_price g f -> HdRel by_price g l -> HdRel by_price g (insert_by_price f l).
Proof.
  intros Hgf Hhd. destruct l as [|h rest]; simpl.
  - now constructor.
  - destruct (price_le (FlightModel.price f) (FlightModel.price h)); constructor; auto.
    now inversion Hhd.
Qed.

Lemma insert_by_price_sorted (f : FlightModel.Flight) (l : list FlightModel.Flight) :
  Sorted by_price l -> Sorted by_price (insert_by_price f l).
Proof.
  induction 1 as [|g rest Hsorted IH Hhd]; simpl.
  - repeat constructor.
  - destruct (price_le (FlightModel.price f) (FlightModel.price g)) eqn:Hle.
    + constructor; [now constructor|]. now constructor.
    + constructor; [exact IH|].
      apply insert_by_price_hd; [|exact Hhd].
      now apply price_le_total.
Qed.

Lemma sort_by_price_sorted (l : list FlightModel.Flight) : Sorted by_price (sort_by_price l).
Proof.
  induction l as [|f rest IH]; simpl; [constructor|].
  now apply insert_by_price_sorted.
Qed.

(** *** The query built by the fallback *)

Lemma truthy_text_Some (o : option string) :
  truthy_text o = true -> o = Some (text o).
Proof. destruct o; [reflexivity|discriminate]. Qed.

Lemma regex_for_resolved (env : Env) (param : option string) (v : JsValue) :
  literal_regex env ->
  truthy_text param = true -> getIATACode param = Some v ->
  exists re, regex_for env param = Ok (Some re)
             /\ forall s, test re s = includes_ci (text param) s.
Proof.
  intros Hre Ht Hv. unfold regex_for. rewrite Ht.
  rewrite (truthy_text_Some _ Ht) in Hv. apply resolved_literal in Hv.
  destruct (Hre _ Hv) as (t & Hnew & Htest). rewrite Hnew. simpl.
  eexists; split; [reflexivity|exact Htest].
Qed.

Lemma castable_usable (env : Env) (q : Query) (qf qt : option Regex) :
  castable {| q_from := qf; q_to := qt; q_departureDate := range_for env (date q) |}
  = date_usable env q.
Proof.
  unfold castable, date_usable, range_for.
  cbn [q_departureDate].
  destruct (truthy_text (date q)); [|reflexivity].
  cbn [gte lt].
  destruct (Date_parse env (text (date q))) as [t|]; [|reflexivity].
  unfold plus, of_time. change (24 * 60 * 60 * 1000)%Z with DAY_MS.
  now destruct (Z.abs (t + DAY_MS) <=? 8640000000000000)%Z.
Qed.

Lemma in_range_wanted (env : Env) (q : Query) (d : option Z) :
  date_usable env q = true ->
  in_range (range_for env (date q)) d
  = if truthy_text (date q) then
      match Date_parse env (text (date q)), d with
      | Some t, Some d => ((t <=? d) && (d <? t + DAY_MS))%Z
      | _, _ => false
      end
    else true.
Proof.
  unfold date_usable, in_range, range_for.
  destruct (truthy_text (date q)); [|reflexivity].
  cbn [gte lt].
  destruct (Date_parse env (text (date q))) as [t|]; [|discriminate].
  intros Hok. unfold plus, of_time. change (24 * 60 * 60 * 1000)%Z with DAY_MS.
  rewrite Hok. reflexivity.
Qed.


(** *** The route *)

Lemma mapM_throws {A B : Type} (f : A -> result B) (xs : list A) (x : A) :
  In x xs -> is_ok (f x) = false -> is_ok (mapM f xs) = false.
Proof.
  induction xs as [|y rest IH]; simpl; [contradiction|].
  intros [->|Hin] Hx.
  - destruct (f x); [discriminate|reflexivity].
  - destruct (f y); [|reflexivity]. simpl.
    specialize (IH Hin Hx). destruct (mapM f rest); [discriminate|reflexivity].
Qed.

(** The response of the fallback never carries provider-sourced flights. *)
Lemma fallback_body (env : Env) (e : string) (store : Collection FlightModel.Flight)
    (q : Query) :
  (exists flights, fst (fallback env e store q) = database_response flights)
  \/ fst (fallback env e store q) = failure_response e.
Proof.
  unfold fallback. destruct (build_query env q); [|now right].
  destruct (Flight_find_sort store a); [left; eexists; reflexivity|now right].
Qed.

(** Once the query texts are present and resolved and the departure date is
    known, the route is the provider call followed by the translation, with
    the fallback as the handler of whatever they throw. *)
Lemma search_after_validation (env : Env) (now : Z)
    (store : Collection FlightModel.Flight) (q : Query) (oc dc : JsValue) (dd : string) :
  truthy_text (from q) = true -> truthy_text (to q) = true ->
  getIATACode (from q) = Some oc -> getIATACode (to q) = Some dc ->
  departure_date now q = Ok dd ->
  search env now store q =
    match bind (flightOffersSearch env (request_for env q oc dc dd))
               (fun response => translate_all env response (text (from q))
                                  (text (to q)) oc dc) with
    | Ok flights => (provider_response flights oc dc dd,
                     [CallProvider (request_for env q oc dc dd)])
    | Throw e => after (CallProvider (request_for env q oc dc dd))
                   (fallback env e store q)
    end.
Proof.
  intros Hf Ht Hoc Hdc Hdd. unfold search.
  rewrite Hf, Ht, Hoc, Hdc, Hdd. reflexivity.
Qed.

Lemma build_query_resolved (env : Env) (q : Query) (oc dc : JsValue) :
  literal_regex env ->
  truthy_text (from q) = true -> truthy_text (to q) = true ->
  getIATACode (from q) = Some oc -> getIATACode (to q) = Some dc ->
  exists query,
    build_query env q = Ok query
    /\ castable query = date_usable env q
    /\ (date_usable env q = true -> forall f, matches query f = wanted env q f).
Proof.
  intros Hre Hf Ht Hoc Hdc.
  destruct (regex_for_resolved env _ _ Hre Hf Hoc) as (rf & Hrf & Htf).
  destruct (regex_for_resolved env _ _ Hre Ht Hdc) as (rt & Hrt & Htt).
  unfold build_query. rewrite Hrf, Hrt. simpl.
  eexists. split; [reflexivity|]. split; [apply castable_usable|].
  intros Hok f. unfold matches, wanted. cbn [q_from q_to q_departureDate field_matches].
  now rewrite Htf, Htt, (in_range_wanted env q _ Hok).
Qed.




Lemma mapM_first_throw {A B : Type} (f : A -> result B) (xs : list A) (e : string) :
  mapM f xs = Throw e -> exists x, In x xs /\ f x = Throw e.
Proof.
  induction xs as [|y rest IH]; simpl; [discriminate|].
  destruct (f y) as [b|e'] eqn:Hy; simpl.
  - destruct (mapM f rest) as [bs|e'']; simpl; [discriminate|].
    intros [= <-]. destruct (IH eq_refl) as (x & Hin & Hx). exists x. auto.
  - intros [= <-]. exists y. auto.
Qed.

(** What the fallback does for query texts that resolved: one stored-flight
    query, and the response that its outcome decides. *)
Lemma fallback_resolved (env : Env) (e : string)
    (store : Collection FlightModel.Flight) (q : Query) (oc dc : JsValue) :
  literal_regex env ->
  truthy_text (from q) = true -> truthy_text (to q) = true ->
  getIATACode (from q) = Some oc -> getIATACode (to q) = Some dc ->
  exists query,
    snd (fallback env e store q) = [FindFlights query]
    /\ match store with
       | Online docs =>
           if date_usable env q then
             let flights := sort_by_price (filter (wanted env q) docs) in
             fst (fallback env e store q)
             = {| status := 200;
                  body := DatabaseBody flights (List.length flights) "database"
                            "Amadeus API unavailable, showing cached results" |}
           else
             fst (fallback env e store q)
             = {| status := 500; body := FailureBody "Failed to fetch flights" e |}
       | Offline _ =>
           fst (fallback env e store q)
           = {| status := 500; body := FailureBody "Failed to fetch flights" e |}
       end.
Proof.
  intros Hre Hf Ht Hoc Hdc. unfold fallback.
  destruct (build_query_resolved env q oc dc Hre Hf Ht Hoc Hdc)
    as (query & Hq & Hcast & Hmatch).
  rewrite Hq. exists query.
  destruct store as [docs|message]; cbn [Flight_find_sort].
  - rewrite Hcast. destruct (date_usable env q) eqn:Hok; cbn [fst snd].
    + rewrite (filter_ext _ _ (Hmatch eq_refl) docs). split; reflexivity.
    + split; reflexivity.
  - cbn [fst snd]. split; reflexivity.
Qed.

(** C3.  When the provider answers and the translation of one of its offers
    throws, the route abandons the whole batch and takes the database
    fallback, as after a failed provider call: besides the provider call it
    makes one stored-flight query, and it answers either 200 with the stored
    flights that match the raw query texts (and the date window), cheapest
    first, with their count and the source marker "database", or, when that
    query fails, 500 with the message of the error that an offer's translation
    threw.  In no case does the response carry provider-sourced flights, not
    even those of the offers that could be translated. *)
Theorem translation_failure_abandons_batch (env : Env) (now : Z)
    (store : Collection FlightModel.Flight) (q : Query) (oc dc : JsValue)
    (dd : string) (response : Provider.Response)
    (offers : list Provider.Offer) (offer : Provider.Offer) :
  literal_regex env ->
  truthy_text (from q) = true -> truthy_text (to q) = true ->
  getIATACode (from q) = Some oc -> getIATACode (to q) = Some dc ->
  departure_date now q = Ok dd ->
  flightOffersSearch env (request_for env q oc dc dd) = Ok response ->
  Provider.data response = Some offers ->
  In offer offers ->
  is_ok (Translator.translate (host env) (Provider.result response)
           (text (from q)) (text (to q)) oc dc offer) = false ->
  exists e query,
    (exists failing,
       In failing offers
       /\ Translator.translate (host env) (Provider.result response)
            (text (from q)) (text (to q)) oc dc failing = Throw e)
    /\ snd (search env now store q)
       = [CallProvider (request_for env q oc dc dd); FindFlights query]
    /\ match store with
       | Online docs =>
           if date_usable env q then
             let flights := sort_by_price (filter (wanted env q) docs) in
             fst (search env now store q)
             = {| status := 200;
                  body := DatabaseBody flights (List.length flights) "database"
                            "Amadeus API unavailable, showing cached results" |}
             /\ Sorted by_price flights
             /\ (forall f, In f flights <-> In f docs /\ wanted env q f = true)
           else
             fst (search env now store q)
             = {| status := 500; body := FailureBody "Failed to fetch flights" e |}
       | Offline _ =>
           fst (search env now store q)
           = {| status := 500; body := FailureBody "Failed to fetch flights" e |}
       end
    /\ forall flights n src sp,
         body (fst (search env now store q)) <> ProviderBody flights n src sp.
Proof.
  intros Hre Hf Ht Hoc Hdc Hdd Hresp Hdata Hin Hbad.
  rewrite (search_after_validation env now store q oc dc dd Hf Ht Hoc Hdc Hdd).
  rewrite Hresp. cbn [bind]. unfold translate_all. rewrite Hdata. cbn [reading bind].
  pose proof (mapM_throws _ _ _ Hin Hbad) as Hall.
  destruct (mapM _ offers) as [flights|e] eqn:Hmap; [discriminate|].
  destruct (fallback_resolved env e store q oc dc Hre Hf Ht Hoc Hdc)
    as (query & Hcalls & Hresponse).
  exists e, query.
  split; [exact (mapM_first_throw _ _ _ Hmap)|].
  unfold after. cbn [fst snd]. rewrite Hcalls.
  split; [reflexivity|]. split.
  - destruct store as [docs|message]; [|exact Hresponse].
    destruct (date_usable env q); [|exact Hresponse].
    cbv zeta in Hresponse |- *. split; [exact Hresponse|].
    split; [apply sort_by_price_sorted|].
    intros f. rewrite <- filter_In. split; intros Hf'.
    + eapply Permutation_in; [apply sort_by_price_perm|exact Hf'].
    + eapply Permutation_in; [apply Permutation_sym, sort_by_price_perm|exact Hf'].
  - intros fl n src sp.
    destruct (fallback_body env e store q) as [[fl' ->]| ->]; discriminate.
Qed.

Lemma translation_failure_abandons_batch_witness :
  let env := Fixtures.env_broken in
  let q := Fixtures.query (Some "lahore") (Some "dubai") None in
  let store := Online Fixtures.sample_flights in
  In Fixtures.broken_offer [Fixtures.direct_offer; Fixtures.broken_offer]
  /\ is_ok (Translator.translate (host env) (Some Fixtures.sample_result)
              "lahore" "dubai" (JsText "LHE") (JsText "DXB") Fixtures.direct_offer)
     = true
  /\ is_ok (Translator.first_fare_detail "cabin" Fixtures.broken_offer) = false
  /\ fst (search env 1700000000000 store q)
     = {| status := 200;
          body := DatabaseBody
                    [Fixtures.evening; Fixtures.next_morning; Fixtures.morning] 3
                    "database" "Amadeus API unavailable, showing cached results" |}
  /\ exists e query,
       e = "Cannot read properties of undefined (reading 'cabin')"
       /\ snd (search env 1700000000000 store q)
          = [CallProvider (request_for env q (JsText "LHE") (JsText "DXB") "2023-11-15");
             FindFlights query].
Proof.
  intros env q store.
  assert (Hre : literal_regex env).
  { intros p _. exists (includes_ci p). split; reflexivity. }
  split; [right; left; reflexivity|]. split; [reflexivity|]. split; [reflexivity|].
  destruct (translation_failure_abandons_batch env 1700000000000 store q
              (JsText "LHE") (JsText "DXB") "2023-11-15"
              {| Provider.data := Some [Fixtures.direct_offer; Fixtures.broken_offer];
                 Provider.result := Some Fixtures.sample_result |}
              [Fixtures.direct_offer; Fixtures.broken_offer] Fixtures.broken_offer
              Hre eq_refl eq_refl eq_refl eq_refl eq_refl eq_refl eq_refl
              (or_intror (or_introl eq_refl)) eq_refl)
    as (e & query & (failing & Hin & Hthrow) & Hcalls & Hresponse & _).
  split; [exact (proj1 Hresponse)|].
  exists e, query. split; [|exact Hcalls].
  destruct Hin as [<-|[<-|[]]]; [discriminate Hthrow|].
  now injection Hthrow as <-.
Defined.

(** C6 (as amended).  When the origin text or the destination text is missing
    or empty, the route answers 400 with the one fixed message "From and To
    cities are required", whichever text is missing, and makes no external
    call. *)
Theorem missing_text_fails_fast (env : Env) (now : Z)
    (store : Collection FlightModel.Flight) (q : Query) :
  truthy_text (from q) = false \/ truthy_text (to q) = false ->
  search env now store q
  = ({| status := 400;
        body := ErrorBody "From and To cities are required" None |}, []).
Proof.
  intros H. unfold search.
  destruct H as [-> | ->]; [reflexivity|].
  now rewrite orb_true_r.
Qed.

Lemma missing_text_fails_fast_witness :
  let q := Fixtures.query None (Some "dubai") None in
  truthy_text (from q) = false
  /\ search Fixtures.env_down 1700000000000 (Online Fixtures.sample_flights) q
     = ({| status := 400;
           body := ErrorBody "From and To cities are required" None |}, []).
Proof.
  intros q. split; [reflexivity|].
  apply (missing_text_fails_fast Fixtures.env_down 1700000000000
           (Online Fixtures.sample_flights) q).
  left. reflexivity.
Defined.

(** C6 (as stated) fails: a request without origin and a request without
    destination receive the same response, so no reading of the response
    tells which text is missing. *)
Lemma missing_field_is_not_identified : ~ identifies_missing_field.
Proof.
  intros [which H].
  pose proof (H Fixtures.env_down 1700000000000%Z (Online Fixtures.sample_flights)
                (Fixtures.query None (Some "dubai") None) FromField
                (conj eq_refl eq_refl)) as H1.
  pose proof (H Fixtures.env_down 1700000000000%Z (Online Fixtures.sample_flights)
                (Fixtures.query (Some "lahore") None None) ToField
                (conj eq_refl eq_refl)) as H2.
  cbn in H1, H2. rewrite H1 in H2. discriminate.
Qed.

End FlightSearchFacts.

(** ** The login route *)

Module AuthFacts.
Import JsString Exn Store Auth.

(** With a password that is a text and does not match the stored hash, a
    login with an existing email and a login with an email that no user has
    receive the same response: status 401 with the error "Invalid
    credentials". *)
Lemma login_does_not_reveal_accounts (env : Env) (users : Collection UserModel.User)
    (unknown known : Credentials) (u : UserModel.User) (p : string) :
  User_findOne users (email unknown) = Ok None ->
  User_findOne users (email known) = Ok (Some u) ->
  password known = Text p ->
  bcrypt_compare env p (UserModel.password u) = Ok false ->
  login env users unknown = login env users known
  /\ login env users known
     = {| status := 401; body := ErrorBody "Invalid credentials" |}.
Proof.
  intros Hnone Hsome Htext Hwrong. unfold login.
  rewrite Hnone, Hsome. cbn [bind]. rewrite Htext. cbn [compare].
  rewrite Hwrong. cbn [bind negb].
  split; reflexivity.
Qed.

Example login_with_a_wrong_text_password :
  let users := Online [Fixtures.alice] in
  login Fixtures.auth_env users
    {| email := "mallory@example.com"; password := Text "guess" |}
  = login Fixtures.auth_env users
      {| email := "alice@example.com"; password := Text "guess" |}.
Proof. reflexivity. Qed.

(** C8.  The two responses are not always identical: when the password of
    the request is not a text (it is absent, or a number, ...), a login with
    an email that no user has is answered 401 "Invalid credentials", but a
    login with an existing email is answered 500 with the error that
    [bcrypt.compare] rejects with, so the two responses differ in status and
    message and tell whether the email is registered. *)
Theorem login_without_a_text_password_reveals_the_account (env : Env)
    (users : Collection UserModel.User) (unknown known : Credentials)
    (u : UserModel.User) (typeof : string) :
  User_findOne users (email unknown) = Ok None ->
  User_findOne users (email known) = Ok (Some u) ->
  password known = NotText typeof ->
  login env users unknown
  = {| status := 401; body := ErrorBody "Invalid credentials" |}
  /\ login env users known
     = {| status := 500;
          body := ErrorBody ("Illegal arguments: " ++ typeof ++ ", string") |}
  /\ login env users unknown <> login env users known.
Proof.
  intros Hnone Hsome Hpassword.
  assert (H1 : login env users unknown
               = {| status := 401; body := ErrorBody "Invalid credentials" |}).
  { unfold login. rewrite Hnone. reflexivity. }
  assert (H2 : login env users known
               = {| status := 500;
                    body := ErrorBody ("Illegal arguments: " ++ typeof ++ ", string") |}).
  { unfold login. rewrite Hsome. cbn [bind]. rewrite Hpassword. reflexivity. }
  split; [exact H1|]. split; [exact H2|].
  rewrite H1, H2. intros H. discriminate H.
Qed.

Lemma login_without_a_text_password_reveals_the_account_witness :
  let users := Online [Fixtures.alice] in
  let unknown := {| email := "mallory@example.com"; password := NotText "undefined" |} in
  let known := {| email := "alice@example.com"; password := NotText "undefined" |} in
  User_findOne users (email unknown) = Ok None
  /\ User_findOne users (email known) = Ok (Some Fixtures.alice)
  /\ login Fixtures.auth_env users unknown
     = {| status := 401; body := ErrorBody "Invalid credentials" |}
  /\ login Fixtures.auth_env users known
     = {| status := 500; body := ErrorBody "Illegal arguments: undefined, string" |}
  /\ login Fixtures.auth_env users unknown <> login Fixtures.auth_env users known.
Proof.
  intros users unknown known.
  split; [reflexivity|]. split; [reflexivity|].
  exact (login_without_a_text_password_reveals_the_account Fixtures.auth_env users
           unknown known Fixtures.alice "undefined" eq_refl eq_refl eq_refl).
Defined.

(** The matching credential is told apart, so the equality above is not an
    artefact of a route that rejects everyone. *)
Example login_accepts_the_right_credential :
  status (login Fixtures.auth_env (Online [Fixtures.alice])
            {| email := "alice@example.com"; password := Text "correct-horse" |})
  = 200%Z.
Proof. reflexivity. Qed.

End AuthFacts.

(** ** The booking route *)

Module BookingsFacts.
Import JsString Exn Store Bookings Spec.

Lemma value36_app (a : N) (s t : string) :
  value36 a (s ++ t) = value36 (value36 a s) t.
Proof. revert a; induction s as [|c r IH]; intros a; simpl; auto. Qed.

Lemma digit36_value (d : N) :
  (d < 36)%N -> digit_value (digit36 d) = d /\ is_digit36 (digit36 d) = true.
Proof.
  intros Hd. unfold digit_value, is_digit36, is_digit, is_lower, digit36, code.
  destruct (N.ltb_spec d 10).
  - rewrite N_ascii_embedding by lia.
    assert (H1 : (48 <=? 48 + d)%N = true) by (apply N.leb_le; lia).
    assert (H2 : (48 + d <=? 57)%N = true) by (apply N.leb_le; lia).
    rewrite H1, H2. cbn [andb orb]. split; [lia|reflexivity].
  - rewrite N_ascii_embedding by lia.
    assert (H1 : (87 + d <=? 57)%N = false) by (apply N.leb_gt; lia).
    assert (H2 : (97 <=? 87 + d)%N = true) by (apply N.leb_le; lia).
    assert (H3 : (87 + d <=? 122)%N = true) by (apply N.leb_le; lia).
    rewrite H1, H2, H3, andb_false_r. cbn [andb orb]. split; [lia|reflexivity].
Qed.

(** With enough fuel, [digits36] puts in front of [acc] a base-36 numeral of
    [n]. *)
Lemma digits36_numeral (fuel : nat) :
  forall (n : N) (acc : string),
    (n < 2 ^ N.of_nat fuel)%N -> (0 < fuel)%nat ->
    exists ds,
      digits36 fuel n acc = ds ++ acc
      /\ value36 0 ds = n
      /\ forall_string is_digit36 ds = true.
Proof.
  induction fuel as [|f IH]; intros n acc Hn Hf; [lia|].
  simpl digits36.
  pose proof (N.mod_lt n 36 ltac:(lia)) as Hmod.
  destruct (digit36_value (n mod 36) Hmod) as [Hval Hdig].
  destruct (N.ltb_spec n 36) as [Hsmall|Hbig].
  - exists (String (digit36 (n mod 36)) EmptyString). simpl.
    rewrite Hval, Hdig. rewrite N.mod_small by exact Hsmall. auto.
  - assert (Hdiv : (n / 36 < 2 ^ N.of_nat f)%N).
    { apply N.Div0.div_lt_upper_bound.
      replace (N.of_nat (S f)) with (N.succ (N.of_nat f)) in Hn by lia.
      rewrite N.pow_succ_r' in Hn. lia. }
    assert (Hf' : (0 < f)%nat).
    { destruct f; [|lia]. simpl in Hdiv.
      assert (1 <= n / 36)%N by (apply N.div_le_lower_bound; lia). lia. }
    destruct (IH (n / 36)%N (String (digit36 (n mod 36)) acc) Hdiv Hf')
      as (ds & Heq & Hds & Hall).
    exists (ds ++ String (digit36 (n mod 36)) EmptyString).
    rewrite Heq. split.
    + now rewrite JsStringFacts.String_app_assoc.
    + rewrite value36_app, Hds. cbn [value36]. rewrite Hval.
      rewrite JsStringFacts.forall_string_app, Hall.
      cbn [forall_string andb]. rewrite Hdig.
      split; [|reflexivity].
      pose proof (N.div_mod n 36 ltac:(lia)). lia.
Qed.

(** [toString36] writes a timestamp as its base-36 numeral. *)
Lemma toString36_numeral (z : Z) :
  (0 <= z)%Z ->
  value36 0 (toString36 z) = Z.to_N z
  /\ forall_string is_digit36 (toString36 z) = true.
Proof.
  intros Hz. unfold toString36.
  destruct (Z.ltb_spec z 0); [lia|].
  replace (Z.abs_N z) with (Z.to_N z) by (destruct z; [reflexivity|reflexivity|lia]).
  set (n := Z.to_N z).
  destruct (digits36_numeral (S (N.to_nat (N.log2 n))) n EmptyString) as (ds & Heq & Hv & Hd).
  - replace (N.of_nat (S (N.to_nat (N.log2 n)))) with (N.succ (N.log2 n)) by lia.
    destruct (N.eq_dec n 0) as [->|Hn]; [reflexivity|].
    apply N.log2_spec. lia.
  - lia.
  - rewrite Heq. assert (Hnil : ds ++ EmptyString = ds).
    { clear. induction ds as [|c r IH]; simpl; [reflexivity|]. now rewrite IH. }
    rewrite Hnil. auto.
Qed.

Example booking_reference_sample : booking_reference 1700000000000 = "BKLOYW3V28".
Proof. reflexivity. Qed.

Lemma digit36_zero (d : N) :
  (d < 36)%N -> Ascii.eqb "0" (digit36 d) = true -> d = 0%N.
Proof.
  intros Hd H. apply Ascii.eqb_eq in H.
  assert (Hcode : code (digit36 d) = 48%N) by (rewrite <- H; reflexivity).
  unfold digit36, code in Hcode.
  destruct (N.ltb_spec d 10); rewrite N_ascii_embedding in Hcode by lia; lia.
Qed.

(** The numeral of a number other than zero does not begin with the digit
    zero. *)
Lemma digits36_leading (fuel : nat) :
  forall (n : N) (acc : string),
    (n < 2 ^ N.of_nat fuel)%N -> (0 < fuel)%nat -> n <> 0%N ->
    startsWith "0" (digits36 fuel n acc) = false.
Proof.
  induction fuel as [|f IH]; intros n acc Hn Hf Hnz; [lia|].
  simpl digits36.
  destruct (N.ltb_spec n 36) as [Hsmall|Hbig].
  - cbn [startsWith]. rewrite N.mod_small by exact Hsmall.
    destruct (Ascii.eqb "0" (digit36 n)) eqn:E; [|reflexivity].
    exfalso. apply Hnz. now apply digit36_zero.
  - assert (Hdiv : (n / 36 < 2 ^ N.of_nat f)%N).
    { apply N.Div0.div_lt_upper_bound.
      replace (N.of_nat (S f)) with (N.succ (N.of_nat f)) in Hn by lia.
      rewrite N.pow_succ_r' in Hn. lia. }
    assert (Hge : (1 <= n / 36)%N) by (apply N.div_le_lower_bound; lia).
    assert (Hf' : (0 < f)%nat).
    { destruct f; [|lia]. simpl in Hdiv. lia. }
    apply IH; [exact Hdiv|exact Hf'|lia].
Qed.

Lemma upper_of_digit36 (c : ascii) :
  is_digit36 c = true ->
  Ascii.eqb "0" (upper_char c) = Ascii.eqb "0" c
  /\ ((is_digit (upper_char c) = true
       /\ (code (upper_char c) - 48)%N = digit_value c)
      \/ (is_digit (upper_char c) = false /\ is_upper (upper_char c) = true
          /\ (code (upper_char c) - 55)%N = digit_value c)).
Proof.
  destruct c as [[] [] [] [] [] [] [] []]; vm_compute; intros H;
    try discriminate H; (split; [reflexivity|]);
    first [left; split; reflexivity | right; repeat split; reflexivity].
Qed.

(** Upper-casing a numeral in 0-9a-z gives the numeral in 0-9A-Z of the same
    number. *)
Lemma upper_numeral36_toUpperCase (s : string) :
  forall acc, forall_string is_digit36 s = true ->
    upper_numeral36 acc (toUpperCase s) = Some (value36 acc s).
Proof.
  unfold toUpperCase. induction s as [|c r IH]; intros acc; simpl; [reflexivity|].
  rewrite andb_true_iff; intros [Hc Hr].
  destruct (upper_of_digit36 c Hc) as [_ [[Hd Hv] | (Hd & Hu & Hv)]].
  - rewrite Hd, Hv. now apply IH.
  - rewrite Hd, Hu, Hv. now apply IH.
Qed.

(** The text of [toString36]: a minus sign for a negative number, then the
    canonical numeral of its absolute value. *)
Lemma toString36_canonical (z : Z) :
  exists ds,
    toString36 z = (if (z <? 0)%Z then "-" else EmptyString) ++ ds
    /\ value36 0 ds = Z.abs_N z
    /\ forall_string is_digit36 ds = true
    /\ ds <> EmptyString
    /\ (startsWith "0" ds = true -> ds = "0").
Proof.
  unfold toString36. set (n := Z.abs_N z).
  set (fuel := S (N.to_nat (N.log2 n))).
  assert (Hfuel : (n < 2 ^ N.of_nat fuel)%N).
  { subst fuel.
    replace (N.of_nat (S (N.to_nat (N.log2 n)))) with (N.succ (N.log2 n)) by lia.
    destruct (N.eq_dec n 0) as [->|Hn]; [reflexivity|].
    apply N.log2_spec. lia. }
  destruct (digits36_numeral fuel n EmptyString Hfuel ltac:(subst fuel; lia))
    as (ds & Heq & Hv & Hd).
  assert (Hnil : ds ++ EmptyString = ds).
  { clear. induction ds as [|c r IH]; simpl; [reflexivity|]. now rewrite IH. }
  rewrite Hnil in Heq.
  exists (digits36 fuel n EmptyString). rewrite Heq.
  split; [now destruct (z <? 0)%Z|]. split; [exact Hv|]. split; [exact Hd|].
  destruct (N.eq_dec n 0) as [Hz|Hnz].
  - assert (Hds : ds = "0").
    { rewrite <- Heq. subst fuel. rewrite Hz. reflexivity. }
    rewrite Hds. split; [discriminate|reflexivity].
  - split.
    + intros ->. simpl in Hv. congruence.
    + intros Hlead. rewrite <- Heq in Hlead.
      rewrite (digits36_leading fuel n EmptyString Hfuel ltac:(subst fuel; lia) Hnz)
        in Hlead. discriminate.
Qed.

(** The reference of a clock reading: "BK", a minus sign if the reading is
    negative, and the canonical upper-case base-36 numeral of its absolute
    value. *)
Lemma booking_reference_numeral (now : Z) :
  exists numeral,
    booking_reference now
    = "BK" ++ (if (now <? 0)%Z then "-" else EmptyString) ++ numeral
    /\ upper_numeral36 0 numeral = Some (Z.abs_N now)
    /\ numeral <> EmptyString
    /\ (startsWith "0" numeral = true -> numeral = "0").
Proof.
  destruct (toString36_canonical now) as (ds & Heq & Hv & Hd & Hne & Hlead).
  exists (toUpperCase ds). unfold booking_reference. rewrite Heq.
  split; [now destruct (now <? 0)%Z|].
  split; [now rewrite (upper_numeral36_toUpperCase ds 0 Hd), Hv|].
  split.
  - destruct ds; [contradiction|discriminate].
  - intros H.
    assert (Hds : startsWith "0" ds = true).
    { destruct ds as [|c r]; [contradiction|].
      simpl in Hd. apply andb_true_iff in Hd as [Hc _].
      cbn [toUpperCase map_string startsWith] in H |- *.
      now rewrite <- (proj1 (upper_of_digit36 c Hc)). }
    now rewrite (Hlead Hds).
Qed.

(** C9.  Whatever the request, every booking that the route adds to the
    store carries the reference "BK" followed by the upper-cased base-36
    encoding of the handler's reading of the clock: after "BK" (and a minus
    sign for a negative reading) comes a non-empty text of digits and
    upper-case letters that, read as a base-36 numeral, is the reading, with
    no leading zero.  Its payment status is "completed" and its booking status
    is "confirmed". *)
Theorem persisted_booking_postcondition (env : Env) (now created : Z)
    (store store' : Collection BookingModel.Booking) (authorization : option string)
    (b : BookingBody) (response : BookingResponse) :
  create_booking env now created store authorization b = (response, store') ->
  forall booking,
    In booking (documents store') -> ~ In booking (documents store) ->
    (exists numeral,
       BookingModel.bookingReference booking
       = "BK" ++ (if (now <? 0)%Z then "-" else EmptyString) ++ numeral
       /\ upper_numeral36 0 numeral = Some (Z.abs_N now)
       /\ numeral <> EmptyString
       /\ (startsWith "0" numeral = true -> numeral = "0"))
    /\ BookingModel.bookingReference booking = "BK" ++ toUpperCase (toString36 now)
    /\ BookingModel.paymentStatus booking = "completed"
    /\ BookingModel.bookingStatus booking = "confirmed".
Proof.
  unfold create_booking. intros H booking Hin Hnew.
  destruct (authenticateToken env authorization) as [user|rejected].
  - match type of H with
    | context [save env store ?bk] => set (new := bk) in *
    end.
    destruct (save env store new) as [saved|message] eqn:Hsave.
    + injection H as _ <-.
      unfold save in Hsave.
      destruct (negb (valid env new)); [discriminate|].
      destruct store as [docs|m]; [|discriminate].
      destruct (existsb _ docs); [discriminate|].
      injection Hsave as <-. simpl in Hin, Hnew.
      apply in_app_or in Hin. destruct Hin as [Hold|[<-|[]]]; [contradiction|].
      split; [exact (booking_reference_numeral now)|].
      split; [reflexivity|]. split; reflexivity.
    + injection H as _ <-. contradiction.
  - injection H as _ <-. contradiction.
Qed.

Lemma persisted_booking_postcondition_witness :
  let store := Online (@nil BookingModel.Booking) in
  exists response booking,
    create_booking Fixtures.booking_env 1700000000000 1700000000001 store
      (Some "Bearer good-token") Fixtures.flight_booking
    = (response, Online [booking])
    /\ status response = 201%Z
    /\ BookingModel.bookingReference booking = "BKLOYW3V28"
    /\ upper_numeral36 0 "LOYW3V28" = Some 1700000000000%N
    /\ (exists numeral,
          BookingModel.bookingReference booking
          = "BK" ++ (if (1700000000000 <? 0)%Z then "-" else EmptyString) ++ numeral
          /\ upper_numeral36 0 numeral = Some (Z.abs_N 1700000000000)
          /\ numeral <> EmptyString
          /\ (startsWith "0" numeral = true -> numeral = "0"))
    /\ BookingModel.bookingReference booking
       = "BK" ++ toUpperCase (toString36 1700000000000)
    /\ BookingModel.paymentStatus booking = "completed"
    /\ BookingModel.bookingStatus booking = "confirmed".
Proof.
  intros store. eexists. eexists.
  split; [reflexivity|]. split; [reflexivity|].
  split; [reflexivity|]. split; [reflexivity|].
  eapply (persisted_booking_postcondition Fixtures.booking_env 1700000000000
            1700000000001 store _ (Some "Bearer good-token") Fixtures.flight_booking).
  - reflexivity.
  - left. reflexivity.
  - intros [].
Defined.

(** Without a token nothing is stored. *)
Example booking_requires_token :
  create_booking Fixtures.booking_env 1700000000000 1700000000001
    (Online []) None Fixtures.flight_booking
  = ({| status := 401; body := ErrorBody "Access token required" |}, Online []).
Proof. reflexivity. Qed.

End BookingsFacts.

(** * Further properties *)

(** ** The normalizer: what the result depends on *)

Module NormalizerMore.
Import JsString Normalizer Spec Vocabulary JsStringFacts NormalizerFacts.

Lemma map_string_app (f : ascii -> ascii) (s t : string) :
  map_string f (s ++ t) = map_string f s ++ map_string f t.
Proof. induction s as [|c r IH]; simpl; [reflexivity|]. now rewrite IH. Qed.

Lemma map_string_length (f : ascii -> ascii) (s : string) :
  String.length (map_string f s) = String.length s.
Proof. induction s as [|c r IH]; simpl; [reflexivity|]. now rewrite IH. Qed.

Lemma lower_char_space (c : ascii) : is_space c = true -> lower_char c = c.
Proof. destruct c as [[] [] [] [] [] [] [] []]; vm_compute; intros H; reflexivity || discriminate H. Qed.

Lemma toLowerCase_space (s : string) :
  forall_string is_space s = true -> toLowerCase s = s.
Proof.
  unfold toLowerCase. induction s as [|c r IH]; simpl; [reflexivity|].
  rewrite andb_true_iff; intros [Hc Hr]. now rewrite (lower_char_space c Hc), IH.
Qed.

Lemma trimStart_space (s : string) :
  forall_string is_space s = true -> trimStart s = EmptyString.
Proof.
  induction s as [|c r IH]; simpl; [reflexivity|].
  rewrite andb_true_iff; intros [-> Hr]. auto.
Qed.

Lemma trimStart_padding (a s : string) :
  forall_string is_space a = true -> trimStart (a ++ s) = trimStart s.
Proof.
  induction a as [|c r IH]; simpl; [reflexivity|].
  rewrite andb_true_iff; intros [-> Hr]. auto.
Qed.

Lemma trimEnd_space (s : string) :
  forall_string is_space s = true -> trimEnd s = EmptyString.
Proof.
  induction s as [|c r IH]; simpl; [reflexivity|].
  rewrite andb_true_iff; intros [-> Hr]. now rewrite (IH Hr).
Qed.

Lemma trimEnd_padding (s b : string) :
  forall_string is_space b = true -> trimEnd (s ++ b) = trimEnd s.
Proof.
  intros Hb. induction s as [|c r IH]; simpl.
  - now apply trimEnd_space.
  - now rewrite IH.
Qed.

Lemma trimStart_app (s b : string) :
  trimStart (s ++ b) = trimStart s ++ b \/ forall_string is_space s = true.
Proof.
  induction s as [|c r IH]; simpl; [now right|].
  destruct (is_space c); simpl; [exact IH|now left].
Qed.

(** White space around a text does not change what [trim] returns. *)
Lemma trim_padding (a s b : string) :
  forall_string is_space a = true -> forall_string is_space b = true ->
  trim (a ++ s ++ b) = trim s.
Proof.
  intros Ha Hb. unfold trim. rewrite (trimStart_padding a _ Ha).
  destruct (trimStart_app s b) as [-> | Hs].
  - now apply trimEnd_padding.
  - rewrite (trimStart_space s Hs).
    rewrite trimStart_space; [reflexivity|].
    now rewrite forall_string_app, Hs, Hb.
Qed.

Lemma getIATACode_resolve_key (s : string) :
  getIATACode (Some s) = resolve_key (trim (toLowerCase s)).
Proof.
  unfold getIATACode, resolve_key.
  destruct s as [|c r]; reflexivity.
Qed.

(** X1.  [getIATACode] depends only on the trimmed lower-case form of its
    input: white space put around a text and a change of letter case inside it
    never change the result. *)
Theorem getIATACode_ignores_case_and_padding (s t a b : string) :
  toLowerCase t = toLowerCase s ->
  forall_string is_space a = true -> forall_string is_space b = true ->
  getIATACode (Some (a ++ t ++ b)) = getIATACode (Some s).
Proof.
  intros Hcase Ha Hb. rewrite !getIATACode_resolve_key. f_equal.
  unfold toLowerCase in *. rewrite !map_string_app, Hcase.
  fold (toLowerCase a). fold (toLowerCase b).
  rewrite (toLowerCase_space a Ha), (toLowerCase_space b Hb).
  now apply trim_padding.
Qed.

Lemma getIATACode_ignores_case_and_padding_witness :
  toLowerCase "KaRaChI" = toLowerCase "karachi"
  /\ getIATACode (Some ("  " ++ "KaRaChI" ++ " ")) = getIATACode (Some "karachi")
  /\ getIATACode (Some "karachi") = Some (JsText "KHI").
Proof.
  split; [reflexivity|]. split; [|reflexivity].
  apply (getIATACode_ignores_case_and_padding "karachi" "KaRaChI" "  " " ");
    reflexivity.
Defined.

Lemma trimStart_id (s : string) :
  forall_string (fun c => negb (is_space c)) s = true -> trimStart s = s.
Proof.
  destruct s as [|c r]; simpl; [reflexivity|].
  rewrite andb_true_iff; intros [Hc _].
  apply negb_true_iff in Hc. now rewrite Hc.
Qed.

Lemma trimEnd_id (s : string) :
  forall_string (fun c => negb (is_space c)) s = true -> trimEnd s = s.
Proof.
  induction s as [|c r IH]; simpl; [reflexivity|].
  rewrite andb_true_iff; intros [Hc Hr].
  apply negb_true_iff in Hc. now rewrite Hc, (IH Hr).
Qed.

Lemma lower_of_letter (c : ascii) :
  is_letter c = true ->
  is_lower (lower_char c) = true /\ is_space (lower_char c) = false
  /\ upper_char (lower_char c) = upper_char c /\ is_upper (upper_char c) = true.
Proof.
  destruct c as [[] [] [] [] [] [] [] []]; vm_compute; intros H;
    try discriminate H; repeat split.
Qed.

Lemma upper_char_of_upper (c : ascii) : is_upper c = true -> upper_char c = c.
Proof. destruct c as [[] [] [] [] [] [] [] []]; vm_compute; intros H; reflexivity || discriminate H. Qed.

Lemma upper_char_of_lower (c : ascii) :
  is_lower c = true -> is_upper (upper_char c) = true.
Proof. destruct c as [[] [] [] [] [] [] [] []]; vm_compute; intros H; reflexivity || discriminate H. Qed.

(** A three-letter text resolves to itself in upper case. *)
Lemma three_letters (s : string) :
  String.length s = 3%nat -> forall_string is_letter s = true ->
  getIATACode (Some s) = Some (JsText (toUpperCase s)).
Proof.
  intros Hlen Hall. rewrite getIATACode_resolve_key.
  assert (Hlow : forall_string is_lower (toLowerCase s) = true).
  { unfold toLowerCase. rewrite forall_string_map.
    revert Hall. apply forall_string_impl. intros c Hc. apply (lower_of_letter c Hc). }
  assert (Hns : forall_string (fun c => negb (is_space c)) (toLowerCase s) = true).
  { unfold toLowerCase. rewrite forall_string_map.
    revert Hall. apply forall_string_impl. intros c Hc.
    destruct (lower_of_letter c Hc) as (_ & -> & _). reflexivity. }
  unfold trim. rewrite (trimStart_id _ Hns), (trimEnd_id _ Hns).
  unfold resolve_key, test_a_z. rewrite Hlow.
  unfold toLowerCase at 1. rewrite map_string_length, Hlen. cbn [Nat.eqb andb].
  replace (is_empty (toLowerCase s)) with false
    by (destruct s; [discriminate Hlen|reflexivity]).
  cbn [negb andb]. do 2 f_equal.
  clear Hlen Hlow Hns. unfold toUpperCase, toLowerCase.
  induction s as [|c r IH]; simpl; [reflexivity|].
  simpl in Hall. apply andb_true_iff in Hall as [Hc Hr].
  destruct (lower_of_letter c Hc) as (_ & _ & -> & _). now rewrite (IH Hr).
Qed.

(** X2.  Every text of exactly three letters, in any letter case, is taken
    for a code and returned in upper case, whether or not the city table or
    any airport knows it. *)
Theorem getIATACode_three_letter_passthrough (s : string) :
  String.length s = 3%nat -> forall_string is_letter s = true ->
  getIATACode (Some s) = Some (JsText (toUpperCase s))
  /\ String.length (toUpperCase s) = 3%nat
  /\ forall_string is_upper (toUpperCase s) = true.
Proof.
  intros Hlen Hall. split; [now apply three_letters|].
  unfold toUpperCase. rewrite map_string_length, forall_string_map.
  split; [exact Hlen|].
  revert Hall. apply forall_string_impl. intros c Hc. apply (lower_of_letter c Hc).
Qed.

Lemma getIATACode_three_letter_passthrough_witness :
  String.length "qZx" = 3%nat
  /\ getIATACode (Some "qZx") = Some (JsText "QZX")
  /\ own cityToIATA "qzx" = None.
Proof.
  split; [reflexivity|]. split; [|reflexivity].
  apply (getIATACode_three_letter_passthrough "qZx"); reflexivity.
Defined.

Lemma cityToIATA_codes_shape (key v : string) :
  own cityToIATA key = Some v ->
  String.length v = 3%nat /\ forall_string is_upper v = true.
Proof.
  assert (Hall : Forall (fun kv => String.length (snd kv) = 3%nat
                                   /\ forall_string is_upper (snd kv) = true) cityToIATA)
    by (repeat constructor).
  induction Hall as [|[k w] rest Hw Hrest IH]; simpl; [discriminate|].
  destruct (String.eqb k key); [|exact IH].
  now intros [= <-].
Qed.

Lemma resolved_code_shape (s c : string) :
  getIATACode (Some s) = Some (JsText c) ->
  String.length c = 3%nat /\ forall_string is_upper c = true.
Proof.
  rewrite getIATACode_resolve_key. unfold resolve_key.
  set (key := trim (toLowerCase s)).
  destruct ((String.length key =? 3)%nat && test_a_z key) eqn:Hcode.
  - intros [= <-]. apply andb_true_iff in Hcode as [Hlen Haz].
    apply Nat.eqb_eq in Hlen. unfold test_a_z in Haz.
    apply andb_true_iff in Haz as [_ Haz].
    unfold toUpperCase. rewrite map_string_length, forall_string_map.
    split; [exact Hlen|].
    revert Haz. apply forall_string_impl. apply upper_char_of_lower.
  - unfold get. destruct (own cityToIATA key) as [v|] eqn:Hown.
    + simpl. rewrite (cityToIATA_codes_nonempty _ _ Hown). simpl.
      intros [= <-]. now apply cityToIATA_codes_shape with (key := key).
    + destruct (inherited key); simpl; discriminate.
Qed.

(** X3.  Every code that [getIATACode] returns as a text consists of exactly
    three upper-case letters, and it is a fixed point: resolving the code
    again returns the same code. *)
Theorem getIATACode_code_is_fixed_point (s c : string) :
  getIATACode (Some s) = Some (JsText c) ->
  String.length c = 3%nat
  /\ forall_string is_upper c = true
  /\ getIATACode (Some c) = Some (JsText c).
Proof.
  intros H. destruct (resolved_code_shape s c H) as [Hlen Hup].
  split; [exact Hlen|]. split; [exact Hup|].
  rewrite three_letters.
  - do 2 f_equal. clear - Hup. unfold toUpperCase.
    induction c as [|x r IH]; simpl; [reflexivity|].
    simpl in Hup. apply andb_true_iff in Hup as [Hx Hr].
    now rewrite (upper_char_of_upper x Hx), (IH Hr).
  - exact Hlen.
  - revert Hup. apply forall_string_impl. intros x Hx.
    unfold is_letter. now rewrite Hx.
Qed.

Lemma getIATACode_code_is_fixed_point_witness :
  getIATACode (Some " Makkah") = Some (JsText "JED")
  /\ String.length "JED" = 3%nat
  /\ forall_string is_upper "JED" = true
  /\ getIATACode (Some "JED") = Some (JsText "JED").
Proof.
  split; [reflexivity|].
  apply (getIATACode_code_is_fixed_point " Makkah" "JED"). reflexivity.
Defined.

(** X4.  The cities route lists the 39 entries of the table in their order,
    and every listed name, although only its first letter is capitalised,
    resolves through [getIATACode] to the code listed with it. *)
Theorem cities_resolve_to_their_codes :
  snd Cities.cities = 39%nat
  /\ map Cities.code (fst Cities.cities) = map snd cityToIATA
  /\ Forall (fun c => getIATACode (Some (Cities.name c)) = Some (JsText (Cities.code c)))
       (fst Cities.cities).
Proof.
  split; [reflexivity|]. split; [reflexivity|].
  repeat constructor.
Qed.

End NormalizerMore.

(** ** The offer translator: when it succeeds and what it copies *)

Module TranslatorMore.
Import JsString Exn Normalizer Translator Spec Vocabulary JsStringFacts TranslatorFacts.

Lemma first_fare_detail_ok (prop : string) (offer : Provider.Offer) :
  is_ok (first_fare_detail prop offer) = has_fare_detail offer.
Proof.
  unfold first_fare_detail, has_fare_detail.
  destruct (Provider.travelerPricings offer) as [[|tp tps]|]; try reflexivity.
  simpl. destruct (Provider.fareDetailsBySegment tp) as [[|fd fds]|]; reflexivity.
Qed.

Lemma first_fare_detail_prop (p p' : string) (offer : Provider.Offer) (fd : Provider.FareDetails) :
  first_fare_detail p offer = Ok fd -> first_fare_detail p' offer = Ok fd.
Proof.
  unfold first_fare_detail.
  destruct (Provider.travelerPricings offer) as [[|tp tps]|]; try discriminate.
  simpl. destruct (Provider.fareDetailsBySegment tp) as [[|f fds]|]; try discriminate.
  simpl. auto.
Qed.

(** X5.  An offer is translated exactly when its answer carries [result] and
    the offer has a first itinerary with a duration and at least one segment,
    a departure on the first segment, an arrival on the last one, a price and
    a first fare detail for the first traveler.  Nothing else is needed: a
    missing id, carrier code, flight number, currency, seat count, cabin,
    booking class or aircraft never makes the translation fail. *)
Theorem translate_succeeds_iff_parts_present (host : Host)
    (res : option Provider.ResultBody) (from to : string) (oc dc : JsValue)
    (offer : Provider.Offer) :
  is_ok (translate host res from to oc dc offer) = translatable res offer.
Proof.
  unfold translate, translatable.
  destruct (Provider.itineraries offer) as [[|it0 its]|]; try reflexivity.
  cbn [reading bind nth_error].
  destruct (Provider.segments it0) as [[|seg rest]|]; try reflexivity.
  - cbn [reading bind nth_error]. destruct (Provider.duration it0); reflexivity.
  - cbn [reading bind nth_error].
    destruct (Provider.duration it0) as [d|]; [|reflexivity].
    cbn [reading bind is_some andb]. unfold airline_name.
    destruct res as [r|]; [|reflexivity].
    cbn [reading bind is_some andb].
    destruct (Provider.departure seg) as [dep|]; [|reflexivity].
    cbn [reading bind is_some andb].
    destruct (last_item (seg :: rest)) as [l|]; [|reflexivity].
    cbn [reading bind].
    destruct (Provider.arrival l) as [arr|]; [|reflexivity].
    cbn [reading bind is_some andb].
    destruct (Provider.price offer) as [pr|]; [|reflexivity].
    cbn [reading bind is_some andb].
    rewrite <- (first_fare_detail_ok "cabin" offer).
    destruct (first_fare_detail "cabin" offer) as [fd|e] eqn:Hfd; [|reflexivity].
    rewrite (first_fare_detail_prop "cabin" "class" offer fd Hfd). reflexivity.
Qed.

(** What a successful translation copies from the first segment and from the
    carrier dictionary. *)
Lemma translate_ok_airline (host : Host) (res : option Provider.ResultBody)
    (from to : string) (oc dc : JsValue) (offer : Provider.Offer)
    (r : FlightRecord) :
  translate host res from to oc dc offer = Ok r ->
  exists it0 its seg rest body,
    Provider.itineraries offer = Some (it0 :: its)
    /\ Provider.segments it0 = Some (seg :: rest)
    /\ res = Some body
    /\ airline_name res (Provider.carrierCode seg) = Ok (airline r)
    /\ flightNumber r = show (Provider.carrierCode seg) ++ show (Provider.number seg)
    /\ segments r = map segment_view (seg :: rest).
Proof.
  unfold translate. intros H. bind_ok H.
  destruct l as [|it0' its]; simpl in E0; [discriminate|].
  injection E0 as ->.
  destruct l0 as [|seg rest]; simpl in E3; [discriminate|].
  injection E3 as ->.
  injection H as <-. cbn [airline flightNumber segments].
  destruct res as [body|]; [|discriminate].
  exists i, its, s0, rest, body. repeat split; auto.
Qed.

(** X6.  The airline shown for a translated offer is the dictionary's name
    for the first segment's carrier code when the answer's carrier dictionary
    has a non-empty name for it; when the dictionaries, the carrier table or
    the entry are missing, it is the carrier code itself (provided the code is
    not the name of a member of [Object.prototype]). *)
Theorem airline_from_dictionary_or_code (host : Host)
    (res : option Provider.ResultBody) (from to : string) (oc dc : JsValue)
    (offer : Provider.Offer) (r : FlightRecord) :
  translate host res from to oc dc offer = Ok r ->
  exists it0 its seg rest body,
    Provider.itineraries offer = Some (it0 :: its)
    /\ Provider.segments it0 = Some (seg :: rest)
    /\ res = Some body
    /\ forall code, Provider.carrierCode seg = Some code ->
         (forall d table name,
            Provider.dictionaries body = Some d ->
            Provider.carriers d = Some table ->
            own table code = Some name -> is_empty name = false ->
            airline r = Some (JsText name))
         /\ (inherited code = false ->
             (Provider.dictionaries body = None
              \/ (exists d, Provider.dictionaries body = Some d
                            /\ Provider.carriers d = None)
              \/ (exists d table, Provider.dictionaries body = Some d
                                  /\ Provider.carriers d = Some table
                                  /\ own table code = None)) ->
             airline r = Some (JsText code)).
Proof.
  intros H. apply translate_ok_airline in H.
  destruct H as (it0 & its & seg & rest & body & Hit & Hsegs & -> & Hname & _).
  exists it0, its, seg, rest, body. repeat split; auto.
  - intros d table name Hd Ht Hown Hne.
    rewrite H in Hname. unfold airline_name in Hname. cbn [reading bind] in Hname.
    rewrite Hd, Ht in Hname. unfold get, show in Hname. rewrite Hown in Hname.
    cbn [or_else truthy] in Hname. rewrite Hne in Hname. cbn in Hname.
    now injection Hname as <-.
  - intros Hinh Hmissing.
    rewrite H in Hname. unfold airline_name in Hname. cbn [reading bind] in Hname.
    destruct Hmissing as [Hd | [(d & Hd & Ht) | (d & table & Hd & Ht & Hown)]].
    + rewrite Hd in Hname. cbn in Hname. now injection Hname as <-.
    + rewrite Hd, Ht in Hname. cbn in Hname. now injection Hname as <-.
    + rewrite Hd, Ht in Hname. unfold get, show in Hname.
      rewrite Hown, Hinh in Hname. cbn in Hname. now injection Hname as <-.
Qed.

Lemma airline_from_dictionary_or_code_witness :
  exists r,
    translate Fixtures.sample_host (Some Fixtures.sample_result) "lahore" "dubai"
      (JsText "LHE") (JsText "DXB") Fixtures.direct_offer = Ok r
    /\ airline r = Some (JsText "PAKISTAN INTERNATIONAL AIRLINES").
Proof.
  eexists. split; [reflexivity|].
  destruct (airline_from_dictionary_or_code Fixtures.sample_host
              (Some Fixtures.sample_result) "lahore" "dubai"
              (JsText "LHE") (JsText "DXB") Fixtures.direct_offer _ eq_refl)
    as (it0 & its & seg & rest & body & Hit & Hsegs & Hres & Hcode).
  cbv in Hit. injection Hit as <- <-.
  cbv in Hsegs. injection Hsegs as <- <-.
  injection Hres as <-.
  exact (proj1 (Hcode "PK" eq_refl) _ _ _ eq_refl eq_refl eq_refl eq_refl).
Defined.

Lemma render_duration_minutes (m : string) :
  forall_string is_digit m = true ->
  render_duration ("PT" ++ m ++ "M") = m ++ "m".
Proof.
  intros Hm. unfold render_duration.
  assert (Hneq : forall a, is_digit a = false -> forall x, is_digit x = true ->
                           negb (Ascii.eqb a x) = true).
  { intros a Ha x Hx. apply negb_true_iff. apply Ascii.eqb_neq. congruence. }
  replace (replace "PT" EmptyString ("PT" ++ m ++ "M")) with (m ++ "M")
    by (destruct m; reflexivity).
  rewrite (replace_absent "H").
  - change (m ++ "M") with (m ++ String "M" EmptyString).
    rewrite replace_after; [reflexivity|].
    revert Hm; apply forall_string_impl; apply Hneq; reflexivity.
  - rewrite forall_string_app, andb_true_iff. split; [|reflexivity].
    revert Hm; apply forall_string_impl; apply Hneq; reflexivity.
Qed.

(** X7.  For every translated offer whose duration has both components,
    ["PT<h>H<m>M"] with decimal digits [h] and [m], the record's duration is
    ["<h>h <m>m"]; and a duration of minutes only, ["PT<m>M"], gives
    ["<m>m"]. *)
Theorem duration_with_minutes (host : Host)
    (res : option Provider.ResultBody) (from to : string) (oc dc : JsValue)
    (offer : Provider.Offer) (r : FlightRecord) (it0 : Provider.Itinerary)
    (its : list Provider.Itinerary) (h m : string) :
  translate host res from to oc dc offer = Ok r ->
  Provider.itineraries offer = Some (it0 :: its) ->
  forall_string is_digit h = true -> forall_string is_digit m = true ->
  (Provider.duration it0 = Some ("PT" ++ h ++ "H" ++ m ++ "M") ->
   duration r = h ++ "h " ++ m ++ "m")
  /\ (Provider.duration it0 = Some ("PT" ++ m ++ "M") ->
      duration r = m ++ "m").
Proof.
  intros H Hit Hh Hm. apply translate_ok in H.
  destruct H as (it0' & its' & segs & d & Hit' & _ & Hd & _ & Hdur & _).
  rewrite Hit in Hit'. injection Hit' as <- <-.
  split; intros Heq; rewrite Heq in Hd; injection Hd as <-; rewrite Hdur.
  - exact (render_duration_hours_minutes h m Hh Hm).
  - exact (render_duration_minutes m Hm).
Qed.

Lemma duration_with_minutes_witness :
  exists r it0 its,
    translate Fixtures.sample_host (Some Fixtures.sample_result) "lahore" "dubai"
      (JsText "LHE") (JsText "DXB") Fixtures.two_stop_offer = Ok r
    /\ Provider.itineraries Fixtures.two_stop_offer = Some (it0 :: its)
    /\ Provider.duration it0 = Some ("PT" ++ "9" ++ "H" ++ "5" ++ "M")
    /\ duration r = "9" ++ "h " ++ "5" ++ "m".
Proof.
  eexists. eexists. eexists.
  split; [reflexivity|]. split; [reflexivity|]. split; [reflexivity|].
  refine (proj1 (duration_with_minutes Fixtures.sample_host
                   (Some Fixtures.sample_result) "lahore" "dubai"
                   (JsText "LHE") (JsText "DXB") Fixtures.two_stop_offer
                   _ _ _ "9" "5" eq_refl eq_refl eq_refl eq_refl) eq_refl).
Defined.

End TranslatorMore.

(** ** The flight-search route: the other outcomes *)

Module FlightSearchMore.
Import JsString Exn Normalizer JsDate Store FlightSearch Spec Vocabulary.
Import JsStringFacts NormalizerFacts TranslatorFacts FlightSearchFacts.

(** X8.  When both query texts are present and one of them does not resolve,
    the route answers 400 with a message that quotes the raw text (the origin
    first when neither resolves) and with the 39 supported city names in table
    order, and it contacts neither the provider nor the store. *)
Theorem unknown_city_is_reported (env : Env) (now : Z)
    (store : Collection FlightModel.Flight) (q : Query) :
  truthy_text (from q) = true -> truthy_text (to q) = true ->
  getIATACode (from q) = None \/ getIATACode (to q) = None ->
  exists name,
    search env now store q
    = ({| status := 400;
          body := ErrorBody
                    ("Unknown city: " ++ name ++ ". Please use city name or IATA code.")
                    (Some (keys cityToIATA)) |}, [])
    /\ getIATACode (Some name) = None
    /\ (getIATACode (from q) = None -> name = text (from q))
    /\ (getIATACode (from q) <> None -> name = text (to q))
    /\ List.length (keys cityToIATA) = 39%nat.
Proof.
  intros Hf Ht Hnone. unfold search. rewrite Hf, Ht. cbn [negb orb].
  destruct (getIATACode (from q)) as [oc|] eqn:Hoc.
  - destruct Hnone as [Habs|Hto]; [discriminate|]. rewrite Hto.
    exists (text (to q)). repeat split; auto.
    + now rewrite <- (truthy_text_Some _ Ht).
    + intros Habs; discriminate.
  - exists (text (from q)). repeat split; auto.
    + now rewrite <- (truthy_text_Some _ Hf).
    + intros Habs; contradiction.
Qed.

Lemma unknown_city_is_reported_witness :
  let q := Fixtures.query (Some "nowhere") (Some "dubai") None in
  getIATACode (from q) = None
  /\ exists name,
       search Fixtures.env_down 1700000000000 (Online Fixtures.sample_flights) q
       = ({| status := 400;
             body := ErrorBody
                       ("Unknown city: " ++ name ++ ". Please use city name or IATA code.")
                       (Some (keys cityToIATA)) |}, [])
       /\ getIATACode (Some name) = None
       /\ (getIATACode (from q) = None -> name = text (from q))
       /\ (getIATACode (from q) <> None -> name = text (to q))
       /\ List.length (keys cityToIATA) = 39%nat.
Proof.
  intros q. split; [reflexivity|].
  apply (unknown_city_is_reported Fixtures.env_down 1700000000000
           (Online Fixtures.sample_flights) q); try reflexivity.
  left. reflexivity.
Defined.

Lemma mapM_ok {A B : Type} (f : A -> result B) (xs : list A) (ys : list B) :
  mapM f xs = Ok ys -> Forall2 (fun x y => f x = Ok y) xs ys.
Proof.
  revert ys. induction xs as [|x rest IH]; simpl; intros ys H.
  - injection H as <-. constructor.
  - destruct (f x) as [y|] eqn:Hx; [|discriminate]. simpl in H.
    destruct (mapM f rest) as [ys'|]; [|discriminate]. simpl in H.
    injection H as <-. constructor; auto.
Qed.

Lemma mapM_all_ok {A B : Type} (f : A -> result B) (xs : list A) :
  (forall x, In x xs -> is_ok (f x) = true) -> exists ys, mapM f xs = Ok ys.
Proof.
  induction xs as [|x rest IH]; simpl; intros H; [eexists; reflexivity|].
  destruct (f x) as [y|] eqn:Hx.
  - destruct IH as [ys Hys]; [intros z Hz; apply H; now right|].
    rewrite Hys. simpl. eexists; reflexivity.
  - specialize (H x (or_introl eq_refl)). rewrite Hx in H. discriminate.
Qed.

Lemma translate_ok_codes (host : Translator.Host) (res : option Provider.ResultBody)
    (from to : string) (oc dc : JsValue) (offer : Provider.Offer)
    (r : Translator.FlightRecord) :
  Translator.translate host res from to oc dc offer = Ok r ->
  Translator.source r = "amadeus"
  /\ Translator.fromCode r = oc /\ Translator.toCode r = dc
  /\ Translator.from r = Translator.capitalize from
  /\ Translator.to r = Translator.capitalize to.
Proof.
  unfold Translator.translate. intros H. bind_ok H.
  injection H as <-. repeat split.
Qed.

(** X9.  When the provider answers and every offer can be translated, the
    route answers 200 with one record per offer, in the provider's order, each
    marked with the source "amadeus" and the two resolved codes, together with
    their count, the marker "Amadeus API" and the resolved search parameters;
    the provider is called once and the store is not queried. *)
Theorem provider_success_translates_every_offer (env : Env) (now : Z)
    (store : Collection FlightModel.Flight) (q : Query) (oc dc : JsValue)
    (dd : string) (response : Provider.Response) (offers : list Provider.Offer) :
  truthy_text (from q) = true -> truthy_text (to q) = true ->
  getIATACode (from q) = Some oc -> getIATACode (to q) = Some dc ->
  departure_date now q = Ok dd ->
  flightOffersSearch env (request_for env q oc dc dd) = Ok response ->
  Provider.data response = Some offers ->
  (forall o, In o offers ->
     is_ok (Translator.translate (host env) (Provider.result response)
              (text (from q)) (text (to q)) oc dc o) = true) ->
  exists flights,
    search env now store q
    = ({| status := 200;
          body := ProviderBody flights (List.length offers) "Amadeus API"
                    {| sp_from := oc; sp_to := dc; sp_date := dd |} |},
       [CallProvider (request_for env q oc dc dd)])
    /\ Forall2 (fun o r => Translator.translate (host env) (Provider.result response)
                             (text (from q)) (text (to q)) oc dc o = Ok r)
         offers flights
    /\ Forall (fun r => Translator.source r = "amadeus"
                        /\ Translator.fromCode r = oc /\ Translator.toCode r = dc)
         flights.
Proof.
  intros Hf Ht Hoc Hdc Hdd Hresp Hdata Hall.
  rewrite (search_after_validation env now store q oc dc dd Hf Ht Hoc Hdc Hdd).
  rewrite Hresp. cbn [bind]. unfold translate_all. rewrite Hdata. cbn [reading bind].
  destruct (mapM_all_ok _ offers Hall) as [flights Hflights].
  rewrite Hflights. exists flights.
  pose proof (mapM_ok _ _ _ Hflights) as Hpair.
  assert (Hlen : List.length flights = List.length offers).
  { clear - Hpair. induction Hpair; simpl; auto. }
  unfold provider_response. rewrite Hlen.
  split; [reflexivity|]. split; [exact Hpair|].
  clear - Hpair. induction Hpair as [|o r os rs Hor _ IH]; constructor; auto.
  destruct (translate_ok_codes _ _ _ _ _ _ _ _ Hor) as (H1 & H2 & H3 & _). auto.
Qed.

Lemma provider_success_translates_every_offer_witness :
  let env := Fixtures.env_with
               (fun _ => Ok {| Provider.data := Some [Fixtures.direct_offer;
                                                      Fixtures.two_stop_offer];
                               Provider.result := Some Fixtures.sample_result |}) in
  let q := Fixtures.query (Some "lahore") (Some "dubai") (Some "2024-01-15") in
  exists flights,
    search env 1700000000000 (Offline "down") q
    = ({| status := 200;
          body := ProviderBody flights 2 "Amadeus API"
                    {| sp_from := JsText "LHE"; sp_to := JsText "DXB";
                       sp_date := "2024-01-15" |} |},
       [CallProvider (request_for env q (JsText "LHE") (JsText "DXB") "2024-01-15")])
    /\ Forall2 (fun o r => Translator.translate (host env) (Some Fixtures.sample_result)
                             "lahore" "dubai" (JsText "LHE") (JsText "DXB") o = Ok r)
         [Fixtures.direct_offer; Fixtures.two_stop_offer] flights
    /\ Forall (fun r => Translator.source r = "amadeus"
                        /\ Translator.fromCode r = JsText "LHE"
                        /\ Translator.toCode r = JsText "DXB")
         flights.
Proof.
  intros env q.
  apply (provider_success_translates_every_offer env 1700000000000 (Offline "down") q
           (JsText "LHE") (JsText "DXB") "2024-01-15"
           {| Provider.data := Some [Fixtures.direct_offer; Fixtures.two_stop_offer];
              Provider.result := Some Fixtures.sample_result |}
           [Fixtures.direct_offer; Fixtures.two_stop_offer]);
    try reflexivity.
  intros o [<-|[<-|[]]]; reflexivity.
Defined.

Lemma fallback_effects (env : Env) (e : string)
    (store : Collection FlightModel.Flight) (q : Query) :
  (snd (fallback env e store q) = []
   /\ fst (fallback env e store q) = failure_response e)
  \/ exists query,
       snd (fallback env e store q) = [FindFlights query]
       /\ (fst (fallback env e store q) = failure_response e
           \/ exists flights, fst (fallback env e store q) = database_response flights).
Proof.
  unfold fallback. destruct (build_query env q) as [query|]; [|now left].
  right. exists query.
  destruct (Flight_find_sort store query); cbn [fst snd]; split; auto.
  right. eexists; reflexivity.
Qed.

(** X10.  Whatever the request and the services do, the route contacts the
    provider at most once and the store at most once, and the store only
    after the provider (or after the default date could not be computed);
    there is no retry.  The response status is 200, 400 or 500, and a 400 is
    sent without any external call. *)
Theorem search_contacts_each_service_at_most_once (env : Env) (now : Z)
    (store : Collection FlightModel.Flight) (q : Query) :
  let response := fst (search env now store q) in
  let calls := snd (search env now store q) in
  (calls = []
   \/ (exists request, calls = [CallProvider request])
   \/ (exists query, calls = [FindFlights query])
   \/ (exists request query, calls = [CallProvider request; FindFlights query]))
  /\ (status response = 200%Z \/ status response = 400%Z \/ status response = 500%Z)
  /\ (status response = 400%Z -> calls = []).
Proof.
  unfold search.
  destruct (negb (truthy_text (from q)) || negb (truthy_text (to q)));
    [cbn; repeat split; auto|].
  destruct (getIATACode (from q)) as [oc|]; [|cbn; repeat split; auto].
  destruct (getIATACode (to q)) as [dc|]; [|cbn; repeat split; auto].
  destruct (departure_date now q) as [dd|e].
  - destruct (bind _ _) as [flights|e].
    + cbn. repeat split; eauto. intros H; discriminate.
    + unfold after. cbn [fst snd].
      destruct (fallback_effects env e store q)
        as [[-> ->] | (query & -> & [-> | [flights ->]])];
        cbn; repeat split; eauto 6; intros H; discriminate.
  - destruct (fallback_effects env e store q)
      as [[-> ->] | (query & -> & [-> | [flights ->]])];
      cbn; repeat split; eauto 6; intros H; discriminate.
Qed.

End FlightSearchMore.

(** ** The flight-search route: dates *)

Module FlightSearchDates.
Import JsString Exn Normalizer JsDate Store FlightSearch Spec Vocabulary.
Import JsStringFacts NormalizerFacts FlightSearchFacts.

Lemma uint_text_plain (d : Decimal.uint) :
  forall_string plain (NilEmpty.string_of_uint d) = true.
Proof. induction d; simpl; auto. Qed.

Lemma of_Z_plain (z : Z) : forall_string plain (of_Z z) = true.
Proof.
  unfold of_Z, NilZero.string_of_int, NilZero.string_of_uint.
  destruct (Z.to_int z) as [d|d]; destruct d; simpl; auto using uint_text_plain.
Qed.

Lemma zeros_plain (n : nat) : forall_string plain (zeros n) = true.
Proof. induction n; simpl; auto. Qed.

Lemma pad_plain (w : nat) (z : Z) : forall_string plain (pad w z) = true.
Proof. unfold pad. now rewrite forall_string_app, zeros_plain, of_Z_plain. Qed.

Lemma date_text_plain (ymd : Z * Z * Z) : forall_string plain (date_text ymd) = true.
Proof.
  destruct ymd as [[y m] d]. unfold date_text, year_text.
  destruct ((0 <=? y)%Z && (y <=? 9999)%Z); [|destruct (y <? 0)%Z];
    rewrite ?forall_string_app; cbn [forall_string];
    rewrite ?forall_string_app, ?pad_plain; reflexivity.
Qed.

Lemma before_at (sep : ascii) (s rest : string) :
  forall_string (fun c => negb (Ascii.eqb c sep)) s = true ->
  before sep (s ++ String sep rest) = s.
Proof.
  induction s as [|c r IH]; simpl.
  - intros _. now rewrite Ascii.eqb_refl.
  - rewrite andb_true_iff; intros [Hc Hr].
    apply negb_true_iff in Hc. now rewrite Hc, (IH Hr).
Qed.

(** The date part of an ISO rendering is the calendar date of the UTC day. *)
Lemma iso_date_part (t : Z) :
  exists iso, toISOString (Some t) = Ok iso
              /\ before "T" iso = date_text (civil (utc_day t)).
Proof.
  unfold toISOString.
  destruct (civil (utc_day t)) as [[y m] d] eqn:Hc.
  eexists. split; [reflexivity|].
  pose proof (date_text_plain (y, m, d)) as Hplain.
  unfold date_text in *.
  match goal with
  | |- before _ (_ ++ "-" ++ _ ++ "-" ++ _ ++ "T" ++ ?r) = _ => set (rest := r)
  end.
  replace (year_text y ++ "-" ++ pad 2 m ++ "-" ++ pad 2 d ++ "T" ++ rest)
    with ((year_text y ++ "-" ++ pad 2 m ++ "-" ++ pad 2 d) ++ String "T" rest)
    by (rewrite !String_app_assoc; reflexivity).
  apply before_at. exact Hplain.
Qed.

Lemma civil_valid (day : Z) :
  let '(y, m, d) := civil day in (1 <= m <= 12 /\ 1 <= d <= 31)%Z.
Proof.
  unfold civil.
  set (z := (day + 719468)%Z).
  set (era := (z / 146097)%Z).
  set (doe := (z - era * 146097)%Z).
  assert (Hdoe : (0 <= doe <= 146096)%Z).
  { subst doe era.
    pose proof (Z.div_mod z 146097 ltac:(lia)).
    pose proof (Z.mod_pos_bound z 146097 ltac:(lia)). lia. }
  clearbody doe. clear z era.
  set (yoe := ((doe - doe / 1460 + doe / 36524 - doe / 146096) / 365)%Z).
  set (doy := (doe - (365 * yoe + yoe / 4 - yoe / 100))%Z).
  assert (Hdoy : (0 <= doy <= 365)%Z).
  { subst doy yoe. Z.to_euclidean_division_equations; lia. }
  clearbody doy.
  set (mp := ((5 * doy + 2) / 153)%Z).
  assert (Hmp : (0 <= mp <= 11)%Z)
    by (subst mp; Z.to_euclidean_division_equations; lia).
  assert (Hd : (1 <= doy - (153 * mp + 2) / 5 + 1 <= 31)%Z)
    by (subst mp; Z.to_euclidean_division_equations; lia).
  destruct (mp <? 10)%Z eqn:E.
  - apply Z.ltb_lt in E. lia.
  - apply Z.ltb_ge in E. lia.
Qed.

(** X11.  When no travel date is supplied, the default departure date is the
    calendar date (year, month 1..12, day 1..31, written YYYY-MM-DD) of the
    UTC day that follows the UTC day of the request, whatever the time of day
    of the request. *)
Theorem default_date_is_the_next_utc_day (now : Z) (q : Query) :
  truthy_text (date q) = false ->
  (Z.abs (now + 24 * 60 * 60 * 1000) <= 8640000000000000)%Z ->
  departure_date now q = Ok (date_text (civil (utc_day now + 1)))
  /\ let '(y, m, d) := civil (utc_day now + 1) in
     (1 <= m <= 12 /\ 1 <= d <= 31)%Z.
Proof.
  intros Hdate Hclock. split; [|apply civil_valid].
  unfold departure_date. rewrite Hdate. unfold of_time.
  apply Z.leb_le in Hclock. rewrite Hclock.
  destruct (iso_date_part (now + 24 * 60 * 60 * 1000)) as (iso & -> & Hpart).
  cbn [bind]. rewrite Hpart. do 3 f_equal.
  unfold utc_day, DAY_MS.
  replace (now + 24 * 60 * 60 * 1000)%Z with (now + 1 * (24 * 60 * 60 * 1000))%Z by lia.
  rewrite Z.div_add by lia. reflexivity.
Qed.

Lemma default_date_is_the_next_utc_day_witness :
  let q := Fixtures.query (Some "lahore") (Some "dubai") None in
  (* 30 December 2023, 23:59:59 UTC *)
  utc_day 1703980799000 = 19721%Z
  /\ date_text (civil (19721 + 1)) = "2023-12-31"
  /\ departure_date 1703980799000 q = Ok (date_text (civil (utc_day 1703980799000 + 1)))
  /\ let '(y, m, d) := civil (utc_day 1703980799000 + 1) in
     (1 <= m <= 12 /\ 1 <= d <= 31)%Z.
Proof.
  intros q. split; [reflexivity|]. split; [reflexivity|].
  apply (default_date_is_the_next_utc_day 1703980799000 q); [reflexivity|].
  vm_compute. discriminate.
Defined.



(** *** The calendar date that is sent *)

Import Calendar.

Lemma all_from_spec (p : positive) (f : Z -> bool) :
  forall base, all_from p f base = true ->
  forall z, (base <= z < base + Zpos p)%Z -> f z = true.
Proof.
  induction p as [r IH|r IH|]; intros base H z Hz; cbn [all_from] in H.
  - apply andb_true_iff in H as [H H3]. apply andb_true_iff in H as [H1 H2].
    destruct (Z.eq_dec z (base + Zpos (xO r))) as [->|Hne]; [exact H3|].
    destruct (Z_lt_le_dec z (base + Zpos r)).
    + apply (IH base H1). lia.
    + apply (IH _ H2). lia.
  - apply andb_true_iff in H as [H1 H2].
    destruct (Z_lt_le_dec z (base + Zpos r)).
    + apply (IH base H1). lia.
    + apply (IH _ H2). lia.
  - replace z with base by lia. exact H.
Qed.

(** One cycle of 400 years, day by day. *)
Lemma civil_cycle :
  all_from 146097 (fun z => calendar_date (z - 719468) (civil (z - 719468))) 0 = true.
Proof. vm_cast_no_check (eq_refl true). Qed.

Lemma civil_period (day k : Z) :
  civil (day + 146097 * k) = let '(y, m, d) := civil day in ((y + 400 * k)%Z, m, d).
Proof.
  unfold civil.
  replace (day + 146097 * k + 719468)%Z with (day + 719468 + k * 146097)%Z by lia.
  rewrite Z.div_add by lia.
  set (z := (day + 719468)%Z). set (era := (z / 146097)%Z).
  replace (z + k * 146097 - (era + k) * 146097)%Z with (z - era * 146097)%Z by lia.
  set (doe := (z - era * 146097)%Z).
  cbv zeta. do 2 f_equal. lia.
Qed.

Lemma leap_year_period (y k : Z) : leap_year (y + 400 * k) = leap_year y.
Proof.
  unfold leap_year.
  replace ((y + 400 * k) mod 4)%Z with (y mod 4)%Z
    by (replace (400 * k)%Z with (100 * k * 4)%Z by lia; now rewrite Z_mod_plus_full).
  replace ((y + 400 * k) mod 100)%Z with (y mod 100)%Z
    by (replace (400 * k)%Z with (4 * k * 100)%Z by lia; now rewrite Z_mod_plus_full).
  replace ((y + 400 * k) mod 400)%Z with (y mod 400)%Z
    by (replace (400 * k)%Z with (k * 400)%Z by lia; now rewrite Z_mod_plus_full).
  reflexivity.
Qed.

Lemma days_of_months_period (y k : Z) (n : nat) :
  days_of_months (y + 400 * k) n = days_of_months y n.
Proof.
  induction n as [|n IH]; [reflexivity|].
  cbn [days_of_months]. unfold days_in_month. now rewrite IH, leap_year_period.
Qed.

Lemma leap_years_through_period (y k : Z) :
  leap_years_through (y + 400 * k) = (leap_years_through y + 97 * k)%Z.
Proof.
  unfold leap_years_through.
  replace ((y + 400 * k) / 4)%Z with (y / 4 + 100 * k)%Z
    by (replace (400 * k)%Z with (100 * k * 4)%Z by lia; now rewrite Z.div_add by lia).
  replace ((y + 400 * k) / 100)%Z with (y / 100 + 4 * k)%Z
    by (replace (400 * k)%Z with (4 * k * 100)%Z by lia; now rewrite Z.div_add by lia).
  replace ((y + 400 * k) / 400)%Z with (y / 400 + k)%Z
    by (replace (400 * k)%Z with (k * 400)%Z by lia; now rewrite Z.div_add by lia).
  lia.
Qed.

Lemma calendar_date_period (day k y m d : Z) :
  calendar_date day (y, m, d) = true ->
  calendar_date (day + 146097 * k) ((y + 400 * k)%Z, m, d) = true.
Proof.
  unfold calendar_date, day_number, days_in_month. rewrite !andb_true_iff.
  intros [[[[Hn H1] H2] H3] H4].
  replace (y + 400 * k - 1)%Z with (y - 1 + 400 * k)%Z by lia.
  rewrite leap_years_through_period, days_of_months_period, leap_year_period.
  apply Z.eqb_eq in Hn. repeat split; try assumption.
  apply Z.eqb_eq. lia.
Qed.

(** [civil] gives the Gregorian calendar date of every day number. *)
Lemma civil_calendar_date (day : Z) : calendar_date day (civil day) = true.
Proof.
  set (z := (day + 719468)%Z).
  pose proof (Z.div_mod z 146097 ltac:(lia)) as Hz.
  pose proof (Z.mod_pos_bound z 146097 ltac:(lia)) as Hr.
  replace day with (z mod 146097 - 719468 + 146097 * (z / 146097))%Z
    by (subst z; lia).
  rewrite civil_period.
  pose proof (all_from_spec _ _ _ civil_cycle (z mod 146097)%Z ltac:(lia)) as Hc.
  cbv beta in Hc.
  destruct (civil (z mod 146097 - 719468)) as [[y m] d].
  now apply calendar_date_period.
Qed.

Lemma four_digits_read_back : all_from 10000 (reads_back 4) 0 = true.
Proof. vm_cast_no_check (eq_refl true). Qed.

Lemma two_digits_read_back : all_from 100 (reads_back 2) 0 = true.
Proof. vm_cast_no_check (eq_refl true). Qed.

Lemma read_date_parts (a b c : string) :
  String.length a = 4%nat -> String.length b = 2%nat -> String.length c = 2%nat ->
  read_date (a ++ "-" ++ b ++ "-" ++ c)
  = match decimal 0 a, decimal 0 b, decimal 0 c with
    | Some y, Some m, Some d => Some (y, m, d)
    | _, _, _ => None
    end.
Proof.
  destruct a as [|a1 [|a2 [|a3 [|a4 [|]]]]]; try discriminate.
  destruct b as [|b1 [|b2 [|]]]; try discriminate.
  destruct c as [|c1 [|c2 [|]]]; try discriminate.
  intros _ _ _. reflexivity.
Qed.

(** A date text of a year of four digits reads back as its date. *)
Lemma read_date_date_text (y m d : Z) :
  (0 <= y <= 9999)%Z -> (0 <= m <= 99)%Z -> (0 <= d <= 99)%Z ->
  read_date (date_text (y, m, d)) = Some (y, m, d).
Proof.
  intros Hy Hm Hd.
  pose proof (all_from_spec _ _ _ four_digits_read_back y ltac:(lia)) as Ry.
  pose proof (all_from_spec _ _ _ two_digits_read_back m ltac:(lia)) as Rm.
  pose proof (all_from_spec _ _ _ two_digits_read_back d ltac:(lia)) as Rd.
  unfold reads_back in Ry, Rm, Rd.
  apply andb_true_iff in Ry as [Ly Vy]. apply andb_true_iff in Rm as [Lm Vm].
  apply andb_true_iff in Rd as [Ld Vd].
  apply Nat.eqb_eq in Ly, Lm, Ld.
  unfold date_text, year_text.
  replace ((0 <=? y)%Z && (y <=? 9999)%Z) with true
    by (symmetry; apply andb_true_iff; split; apply Z.leb_le; lia).
  rewrite (read_date_parts _ _ _ Ly Lm Ld).
  destruct (decimal 0 (pad 4 y)) as [vy|]; [|discriminate].
  destruct (decimal 0 (pad 2 m)) as [vm|]; [|discriminate].
  destruct (decimal 0 (pad 2 d)) as [vd|]; [|discriminate].
  apply Z.eqb_eq in Vy, Vm, Vd. now subst.
Qed.

(** C5 (as amended).  When no travel date is supplied (and the clock is
    within the range of [Date]), the first external call is the provider call,
    and the departure date it carries is a date without a time of day: the
    Gregorian calendar date, written YYYY-MM-DD in UTC, of the day on which
    the instant 24 * 60 * 60 * 1000 milliseconds after the request falls.
    That day is always the UTC day that follows the UTC day of the request,
    so the date is also the date of the next UTC midnight. *)
Theorem default_date_sent_is_the_next_utc_date (env : Env) (now : Z)
    (store : Collection FlightModel.Flight) (q : Query) (oc dc : JsValue) :
  truthy_text (from q) = true -> truthy_text (to q) = true ->
  getIATACode (from q) = Some oc -> getIATACode (to q) = Some dc ->
  truthy_text (date q) = false ->
  (Z.abs (now + 24 * 60 * 60 * 1000) <= 8640000000000000)%Z ->
  exists request rest y m d,
    snd (search env now store q) = CallProvider request :: rest
    /\ Provider.originLocationCode request = oc
    /\ Provider.destinationLocationCode request = dc
    /\ Provider.departureDate request = date_text (y, m, d)
    /\ ((0 <= y <= 9999)%Z ->
        read_date (Provider.departureDate request) = Some (y, m, d))
    /\ (1 <= m <= 12)%Z /\ (1 <= d <= days_in_month y m)%Z
    /\ day_number y m d = ((now + 24 * 60 * 60 * 1000) / 86400000)%Z
    /\ day_number y m d = (now / 86400000 + 1)%Z
    /\ (y, m, d) = civil (utc_day (now + 24 * 60 * 60 * 1000)).
Proof.
  intros Hf Ht Hoc Hdc Hdate Hclock.
  assert (Hdd : departure_date now q
                = Ok (date_text (civil (utc_day (now + 24 * 60 * 60 * 1000))))).
  { unfold departure_date. rewrite Hdate. unfold of_time.
    apply Z.leb_le in Hclock. rewrite Hclock.
    destruct (iso_date_part (now + 24 * 60 * 60 * 1000)) as (iso & -> & Hpart).
    cbn [bind]. now rewrite Hpart. }
  rewrite (search_after_validation env now store q oc dc _ Hf Ht Hoc Hdc Hdd).
  pose proof (civil_calendar_date (utc_day (now + 24 * 60 * 60 * 1000))) as Hcal.
  assert (Hday : utc_day (now + 24 * 60 * 60 * 1000) = (now / 86400000 + 1)%Z).
  { unfold utc_day, DAY_MS.
    replace (now + 24 * 60 * 60 * 1000)%Z with (now + 1 * 86400000)%Z by lia.
    change (24 * 60 * 60 * 1000)%Z with 86400000%Z.
    now rewrite Z.div_add by lia. }
  destruct (civil (utc_day (now + 24 * 60 * 60 * 1000))) as [[y m] d] eqn:Hcivil.
  unfold calendar_date in Hcal. rewrite !andb_true_iff in Hcal.
  destruct Hcal as [[[[Hn H1] H2] H3] H4].
  apply Z.eqb_eq in Hn. apply Z.leb_le in H1, H2, H3, H4.
  exists (request_for env q oc dc (date_text (y, m, d))).
  exists (match bind (flightOffersSearch env
                        (request_for env q oc dc (date_text (y, m, d))))
                     (fun response => translate_all env response (text (from q))
                                        (text (to q)) oc dc) with
          | Ok _ => []
          | Throw e => snd (fallback env e store q)
          end).
  exists y, m, d.
  split.
  { destruct (bind _ _); [reflexivity|].
    unfold after. destruct (fallback env _ store q). reflexivity. }
  split; [reflexivity|]. split; [reflexivity|]. split; [reflexivity|].
  split.
  { intros Hy. cbn [Provider.departureDate request_for].
    assert (d <= 31)%Z.
    { revert H4. unfold days_in_month.
      destruct (m =? 2)%Z; [destruct (leap_year y)|destruct (_ || _)]; lia. }
    apply read_date_date_text; lia. }
  split; [lia|]. split; [lia|].
  split.
  { rewrite Hn, Hday. unfold utc_day, DAY_MS in Hday.
    change (24 * 60 * 60 * 1000)%Z with 86400000%Z in Hday. now rewrite <- Hday. }
  split; [now rewrite Hn|reflexivity].
Qed.

Lemma default_date_sent_is_the_next_utc_date_witness :
  let env := Fixtures.env_down in
  let q := Fixtures.query (Some "lahore") (Some "dubai") None in
  let store := Online Fixtures.sample_flights in
  (* 14 November 2023, 22:13:20 UTC *)
  truthy_text (date q) = false
  /\ exists request rest,
       snd (search env 1700000000000 store q) = CallProvider request :: rest
       /\ Provider.departureDate request = "2023-11-15"
       /\ read_date (Provider.departureDate request) = Some (2023, 11, 15)%Z
       /\ day_number 2023 11 15 = (1700000000000 / 86400000 + 1)%Z.
Proof.
  intros env q store. split; [reflexivity|].
  assert (Hclock : (Z.abs (1700000000000 + 24 * 60 * 60 * 1000) <= 8640000000000000)%Z)
    by (vm_compute; discriminate).
  destruct (default_date_sent_is_the_next_utc_date env 1700000000000 store q
              (JsText "LHE") (JsText "DXB") eq_refl eq_refl eq_refl eq_refl eq_refl
              Hclock)
    as (request & rest & y & m & d & Hcalls & _ & _ & Hsent & Hread & _ & _ & _
        & Hnum & Hcivil).
  vm_compute in Hcivil. injection Hcivil as -> -> ->.
  exists request, rest.
  split; [exact Hcalls|]. split; [exact Hsent|].
  split; [apply Hread; lia|exact Hnum].
Defined.

(** C5 (as stated) fails: a request at 22:13:20 UTC and a request one second
    later both send the date "2023-11-15", so the value sent does not denote
    the instant 24 hours after the request; it only names the day of that
    instant, as the next UTC midnight does. *)
Lemma default_date_is_not_an_instant :
  hd_error (snd (search Fixtures.env_down 1700000000000
                   (Online Fixtures.sample_flights)
                   (Fixtures.query (Some "lahore") (Some "dubai") None)))
  = hd_error (snd (search Fixtures.env_down 1700000001000
                     (Online Fixtures.sample_flights)
                     (Fixtures.query (Some "lahore") (Some "dubai") None)))
  /\ departure_date 1700000000000 (Fixtures.query (Some "lahore") (Some "dubai") None)
     = Ok "2023-11-15"
  /\ departure_date 1700000001000 (Fixtures.query (Some "lahore") (Some "dubai") None)
     = Ok "2023-11-15"
  /\ ~ date_sent_denotes_the_instant.
Proof.
  split; [reflexivity|]. split; [reflexivity|]. split; [reflexivity|].
  intros [instant_of H].
  pose (q := Fixtures.query (Some "lahore") (Some "dubai") None).
  pose (store := Online Fixtures.sample_flights).
  assert (Hclock : forall now, (now = 1700000000000 \/ now = 1700000001000)%Z ->
                               (Z.abs (now + DAY_MS) <= 8640000000000000)%Z).
  { intros now [-> | ->]; vm_compute; discriminate. }
  pose proof (H Fixtures.env_down 1700000000000%Z store q (JsText "LHE") (JsText "DXB")
                (request_for Fixtures.env_down q (JsText "LHE") (JsText "DXB") "2023-11-15")
                (tl (snd (search Fixtures.env_down 1700000000000 store q)))
                eq_refl eq_refl eq_refl eq_refl eq_refl
                (Hclock _ (or_introl eq_refl)) eq_refl) as H1.
  pose proof (H Fixtures.env_down 1700000001000%Z store q (JsText "LHE") (JsText "DXB")
                (request_for Fixtures.env_down q (JsText "LHE") (JsText "DXB") "2023-11-15")
                (tl (snd (search Fixtures.env_down 1700000001000 store q)))
                eq_refl eq_refl eq_refl eq_refl eq_refl
                (Hclock _ (or_intror eq_refl)) eq_refl) as H2.
  cbn [Provider.departureDate request_for] in H1, H2.
  rewrite H1 in H2. vm_compute in H2. discriminate.
Qed.

End FlightSearchDates.

(** ** Sorting *)

Module OrderFacts.
Import Order.

Section Insertion.
Context {A : Type} (le : A -> A -> bool).

Lemma insert_perm (x : A) (l : list A) : Permutation (x :: l) (insert le x l).
Proof.
  induction l as [|y rest IH]; simpl; [apply Permutation_refl|].
  destruct (le x y); [apply Permutation_refl|].
  eapply perm_trans; [apply perm_swap|]. now apply perm_skip.
Qed.

Lemma sort_perm (l : list A) : Permutation (sort le l) l.
Proof.
  induction l as [|x rest IH]; simpl; [constructor|].
  eapply perm_trans; [apply Permutation_sym, insert_perm|]. now apply perm_skip.
Qed.

Lemma sort_In (l : list A) (x : A) : In x (sort le l) <-> In x l.
Proof.
  split; intros H.
  - eapply Permutation_in; [apply sort_perm|exact H].
  - eapply Permutation_in; [apply Permutation_sym, sort_perm|exact H].
Qed.

Lemma sort_length (l : list A) : List.length (sort le l) = List.length l.
Proof. apply Permutation_length, sort_perm. Qed.

Hypothesis le_total : forall x y, le x y = false -> le y x = true.





End Insertion.



End OrderFacts.

(** ** The listing routes *)

Module CatalogFacts.
Import JsString Exn Store Catalog Vocabulary OrderFacts.



Example cars_sample :
  CarsRoute.cars Samples.catalog_env (Online Samples.sample_cars)
    {| CarsRoute.type := Some "Sedan"; CarsRoute.location := Some "lahore" |}
  = {| status := 200; body := Listed [Samples.yaris; Samples.corolla] 2 |}.
Proof. reflexivity. Qed.



Example tours_sample :
  ToursRoute.tours Samples.catalog_env (Online Samples.sample_tours)
    {| ToursRoute.destination := None;
       ToursRoute.minPrice := Some "100";
       ToursRoute.maxPrice := Some "500" |}
  = {| status := 200; body := Listed [Samples.murree; Samples.hunza] 2 |}.
Proof. reflexivity. Qed.

Example tours_bad_bound :
  status (ToursRoute.tours Samples.catalog_env (Online Samples.sample_tours)
            {| ToursRoute.destination := None;
               ToursRoute.minPrice := Some "cheap";
               ToursRoute.maxPrice := None |}) = 500%Z.
Proof. reflexivity. Qed.



(** X16.  The flights route returns at most 50 stored flights: the first 50
    of the collection in its order (all of them when there are no more than
    50), marked with the source "database". *)
Theorem flights_lists_at_most_fifty (docs : list FlightModel.Flight) :
  exists flights rest,
    FlightsRoute.flights (Online docs)
    = (200%Z, FlightsRoute.Flights flights "database")
    /\ docs = (flights ++ rest)%list
    /\ List.length flights = Nat.min 50 (List.length docs)
    /\ ((List.length docs <= 50)%nat -> flights = docs).
Proof.
  exists (firstn 50 docs), (skipn 50 docs). split; [reflexivity|].
  split; [symmetry; apply firstn_skipn|].
  split; [apply length_firstn|].
  intros H. now apply firstn_all2.
Qed.

(** X17.  Looking a car up by its identifier: an identifier that is not an
    ObjectId or an unreachable store gives a 500; a well-formed identifier
    that no car has gives a 404 "Car not found"; otherwise the answer is 200
    with a car of the collection that has this identifier. *)
Theorem car_by_id_outcomes (env : Env) (store : Collection CarModel.Car)
    (id : string) :
  (is_ObjectId env id = false -> status (CarsRoute.car env store id) = 500%Z)
  /\ (forall message, store = Offline message ->
        status (CarsRoute.car env store id) = 500%Z)
  /\ (forall docs, is_ObjectId env id = true -> store = Online docs ->
        ((forall c, In c docs -> CarModel._id c <> id) ->
         CarsRoute.car env store id
         = {| status := 404; body := ErrorBody "Car not found" |})
        /\ (forall c, In c docs -> CarModel._id c = id ->
            exists found,
              CarsRoute.car env store id = {| status := 200; body := Found found |}
              /\ In found docs /\ CarModel._id found = id)).
Proof.
  unfold CarsRoute.car, by_id, findById.
  split; [|split].
  - intros ->. reflexivity.
  - intros message ->. now destruct (is_ObjectId env id).
  - intros docs Hid ->. rewrite Hid. cbn [negb bind respond]. split.
    + intros Hnone.
      destruct (List.find _ docs) as [c|] eqn:Hfind; [|reflexivity].
      apply find_some in Hfind as [Hin Heq]. apply String.eqb_eq in Heq.
      exfalso. exact (Hnone c Hin Heq).
    + intros c Hin Hc.
      destruct (List.find _ docs) as [found|] eqn:Hfind.
      * apply find_some in Hfind as [Hin' Heq]. apply String.eqb_eq in Heq.
        exists found. auto.
      * exfalso. pose proof (find_none _ _ Hfind c Hin) as Hno.
        cbv beta in Hno. rewrite Hc, String.eqb_refl in Hno. discriminate.
Qed.

End CatalogFacts.

(** ** The provider proxies *)

Module ProxyFacts.
Import JsString Exn Normalizer JsDate Vocabulary.

(** X18.  The airport route refuses a missing keyword and a keyword of fewer
    than two characters with a 400, without calling the provider.  With a
    longer keyword it calls the provider once, for airports and cities, and
    answers with one entry per location and their count, or with a 500 that
    carries the provider's error message. *)
Theorem airports_needs_two_characters (env : AirportSearch.Env)
    (keyword : option string) :
  ((String.length (FlightSearch.text keyword) < 2)%nat ->
   AirportSearch.airports env keyword
   = ({| AirportSearch.status := 400;
         AirportSearch.body :=
           AirportSearch.ErrorBody "Keyword must be at least 2 characters" |}, []))
  /\ ((2 <= String.length (FlightSearch.text keyword))%nat ->
      snd (AirportSearch.airports env keyword)
      = [(FlightSearch.text keyword, "AIRPORT,CITY")]
      /\ match AirportSearch.locations_get env (FlightSearch.text keyword) "AIRPORT,CITY" with
         | Throw message =>
             fst (AirportSearch.airports env keyword)
             = {| AirportSearch.status := 500;
                  AirportSearch.body := AirportSearch.ErrorBody message |}
         | Ok response =>
             match ProviderLocations.data response with
             | None => AirportSearch.status (fst (AirportSearch.airports env keyword)) = 500%Z
             | Some locs =>
                 fst (AirportSearch.airports env keyword)
                 = {| AirportSearch.status := 200;
                      AirportSearch.body :=
                        AirportSearch.Locations (map AirportSearch.view locs)
                          (List.length locs) |}
             end
         end).
Proof.
  unfold AirportSearch.airports. split.
  - intros Hshort. apply Nat.ltb_lt in Hshort. rewrite Hshort.
    now rewrite orb_true_r.
  - intros Hlong.
    assert (Htruthy : FlightSearch.truthy_text keyword = true).
    { destruct keyword as [[|c r]|]; simpl in *; try lia; reflexivity. }
    rewrite Htruthy. apply Nat.ltb_ge in Hlong. rewrite Hlong. cbn [negb orb].
    destruct (AirportSearch.locations_get env _ _) as [response|message];
      cbn [bind]; [|split; reflexivity].
    destruct (ProviderLocations.data response) as [locs|];
      cbn [reading bind fst snd]; [|split; reflexivity].
    now rewrite length_map.
Qed.

Example airports_sample :
  AirportSearch.airports Samples.airports_env (Some "la")
  = ({| AirportSearch.status := 200;
        AirportSearch.body :=
          AirportSearch.Locations
            [ {| AirportSearch.name := Some "ALLAMA IQBAL INTL";
                 AirportSearch.iataCode := Some "LHE";
                 AirportSearch.cityName := Some "LAHORE";
                 AirportSearch.countryName := Some "PAKISTAN";
                 AirportSearch.type := Some "AIRPORT" |} ] 1 |},
     [("la", "AIRPORT,CITY")]).
Proof. reflexivity. Qed.

Example airports_one_character :
  AirportSearch.status (fst (AirportSearch.airports Samples.airports_env (Some "l")))
  = 400%Z.
Proof. reflexivity. Qed.

(** X19.  The price-analysis route answers 400 "Invalid city names" without
    calling the provider when either city is missing or does not resolve.
    Otherwise it asks the provider once, for the calendar date of the UTC day
    seven days after the request's, and a failure of that call is answered
    with a 500 carrying the provider's message. *)
Theorem price_analysis_outcomes (env : PriceAnalysis.Env) (now : Z)
    (from to : option string) :
  (getIATACode from = None \/ getIATACode to = None ->
   PriceAnalysis.price_analysis env now from to
   = ({| PriceAnalysis.status := 400;
         PriceAnalysis.body := PriceAnalysis.ErrorBody "Invalid city names" |}, []))
  /\ (forall oc dc,
        getIATACode from = Some oc -> getIATACode to = Some dc ->
        (Z.abs (now + 7 * 24 * 60 * 60 * 1000) <= 8640000000000000)%Z ->
        let request :=
          {| PriceAnalysis.originIataCode := oc;
             PriceAnalysis.destinationIataCode := dc;
             PriceAnalysis.departureDate := date_text (civil (utc_day now + 7)) |} in
        snd (PriceAnalysis.price_analysis env now from to) = [request]
        /\ match PriceAnalysis.itineraryPriceMetrics env request with
           | Ok data =>
               fst (PriceAnalysis.price_analysis env now from to)
               = {| PriceAnalysis.status := 200;
                    PriceAnalysis.body := PriceAnalysis.Metrics data |}
           | Throw message =>
               fst (PriceAnalysis.price_analysis env now from to)
               = {| PriceAnalysis.status := 500;
                    PriceAnalysis.body := PriceAnalysis.ErrorBody message |}
           end).
Proof.
  split.
  - unfold PriceAnalysis.price_analysis. intros [-> | ->]; [reflexivity|].
    now destruct (getIATACode from).
  - intros oc dc Hoc Hdc Hclock request.
    unfold PriceAnalysis.price_analysis. rewrite Hoc, Hdc. unfold of_time.
    apply Z.leb_le in Hclock. rewrite Hclock.
    destruct (FlightSearchDates.iso_date_part (now + 7 * 24 * 60 * 60 * 1000))
      as (iso & -> & Hpart).
    rewrite Hpart.
    assert (Hday : utc_day (now + 7 * 24 * 60 * 60 * 1000) = (utc_day now + 7)%Z).
    { unfold utc_day, DAY_MS.
      replace (now + 7 * 24 * 60 * 60 * 1000)%Z
        with (now + 7 * (24 * 60 * 60 * 1000))%Z by lia.
      now rewrite Z.div_add by lia. }
    rewrite Hday. fold request.
    destruct (PriceAnalysis.itineraryPriceMetrics env request); split; reflexivity.
Qed.

Example price_analysis_sample :
  PriceAnalysis.price_analysis Samples.metrics_env 1700000000000
    (Some "lahore") (Some "dubai")
  = ({| PriceAnalysis.status := 500;
        PriceAnalysis.body :=
          PriceAnalysis.ErrorBody "Request failed with status code 429" |},
     [ {| PriceAnalysis.originIataCode := JsText "LHE";
          PriceAnalysis.destinationIataCode := JsText "DXB";
          PriceAnalysis.departureDate := "2023-11-21" |} ]).
Proof. reflexivity. Qed.

Example price_analysis_missing_city :
  PriceAnalysis.price_analysis Samples.metrics_env 1700000000000 None (Some "dubai")
  = ({| PriceAnalysis.status := 400;
        PriceAnalysis.body := PriceAnalysis.ErrorBody "Invalid city names" |}, []).
Proof. reflexivity. Qed.

End ProxyFacts.

(** ** Registration *)

Module RegistrationFacts.
Import JsString Exn Store Registration Vocabulary.

Lemma find_email_none (docs : list UserModel.User) (e : string) :
  List.find (fun u => String.eqb (UserModel.email u) e) docs = None ->
  ~ In e (map UserModel.email docs)
  /\ existsb (fun d => String.eqb (UserModel.email d) e) docs = false.
Proof.
  intros Hfind. split.
  - intros Hin. apply in_map_iff in Hin as (u & Hu & Hin).
    pose proof (find_none _ _ Hfind u Hin) as Hno. cbv beta in Hno.
    rewrite Hu, String.eqb_refl in Hno. discriminate.
  - destruct (existsb _ docs) eqn:Hex; [|reflexivity].
    apply existsb_exists in Hex as (u & Hin & Hu).
    pose proof (find_none _ _ Hfind u Hin) as Hno. cbv beta in Hno. congruence.
Qed.

Lemma find_last (docs : list UserModel.User) (u : UserModel.User) :
  List.find (fun d => String.eqb (UserModel.email d) (UserModel.email u)) docs = None ->
  List.find (fun d => String.eqb (UserModel.email d) (UserModel.email u)) (docs ++ [u])
  = Some u.
Proof.
  induction docs as [|d rest IH]; simpl.
  - intros _. now rewrite String.eqb_refl.
  - destruct (String.eqb (UserModel.email d) (UserModel.email u)); [discriminate|exact IH].
Qed.

(** What a registration that ends in 201 went through. *)
Lemma register_created (env : Env) (id : string) (now : Z)
    (users users' : Collection UserModel.User) (b : Body) (response : Response) :
  register env id now users b = (response, users') ->
  status response = 201%Z ->
  exists docs fn ln hashed user,
    users = Online docs
    /\ List.find (fun u => String.eqb (UserModel.email u) (email b)) docs = None
    /\ firstName b = Some fn /\ lastName b = Some ln
    /\ bcrypt_hash env (password b) = Ok hashed
    /\ user = {| UserModel._id := id;
                 UserModel.firstName := fn;
                 UserModel.lastName := ln;
                 UserModel.email := email b;
                 UserModel.password := hashed;
                 UserModel.phone := phone b;
                 UserModel.address := None;
                 UserModel.city := None;
                 UserModel.country := None;
                 UserModel.createdAt := now |}
    /\ users' = Online (docs ++ [user])
    /\ response = {| status := 201;
                     body := Registered "User registered successfully"
                               (Auth.jwt_sign (auth env) id (email b)) id
                               (firstName b) (lastName b) (email b) |}.
Proof.
  unfold register, Auth.User_findOne. intros H Hstatus.
  destruct users as [docs|message];
    [|cbn in H; injection H as <- _; discriminate].
  cbn [bind] in H.
  destruct (List.find _ docs) as [u|] eqn:Hfind;
    [injection H as <- _; discriminate|].
  destruct (bcrypt_hash env (password b)) as [hashed|e] eqn:Hhash;
    [|cbn in H; injection H as <- _; discriminate].
  cbn [bind] in H. unfold User_save, required in H.
  destruct (firstName b) as [fn|]; [|cbn in H; injection H as <- _; discriminate].
  destruct (is_empty fn); [cbn in H; injection H as <- _; discriminate|].
  destruct (lastName b) as [ln|]; [|cbn in H; injection H as <- _; discriminate].
  destruct (is_empty ln); [cbn in H; injection H as <- _; discriminate|].
  cbn [bind] in H.
  destruct (is_empty (email b)); [cbn in H; injection H as <- _; discriminate|].
  destruct (is_empty hashed); [cbn in H; injection H as <- _; discriminate|].
  cbn [bind] in H.
  rewrite (proj2 (find_email_none docs (email b) Hfind)) in H.
  cbn in H. injection H as <- <-.
  do 5 eexists. repeat split; eauto.
Qed.

(** X20.  Registering an email that a stored user already has is refused
    with 400 "Email already registered": no user is created and no token is
    issued. *)
Theorem register_refuses_a_known_email (env : Env) (id : string) (now : Z)
    (docs : list UserModel.User) (b : Body) (u : UserModel.User) :
  In u docs -> UserModel.email u = email b ->
  register env id now (Online docs) b
  = ({| status := 400; body := ErrorBody "Email already registered" |}, Online docs).
Proof.
  intros Hin Hemail. unfold register, Auth.User_findOne. cbn [bind].
  destruct (List.find _ docs) as [found|] eqn:Hfind; [reflexivity|].
  pose proof (find_none _ _ Hfind u Hin) as Hno. cbv beta in Hno.
  rewrite Hemail, String.eqb_refl in Hno. discriminate.
Qed.

Lemma register_refuses_a_known_email_witness :
  let b := {| firstName := Some "Eve"; lastName := Some "Khan";
              email := "alice@example.com"; password := "x"; phone := None |} in
  In Fixtures.alice [Fixtures.alice]
  /\ UserModel.email Fixtures.alice = email b
  /\ register Samples.register_env "65a4f0c2b7e1a2d3c4b5a699" 1700000000000
       (Online [Fixtures.alice]) b
     = ({| status := 400; body := ErrorBody "Email already registered" |},
        Online [Fixtures.alice]).
Proof.
  intros b. split; [left; reflexivity|]. split; [reflexivity|].
  apply (register_refuses_a_known_email Samples.register_env
           "65a4f0c2b7e1a2d3c4b5a699" 1700000000000 [Fixtures.alice] b Fixtures.alice).
  - left. reflexivity.
  - reflexivity.
Defined.

(** X21.  Registration and login compose: provided a hash produced by
    [bcrypt.hash] is accepted by [bcrypt.compare] for the same password, a
    login with the email and password of a registration that was answered 201
    succeeds against the resulting collection, and is issued a token for the
    identifier and email of the user just created. *)
Theorem register_then_login_succeeds (env : Env) (id : string) (now : Z)
    (users users' : Collection UserModel.User) (b : Body) (response : Response) :
  (forall p h, bcrypt_hash env p = Ok h ->
               Auth.bcrypt_compare (auth env) p h = Ok true) ->
  register env id now users b = (response, users') ->
  status response = 201%Z ->
  exists fn ln,
    firstName b = Some fn /\ lastName b = Some ln
    /\ Auth.login (auth env) users'
         {| Auth.email := email b; Auth.password := Auth.Text (password b) |}
       = {| Auth.status := 200;
            Auth.body := Auth.Welcome "Login successful"
                           (Auth.jwt_sign (auth env) id (email b))
                           id fn ln (email b) |}.
Proof.
  intros Hbcrypt H Hstatus.
  destruct (register_created env id now users users' b response H Hstatus)
    as (docs & fn & ln & hashed & user & -> & Hfind & Hfn & Hln & Hhash & Huser & -> & _).
  exists fn, ln. split; [exact Hfn|]. split; [exact Hln|].
  unfold Auth.login, Auth.User_findOne. cbn [Auth.email Auth.password bind].
  assert (Hemail : UserModel.email user = email b) by (subst user; reflexivity).
  rewrite <- Hemail in Hfind |- *. rewrite (find_last docs user Hfind).
  cbn [bind Auth.compare]. rewrite Hemail.
  replace (UserModel.password user) with hashed by (subst user; reflexivity).
  rewrite (Hbcrypt _ _ Hhash). cbn [bind negb].
  subst user. reflexivity.
Qed.

Lemma register_then_login_succeeds_witness :
  let env := Samples.register_env in
  exists response users',
    register env "65a4f0c2b7e1a2d3c4b5a699" 1700000000000
      (Online [Fixtures.alice]) Samples.bob = (response, users')
    /\ status response = 201%Z
    /\ Auth.status (Auth.login (auth env) users'
                      {| Auth.email := "bob@example.com";
                         Auth.password := Auth.Text "tr0ub4dor" |}) = 200%Z.
Proof.
  intros env. eexists. eexists. split; [reflexivity|]. split; [reflexivity|].
  assert (Hbcrypt : forall p h, bcrypt_hash env p = Ok h ->
                                Auth.bcrypt_compare (auth env) p h = Ok true).
  { intros p h [= <-]. cbn. now rewrite String.eqb_refl. }
  destruct (register_then_login_succeeds env "65a4f0c2b7e1a2d3c4b5a699"
              1700000000000 (Online [Fixtures.alice]) _ Samples.bob _
              Hbcrypt eq_refl eq_refl) as (fn & ln & _ & _ & Hlogin).
  exact (f_equal Auth.status Hlogin).
Defined.

Lemma NoDup_snoc {A : Type} (l : list A) (x : A) :
  NoDup l -> ~ In x l -> NoDup (l ++ [x]).
Proof.
  intros Hl Hx. apply (Permutation_NoDup (l := x :: l)).
  - apply Permutation_cons_append.
  - now constructor.
Qed.

(** X22.  Registration keeps the emails of the stored users pairwise
    distinct, and it changes the collection only when it answers 201, in
    which case exactly one user is added, with the email of the request and,
    as its password, the hash that [bcrypt.hash] returned. *)
Theorem register_keeps_emails_unique (env : Env) (id : string) (now : Z)
    (users users' : Collection UserModel.User) (b : Body) (response : Response) :
  register env id now users b = (response, users') ->
  NoDup (emails users) ->
  NoDup (emails users')
  /\ (status response <> 201%Z -> users' = users)
  /\ (status response = 201%Z ->
      exists user hashed,
        Bookings.documents users' = (Bookings.documents users ++ [user])%list
        /\ UserModel.email user = email b
        /\ bcrypt_hash env (password b) = Ok hashed
        /\ UserModel.password user = hashed).
Proof.
  intros H Hnodup.
  destruct (Z.eq_dec (status response) 201) as [Hcreated|Hother].
  - destruct (register_created env id now users users' b response H Hcreated)
      as (docs & fn & ln & hashed & user & -> & Hfind & _ & _ & Hhash & Huser & -> & _).
    split; [|split; [contradiction|]].
    + unfold emails in *. cbn [Bookings.documents] in *. rewrite map_app.
      cbn [map]. apply NoDup_snoc; [exact Hnodup|].
      replace (UserModel.email user) with (email b) by (subst user; reflexivity).
      exact (proj1 (find_email_none docs (email b) Hfind)).
    + intros _. exists user, hashed. subst user. repeat split; auto.
  - assert (Hsame : users' = users).
    { revert H. unfold register.
      destruct (bind _ _) as [[r us]|e] eqn:Hrun; [|now intros [= _ <-]].
      intros [= -> ->]. revert Hrun. unfold Auth.User_findOne.
      destruct users as [docs|message]; [|discriminate].
      cbn [bind]. destruct (List.find _ docs); [now intros [= _ <-]|].
      destruct (bcrypt_hash env (password b)); [|discriminate].
      cbn [bind]. destruct (User_save id now (Online docs) b a); [|discriminate].
      cbn [bind]. intros [= <- _]. cbn in Hother. contradiction. }
    subst users'. split; [exact Hnodup|]. split; [reflexivity|contradiction].
Qed.

Lemma register_keeps_emails_unique_witness :
  exists response users',
    register Samples.register_env "65a4f0c2b7e1a2d3c4b5a699" 1700000000000
      (Online [Fixtures.alice]) Samples.bob = (response, users')
    /\ NoDup (emails (Online [Fixtures.alice]))
    /\ NoDup (emails users')
    /\ emails users' = ["alice@example.com"; "bob@example.com"].
Proof.
  eexists. eexists. split; [reflexivity|].
  assert (Hnodup : NoDup (emails (Online [Fixtures.alice]))).
  { repeat constructor. intros []. }
  split; [exact Hnodup|]. split; [|reflexivity].
  exact (proj1 (register_keeps_emails_unique Samples.register_env
                  "65a4f0c2b7e1a2d3c4b5a699" 1700000000000
                  (Online [Fixtures.alice]) _ Samples.bob _ eq_refl Hnodup)).
Defined.

End RegistrationFacts.

(** ** Bookings: references, the token gate, the caller's bookings *)

Module BookingsMore.
Import JsString Exn Store Bookings Spec Vocabulary BookingsFacts.

Lemma lower_of_upper_digit36 (c : ascii) :
  is_digit36 c = true ->
  lower_char (upper_char c) = c
  /\ (is_digit (upper_char c) || is_upper (upper_char c) = true).
Proof.
  destruct c as [[] [] [] [] [] [] [] []]; vm_compute; intros H;
    try discriminate H; split; reflexivity.
Qed.

Lemma toLowerCase_toUpperCase (s : string) :
  forall_string is_digit36 s = true -> toLowerCase (toUpperCase s) = s.
Proof.
  unfold toLowerCase, toUpperCase.
  induction s as [|c r IH]; simpl; [reflexivity|].
  rewrite andb_true_iff; intros [Hc Hr].
  now rewrite (proj1 (lower_of_upper_digit36 c Hc)), (IH Hr).
Qed.

Lemma reference_decodes (now : Z) :
  (0 <= now)%Z -> decode_reference (booking_reference now) = Some now.
Proof.
  intros Hnow. unfold decode_reference, booking_reference.
  destruct (toString36_numeral now Hnow) as [Hvalue Hdigits].
  cbn [append startsWith Ascii.eqb Bool.eqb andb drop].
  rewrite (toLowerCase_toUpperCase _ Hdigits), Hvalue.
  f_equal. lia.
Qed.

(** X23.  A booking reference can be read back: behind the prefix "BK" it
    holds, in digits and upper-case letters, the base-36 numeral of the
    timestamp it was made from.  Hence two readings of the clock give the same
    reference only when they are the same millisecond. *)
Theorem booking_reference_round_trip (now : Z) :
  (0 <= now)%Z ->
  decode_reference (booking_reference now) = Some now
  /\ startsWith "BK" (booking_reference now) = true
  /\ forall_string (fun c => is_digit c || is_upper c) (drop 2 (booking_reference now))
     = true
  /\ forall other, (0 <= other)%Z ->
       booking_reference other = booking_reference now -> other = now.
Proof.
  intros Hnow. split; [now apply reference_decodes|].
  split; [reflexivity|]. split.
  - unfold booking_reference. cbn [append drop].
    destruct (toString36_numeral now Hnow) as [_ Hdigits].
    unfold toUpperCase. rewrite JsStringFacts.forall_string_map.
    revert Hdigits. apply JsStringFacts.forall_string_impl.
    intros c Hc. apply (lower_of_upper_digit36 c Hc).
  - intros other Hother Heq.
    pose proof (reference_decodes other Hother) as H1.
    rewrite Heq, (reference_decodes now Hnow) in H1. now injection H1.
Qed.

Lemma booking_reference_round_trip_witness :
  (0 <= 1700000000000)%Z
  /\ booking_reference 1700000000000 = "BKLOYW3V28"
  /\ decode_reference (booking_reference 1700000000000) = Some 1700000000000%Z.
Proof.
  assert (H : (0 <= 1700000000000)%Z) by (vm_compute; discriminate).
  split; [exact H|]. split; [reflexivity|].
  exact (proj1 (booking_reference_round_trip 1700000000000 H)).
Defined.

(** X24.  A booking request that arrives with a valid token in a millisecond
    for which the store already holds a booking (one with the reference of
    that clock reading) is answered with a 500, and nothing is stored: the
    reference has no component besides the timestamp. *)
Theorem same_millisecond_booking_is_refused (env : Env) (now created : Z)
    (docs : list BookingModel.Booking) (authorization : option string)
    (b : BookingBody) (user : TokenPayload) (earlier : BookingModel.Booking) :
  authenticateToken env authorization = inl user ->
  In earlier docs ->
  BookingModel.bookingReference earlier = booking_reference now ->
  status (fst (create_booking env now created (Online docs) authorization b)) = 500%Z
  /\ snd (create_booking env now created (Online docs) authorization b) = Online docs.
Proof.
  intros Hauth Hin Href. unfold create_booking. rewrite Hauth. unfold save.
  destruct (negb (valid env _)); [split; reflexivity|].
  cbn [BookingModel.bookingReference].
  assert (Hdup : existsb (fun d => String.eqb (BookingModel.bookingReference d)
                                     (booking_reference now)) docs = true).
  { apply existsb_exists. exists earlier. split; [exact Hin|].
    now rewrite Href, String.eqb_refl. }
  rewrite Hdup. split; reflexivity.
Qed.

Lemma same_millisecond_booking_is_refused_witness :
  let first := Samples.booking_of (booking_reference 1700000000000)
                 "75a4f0c2b7e1a2d3c4b5a600" 1700000000000 in
  status (fst (create_booking Fixtures.booking_env 1700000000000 1700000000000
                 (Online [first]) (Some "Bearer good-token") Fixtures.flight_booking))
  = 500%Z
  /\ snd (create_booking Fixtures.booking_env 1700000000000 1700000000000
            (Online [first]) (Some "Bearer good-token") Fixtures.flight_booking)
     = Online [first].
Proof.
  intros first.
  apply (same_millisecond_booking_is_refused Fixtures.booking_env 1700000000000
           1700000000000 [first] (Some "Bearer good-token") Fixtures.flight_booking
           {| tp_id := "65a4f0c2b7e1a2d3c4b5a697"; tp_email := "alice@example.com" |}
           first).
  - reflexivity.
  - left. reflexivity.
  - reflexivity.
Defined.

(** X25.  The token gate: a request without an [Authorization] header, or
    whose header has nothing after its first blank, is answered 401 "Access
    token required"; one whose token does not verify is answered 403 "Invalid
    token"; and the gate lets a request through only with the payload that
    [jwt.verify] decodes from the text between the first and the second blank
    of the header. *)
Theorem authenticateToken_outcomes (env : Env) (authorization : option string) :
  (authorization = None ->
   authenticateToken env authorization
   = inr {| status := 401; body := ErrorBody "Access token required" |})
  /\ (forall header, authorization = Some header ->
        split_second " " header = None \/ split_second " " header = Some EmptyString ->
        authenticateToken env authorization
        = inr {| status := 401; body := ErrorBody "Access token required" |})
  /\ (forall header token, authorization = Some header ->
        split_second " " header = Some token -> is_empty token = false ->
        jwt_verify env token = None ->
        authenticateToken env authorization
        = inr {| status := 403; body := ErrorBody "Invalid token" |})
  /\ (forall user, authenticateToken env authorization = inl user ->
        exists header token,
          authorization = Some header
          /\ split_second " " header = Some token
          /\ is_empty token = false
          /\ jwt_verify env token = Some user).
Proof.
  unfold authenticateToken. split; [|split; [|split]].
  - intros ->. reflexivity.
  - intros header -> Hsplit.
    destruct header as [|c r]; [reflexivity|]. cbn [is_empty].
    destruct Hsplit as [-> | ->]; reflexivity.
  - intros header token -> Hsplit Hne Hbad.
    destruct header as [|c r]; [discriminate|]. cbn [is_empty].
    now rewrite Hsplit, Hne, Hbad.
  - intros user H.
    destruct authorization as [header|]; [|discriminate].
    destruct (is_empty header); [discriminate|].
    destruct (split_second " " header) as [token|] eqn:Hsplit; [|discriminate].
    destruct (is_empty token) eqn:Hne; [discriminate|].
    destruct (jwt_verify env token) as [u|] eqn:Hv; [|discriminate].
    injection H as <-. exists header, token. auto.
Qed.

Example authenticateToken_samples :
  authenticateToken Fixtures.booking_env (Some "Bearer")
  = inr {| status := 401; body := ErrorBody "Access token required" |}
  /\ authenticateToken Fixtures.booking_env (Some "Bearer  good-token")
     = inr {| status := 401; body := ErrorBody "Access token required" |}
  /\ authenticateToken Fixtures.booking_env (Some "Bearer forged")
     = inr {| status := 403; body := ErrorBody "Invalid token" |}
  /\ authenticateToken Fixtures.booking_env (Some "Bearer good-token and more")
     = inl {| tp_id := "65a4f0c2b7e1a2d3c4b5a697"; tp_email := "alice@example.com" |}.
Proof. repeat split. Qed.

Lemma create_booking_cases (env : Env) (now created : Z)
    (store : Collection BookingModel.Booking) (authorization : option string)
    (b : BookingBody) :
  (snd (create_booking env now created store authorization b) = store
   /\ status (fst (create_booking env now created store authorization b)) <> 201%Z)
  \/ exists user docs booking,
       authenticateToken env authorization = inl user
       /\ store = Online docs
       /\ booking = {| BookingModel.bookingReference := booking_reference now;
                       BookingModel.userId := tp_id user;
                       BookingModel.bookingType := bookingType b;
                       BookingModel.serviceId := serviceId b;
                       BookingModel.customerInfo := customerInfo b;
                       BookingModel.bookingDetails := bookingDetails b;
                       BookingModel.totalAmount := totalAmount b;
                       BookingModel.paymentStatus := "completed";
                       BookingModel.bookingStatus := "confirmed";
                       BookingModel.createdAt := created |}
       /\ valid env booking = true
       /\ ~ In (booking_reference now) (references store)
       /\ create_booking env now created store authorization b
          = ({| status := 201;
                body := Created "Booking created successfully" booking |},
             Online (docs ++ [booking])).
Proof.
  unfold create_booking.
  destruct (authenticateToken env authorization) as [user|rejected] eqn:Hauth.
  - unfold save.
    match goal with
    | |- context [valid env ?bk] => set (booking := bk)
    end.
    destruct (valid env booking) eqn:Hvalid; cbn [negb];
      [|left; split; [reflexivity|discriminate]].
    destruct store as [docs|message]; [|left; split; [reflexivity|discriminate]].
    destruct (existsb _ docs) eqn:Hdup; [left; split; [reflexivity|discriminate]|].
    right. exists user, docs, booking.
    split; [reflexivity|]. split; [reflexivity|]. split; [reflexivity|].
    split; [exact Hvalid|]. split; [|reflexivity].
    unfold references. cbn [documents]. intros Hin.
    apply in_map_iff in Hin as (d & Hd & Hin).
    assert (Hex : existsb (fun d => String.eqb (BookingModel.bookingReference d)
                                      (BookingModel.bookingReference booking)) docs = true).
    { apply existsb_exists. exists d. split; [exact Hin|].
      subst booking. cbn [BookingModel.bookingReference].
      now rewrite Hd, String.eqb_refl. }
    congruence.
  - left. split; [reflexivity|].
    revert Hauth. unfold authenticateToken.
    destruct authorization as [header|]; [|intros [= <-]; discriminate].
    destruct (is_empty header); [intros [= <-]; discriminate|].
    destruct (split_second " " header) as [token|]; [|intros [= <-]; discriminate].
    destruct (is_empty token); [intros [= <-]; discriminate|].
    destruct (jwt_verify env token); [discriminate|intros [= <-]; discriminate].
Qed.

(** X26.  The booking route changes the store only when it answers 201, and
    then it appends exactly one booking: the one returned in the response,
    owned by the user of the token (not by anything in the body), with the
    body's type, service, customer, details and amount, valid for the schema.
    The references of the stored bookings stay pairwise distinct. *)
Theorem create_booking_appends_one_owned_booking (env : Env) (now created : Z)
    (store : Collection BookingModel.Booking) (authorization : option string)
    (b : BookingBody) :
  let response := fst (create_booking env now created store authorization b) in
  let store' := snd (create_booking env now created store authorization b) in
  (status response <> 201%Z -> store' = store)
  /\ (status response = 201%Z ->
      exists user booking,
        authenticateToken env authorization = inl user
        /\ body response = Created "Booking created successfully" booking
        /\ documents store' = (documents store ++ [booking])%list
        /\ BookingModel.userId booking = tp_id user
        /\ BookingModel.bookingType booking = bookingType b
        /\ BookingModel.serviceId booking = serviceId b
        /\ BookingModel.customerInfo booking = customerInfo b
        /\ BookingModel.bookingDetails booking = bookingDetails b
        /\ BookingModel.totalAmount booking = totalAmount b
        /\ BookingModel.createdAt booking = created
        /\ valid env booking = true)
  /\ (NoDup (references store) -> NoDup (references store')).
Proof.
  intros response store'. subst response store'.
  destruct (create_booking_cases env now created store authorization b)
    as [[Hsame Hstatus] | (user & docs & booking & Hauth & -> & Hbooking & Hvalid & Hfresh & Heq)].
  - rewrite Hsame. split; [reflexivity|]. split; [contradiction|auto].
  - rewrite Heq. cbn [fst snd status body documents].
    split; [intros Habs; contradiction|]. split.
    + intros _. exists user, booking. subst booking. repeat split; auto.
    + intros Hnodup. unfold references in *. cbn [documents] in *.
      rewrite map_app. cbn [map].
      apply RegistrationFacts.NoDup_snoc; [exact Hnodup|].
      subst booking. exact Hfresh.
Qed.

Example create_booking_sample :
  let r := create_booking Fixtures.booking_env 1700000000000 1700000000001
             (Online Samples.sample_bookings) (Some "Bearer good-token")
             Fixtures.flight_booking in
  status (fst r) = 201%Z
  /\ references (snd r) = ["BKAAA"; "BKBBB"; "BKCCC"; "BKLOYW3V28"].
Proof. split; reflexivity. Qed.


Example my_bookings_sample :
  MyBookings.my_bookings Fixtures.booking_env (Online Samples.sample_bookings)
    (Some "Bearer good-token")
  = {| MyBookings.status := 200;
       MyBookings.body :=
         MyBookings.Mine
           [ Samples.booking_of "BKCCC" "65a4f0c2b7e1a2d3c4b5a697" 1699000002000;
             Samples.booking_of "BKAAA" "65a4f0c2b7e1a2d3c4b5a697" 1699000000000 ] 2 |}.
Proof. reflexivity. Qed.

(** X28.  Booking and listing compose: after the booking route has answered
    201, the my-bookings route, called with the same header on the resulting
    store, lists the booking that was just created. *)
Theorem created_booking_is_listed (env : Env) (now created : Z)
    (store store' : Collection BookingModel.Booking)
    (authorization : option string) (b : BookingBody) (response : BookingResponse)
    (booking : BookingModel.Booking) :
  create_booking env now created store authorization b = (response, store') ->
  status response = 201%Z ->
  body response = Created "Booking created successfully" booking ->
  exists bookings,
    MyBookings.my_bookings env store' authorization
    = {| MyBookings.status := 200;
         MyBookings.body := MyBookings.Mine bookings (List.length bookings) |}
    /\ In booking bookings.
Proof.
  intros H Hstatus Hbody.
  destruct (create_booking_cases env now created store authorization b)
    as [[_ Hnot] | (user & docs & bk & Hauth & -> & Hbk & Hvalid & _ & Heq)].
  - rewrite H in Hnot. contradiction.
  - rewrite Heq in H. injection H as <- <-. cbn [body] in Hbody.
    injection Hbody as <-.
    unfold MyBookings.my_bookings, MyBookings.Booking_find_sort. rewrite Hauth.
    assert (Hid : is_ObjectId env (tp_id user) = true).
    { unfold valid in Hvalid. rewrite !andb_true_iff in Hvalid.
      subst bk. cbn [BookingModel.userId] in Hvalid. tauto. }
    rewrite Hid. cbn [negb]. eexists. split; [reflexivity|].
    rewrite OrderFacts.sort_In, filter_In. split.
    + apply in_or_app. right. now left.
    + subst bk. cbn [BookingModel.userId]. apply String.eqb_refl.
Qed.

Lemma created_booking_is_listed_witness :
  exists response store' booking bookings,
    create_booking Fixtures.booking_env 1700000000000 1700000000001
      (Online Samples.sample_bookings) (Some "Bearer good-token")
      Fixtures.flight_booking = (response, store')
    /\ status response = 201%Z
    /\ body response = Created "Booking created successfully" booking
    /\ MyBookings.my_bookings Fixtures.booking_env store' (Some "Bearer good-token")
       = {| MyBookings.status := 200;
            MyBookings.body := MyBookings.Mine bookings (List.length bookings) |}
    /\ In booking bookings.
Proof.
  eexists. eexists. eexists.
  destruct (created_booking_is_listed Fixtures.booking_env 1700000000000
              1700000000001 (Online Samples.sample_bookings) _
              (Some "Bearer good-token") Fixtures.flight_booking _ _
              eq_refl eq_refl eq_refl) as (bookings & Hlist & Hin).
  exists bookings. split; [reflexivity|]. split; [reflexivity|].
  split; [reflexivity|]. split; [exact Hlist|exact Hin].
Defined.

End BookingsMore.
